(** * PiUpdi Manager: two-wire bus engine and dual-bus relay

    A shallow embedding of [Manager/lib/twi.c] (interrupt driven master and
    slave engines of the AVR Dx TWI peripheral) and of
    [Manager/AppUpload/main.c] (slave callbacks of the two buses, the
    diagnostic monitor and the polling main loop), followed by the
    properties of the bus engine and of the relay logic.

    Conventions.  Registers and [uint8_t] variables are integers in [Z];
    the places where C truncates to eight bits are written out with
    [uint8].  The statically allocated 32-byte arrays are lists that are
    read and updated by index; an access outside an array raises the
    sticky [fault] flag of the machine. *)

From Stdlib Require Import ZArith Bool List Lia.
From stdpp Require Import base list.
Import ListNotations.
Local Open Scope Z_scope.

(** ** Fixed width arithmetic *)

Definition uint8 (z : Z) : Z := z mod 256.
Definition uint16 (z : Z) : Z := z mod 65536.
Definition uint32 (z : Z) : Z := z mod 4294967296.

(** A C scalar used as a condition. *)
Definition truthy (z : Z) : bool := negb (z =? 0).
Definition b2z (b : bool) : Z := if b then 1 else 0.

(** ** twi.c, master engine (TWI0; the TWI1 copy differs only in the
    register block and in the names of its static variables) *)

Module Twim.

(* MCTRLB flush3|ack2|cmd1:0 *)
Definition ACK : Z := 0.
Definition READ : Z := 2.
Definition STOP : Z := 3.
Definition NACK : Z := 4.
Definition FLUSH : Z := 8.
(* MSTATUS RIF7|WIF6|CLKHOLD5|RXACK4|ARBLOST3|BUSERR2|BUSSTATE1:0 *)
Definition RIF : Z := 0x80.
Definition WIF : Z := 0x40.
Definition CLKHOLD : Z := 0x20.
Definition RXNACK : Z := 0x10.
Definition ARBLOST : Z := 0x8.
Definition BUSERR : Z := 0x4.
Definition ALLFLAGS : Z := Z.lor RIF (Z.lor WIF (Z.lor CLKHOLD (Z.lor ARBLOST BUSERR))).
Definition ANYERR : Z := Z.lor ARBLOST BUSERR.
Definition RIEN : Z := RIF.
Definition WIEN : Z := WIF.
Definition RWIEN : Z := Z.lor RIEN WIEN.
Definition RW : Z := 1.
Definition UNKNOWN : Z := 0.
Definition IDLE : Z := 1.
Definition OWNER : Z := 2.
Definition BUSBUSY : Z := 3.
Definition BUSMASK : Z := 3.
Definition READOK : Z := Z.lor RIF (Z.lor CLKHOLD OWNER).
Definition WRITEOK : Z := Z.lor WIF (Z.lor CLKHOLD OWNER).
Definition ENABLE : Z := 1.

(** The master half of the peripheral's register block. *)
Record regs := mk_regs {
  MCTRLA : Z;
  MCTRLB : Z;
  MADDR : Z;
  MDATA : Z;
  MSTATUS : Z
}.

(** The file-scope variables of the master engine together with the data
    memory the buffer pointers point into.  A pointer is an address, the
    null pointer is address 0. *)
Record state := mk_state {
  TWI0 : regs;
  txbuf_ : Z;
  txbufEnd_ : Z;
  txbuf2_ : Z;
  txbuf2End_ : Z;
  rxbuf_ : Z;
  rxbufEnd_ : Z;
  twi_lastResult_ : bool;
  ram : Z -> Z
}.

Definition with_regs (f : regs -> regs) (s : state) : state :=
  mk_state (f (TWI0 s)) (txbuf_ s) (txbufEnd_ s) (txbuf2_ s) (txbuf2End_ s)
           (rxbuf_ s) (rxbufEnd_ s) (twi_lastResult_ s) (ram s).

Definition set_MCTRLA (v : Z) (r : regs) : regs :=
  mk_regs v (MCTRLB r) (MADDR r) (MDATA r) (MSTATUS r).
Definition set_MCTRLB (v : Z) (r : regs) : regs :=
  mk_regs (MCTRLA r) v (MADDR r) (MDATA r) (MSTATUS r).
Definition set_MADDR (v : Z) (r : regs) : regs :=
  mk_regs (MCTRLA r) (MCTRLB r) v (MDATA r) (MSTATUS r).
Definition set_MDATA (v : Z) (r : regs) : regs :=
  mk_regs (MCTRLA r) (MCTRLB r) (MADDR r) v (MSTATUS r).
Definition set_MSTATUS (v : Z) (r : regs) : regs :=
  mk_regs (MCTRLA r) (MCTRLB r) (MADDR r) (MDATA r) v.

Definition set_lastResult (b : bool) (s : state) : state :=
  mk_state (TWI0 s) (txbuf_ s) (txbufEnd_ s) (txbuf2_ s) (txbuf2End_ s)
           (rxbuf_ s) (rxbufEnd_ s) b (ram s).
Definition set_txbuf (p : Z) (s : state) : state :=
  mk_state (TWI0 s) p (txbufEnd_ s) (txbuf2_ s) (txbuf2End_ s)
           (rxbuf_ s) (rxbufEnd_ s) (twi_lastResult_ s) (ram s).
Definition set_txbuf2 (p : Z) (s : state) : state :=
  mk_state (TWI0 s) (txbuf_ s) (txbufEnd_ s) p (txbuf2End_ s)
           (rxbuf_ s) (rxbufEnd_ s) (twi_lastResult_ s) (ram s).
Definition set_rxbuf (p : Z) (s : state) : state :=
  mk_state (TWI0 s) (txbuf_ s) (txbufEnd_ s) (txbuf2_ s) (txbuf2End_ s)
           p (rxbufEnd_ s) (twi_lastResult_ s) (ram s).
Definition store (a v : Z) (s : state) : state :=
  mk_state (TWI0 s) (txbuf_ s) (txbufEnd_ s) (txbuf2_ s) (txbuf2End_ s)
           (rxbuf_ s) (rxbufEnd_ s) (twi_lastResult_ s)
           (fun x => if x =? a then v else ram s x).

Definition m_on (s : state) : state :=
  with_regs (fun r => set_MCTRLA (Z.lor (MCTRLA r) ENABLE) r) s.
Definition m_off (s : state) : state :=
  with_regs (set_MCTRLA 0) s.
Definition m_irqAllOn (s : state) : state :=
  with_regs (fun r => set_MCTRLA (Z.lor (MCTRLA r) RWIEN) r) s.
Definition m_irqAllOff (s : state) : state :=
  with_regs (fun r => set_MCTRLA (Z.land (MCTRLA r) (Z.lnot RWIEN)) r) s.
Definition m_toStateIdle (s : state) : state :=
  with_regs (set_MSTATUS (Z.lor ALLFLAGS IDLE)) s.
Definition m_ackActionACK (s : state) : state :=
  with_regs (set_MCTRLB ACK) s.
Definition m_ACKread (s : state) : state :=
  with_regs (set_MCTRLB READ) s.
Definition m_NACKstop (s : state) : state :=
  with_regs (set_MCTRLB (Z.lor NACK STOP)) s.
Definition m_address (v : Z) (s : state) : state :=
  with_regs (set_MADDR (uint8 (Z.shiftl v 1))) (m_off s).
Definition m_startRead (s : state) : state :=
  with_regs (fun r => set_MADDR (Z.lor (MADDR r) RW) r) (m_ackActionACK s).
Definition m_startWrite (s : state) : state :=
  with_regs (fun r => set_MADDR (Z.land (MADDR r) (Z.lnot RW)) r) s.
Definition m_write (v : Z) (s : state) : state :=
  with_regs (set_MDATA v) s.
Definition m_read (s : state) : Z := MDATA (TWI0 s).
Definition m_status (s : state) : Z := MSTATUS (TWI0 s).
Definition m_isBusy (s : state) : bool := truthy (Z.land (MCTRLA (TWI0 s)) RWIEN).

(** start a read or write, enable irq *)
Definition m_startIrq (wr : bool) (s : state) : state :=
  let s := if wr then m_startWrite s else m_startRead s in
  let s := set_lastResult false s in
  m_irqAllOn s.

(** One interrupt request of the master: the status and data the hardware
    latched when it raised the interrupt. *)
Record irq := mk_irq { irq_status : Z; irq_data : Z }.

Definition latch (e : irq) (s : state) : state :=
  with_regs (fun r => set_MDATA (irq_data e) (set_MSTATUS (irq_status e) r)) s.

Section Engine.

(** [twim_isrCallback_], the optional completion callback registered with
    [twim_callback]; [None] is the null pointer. *)
Variable twim_isrCallback_ : option (state -> state).

(** for isr use *)
Definition m_finished (tf : bool) (s : state) : state :=
  let s := set_lastResult tf s in
  let s := m_NACKstop s in
  let s := m_irqAllOff s in
  match twim_isrCallback_ with
  | Some cb => cb s
  | None => s
  end.

Definition ISR_TWI0_TWIM (s : state) : state :=
  let st := m_status s in
  if truthy (Z.land st ANYERR) then m_finished false s
  else if st =? READOK then
    let s := set_rxbuf (rxbuf_ s + 1) (store (rxbuf_ s) (m_read s) s) in
    if rxbuf_ s <? rxbufEnd_ s then m_ACKread s else m_finished true s
  else if st =? WRITEOK then
    if txbuf_ s <? txbufEnd_ s
    then m_write (ram s (txbuf_ s)) (set_txbuf (txbuf_ s + 1) s)
    else if txbuf2_ s <? txbuf2End_ s
    then m_write (ram s (txbuf2_ s)) (set_txbuf2 (txbuf2_ s + 1) s)
    else if truthy (rxbuf_ s) then m_startRead s else m_finished true s
  else m_finished false s.

(** Does the interrupt handler, entered in state [s] (status already
    latched), take one of its [m_finished] exits? *)
Definition isr_finishes (s : state) : bool :=
  let st := m_status s in
  if truthy (Z.land st ANYERR) then true
  else if st =? READOK then negb (rxbuf_ s + 1 <? rxbufEnd_ s)
  else if st =? WRITEOK then
    negb (txbuf_ s <? txbufEnd_ s) && negb (txbuf2_ s <? txbuf2End_ s)
    && negb (truthy (rxbuf_ s))
  else true.

(** The status snapshots for which the handler reports failure: an error
    bit, or anything that is neither [READOK] nor [WRITEOK]. *)
Definition status_fails (st : Z) : bool :=
  truthy (Z.land st ANYERR) || (negb (st =? READOK) && negb (st =? WRITEOK)).

Definition twim_isBusy (s : state) : bool := m_isBusy s.
Definition twim_lastResultOK (s : state) : bool := twi_lastResult_ s.

(** What happens during one [_delay_us(1)]: the hardware may raise the
    master interrupt once ([Some e]) or not at all ([None]). *)
Definition delay_us_1 (slot : option irq) (s : state) : state :=
  match slot with
  | Some e => ISR_TWI0_TWIM (latch e s)
  | None => s
  end.

(** [while( _delay_us(1), --us && twim_isBusy() ){}].  [env] lists what the
    hardware does in the successive microseconds (nothing once the list is
    exhausted).  [None] is returned when [fuel] runs out before the loop
    exits. *)
Fixpoint wait_loop (fuel : nat) (env : list (option irq)) (us : Z) (s : state)
  : option state :=
  match fuel with
  | O => None
  | S fuel' =>
      let s := delay_us_1 (List.hd None env) s in
      let us := uint16 (us - 1) in
      if truthy us && twim_isBusy s
      then wait_loop fuel' (List.tl env) us s
      else Some s
  end.

(** blocking wait with timeout; the 16-bit counter bounds the loop by
    65536 iterations *)
Definition twim_waitUS (env : list (option irq)) (us : Z) (s : state)
  : option (bool * state) :=
  match wait_loop (Z.to_nat 65536) env us s with
  | Some s' => Some (twim_lastResultOK s', s')
  | None => None
  end.

(** No interrupt of the first [n] slots of [env] makes the handler finish
    the transaction. *)
Fixpoint never_finishes (n : nat) (env : list (option irq)) (s : state) : bool :=
  match n with
  | O => true
  | S n' =>
      match List.hd None env with
      | None => never_finishes n' (List.tl env) s
      | Some e =>
          negb (isr_finishes (latch e s))
          && never_finishes n' (List.tl env) (ISR_TWI0_TWIM (latch e s))
      end
  end.

(** The state in which [m_finished] hands over to the callback. *)
Definition at_callback (tf : bool) (s : state) : state :=
  m_irqAllOff (m_NACKstop (set_lastResult tf s)).

Definition invoke (s : state) : state :=
  match twim_isrCallback_ with Some f => f s | None => s end.

(** Within the first [n] slots an interrupt with a failing status
    arrives, and no interrupt before it finishes the transaction. *)
Fixpoint fails_within (n : nat) (env : list (option irq)) (s : state) : bool :=
  match n with
  | O => false
  | S n' =>
      match List.hd None env with
      | None => fails_within n' (List.tl env) s
      | Some e =>
          if status_fails (irq_status e) then true
          else negb (isr_finishes (latch e s))
               && fails_within n' (List.tl env) (ISR_TWI0_TWIM (latch e s))
      end
  end.

(** The completion callback, if there is one, starts no new transfer: it
    leaves the interrupt enable bits and the result flag alone. *)
Definition cb_quiet : Prop :=
  match twim_isrCallback_ with
  | None => True
  | Some f => forall s, MCTRLA (TWI0 (f s)) = MCTRLA (TWI0 s)
                        /\ twi_lastResult_ (f s) = twi_lastResult_ s
  end.

End Engine.

Definition twim_off (s : state) : state := m_off s.
Definition twim_on (addr : Z) (s : state) : state :=
  m_on (m_toStateIdle (m_address addr s)).

(** write+read (or write only, or read only) *)
Definition twim_writeRead (wbuf wn rbuf rn : Z) (s : state) : state :=
  let s := mk_state (TWI0 s) wbuf (wbuf + wn) 0 0 rbuf (rbuf + rn)
                    (twi_lastResult_ s) (ram s) in
  m_startIrq (truthy wn) s.

(** write/write (such as a command, then a buffer) *)
Definition twim_writeWrite (wbuf wn wbuf2 wn2 : Z) (s : state) : state :=
  let s := mk_state (TWI0 s) wbuf (wbuf + wn) wbuf2 (wbuf2 + wn2) 0 0
                    (twi_lastResult_ s) (ram s) in
  m_startIrq true s.

Definition twim_write (wbuf wn : Z) (s : state) : state :=
  twim_writeRead wbuf wn 0 0 s.
Definition twim_read (rbuf rn : Z) (s : state) : state :=
  twim_writeRead 0 0 rbuf rn s.

(** The number of [_delay_us(1)] slots a wait of [us] can take. *)
Definition slots_of (us : Z) : Z := if uint16 us =? 0 then 65536 else uint16 us.

(** Concrete data for the examples: an engine out of reset with a
    four byte buffer at address 0x100. *)
Definition reset_state : state :=
  mk_state (mk_regs 0 0 0 0 0) 0 0 0 0 0 0 false (fun _ => 0).
Definition loaded : state :=
  mk_state (TWI0 (twim_on 0x29 reset_state)) 0x100 0x104 0 0 0 0 false (fun _ => 0).
Definition started_write : state := m_startIrq true loaded.
Definition nack_irq : irq := mk_irq (Z.lor WIF (Z.lor CLKHOLD (Z.lor RXNACK OWNER))) 0.
Definition wok_irq : irq := mk_irq WRITEOK 0.

End Twim.

(** ** twi.c, slave engine *)

(** The states the slave interrupt reports to its callback ([twi.h]). *)
Inductive twis_irqstate_t :=
| TWIS_ADDRESSED
| TWIS_MREAD
| TWIS_MWRITE
| TWIS_STOPPED
| TWIS_ERROR.

Definition irqstate_eqb (a b : twis_irqstate_t) : bool :=
  match a, b with
  | TWIS_ADDRESSED, TWIS_ADDRESSED | TWIS_MREAD, TWIS_MREAD
  | TWIS_MWRITE, TWIS_MWRITE | TWIS_STOPPED, TWIS_STOPPED
  | TWIS_ERROR, TWIS_ERROR => true
  | _, _ => false
  end.

(** The two callbacks main.c registers; a value of this type stands for
    the function pointer stored in [twis_isrCallback_]. *)
Inductive twis_callback_t := ptr_twisCallback | ptr_twi1sCallback.

(** The slave half of one peripheral's register block together with the
    static variables its driver keeps ([s_lastAddress_], the callback
    pointer and the [is1st] flag of the interrupt handler).  [sdata_log] is
    a ghost trace of the bytes software stored in [SDATA], oldest first. *)
Record twis := mk_twis {
  SADDR : Z;
  SCTRLA : Z;
  SCTRLB : Z;
  SDATA : Z;
  SSTATUS : Z;
  lastAddress_ : Z;
  isrCallback_ : option twis_callback_t;
  is1st : bool;
  sdata_log : list Z
}.

Definition set_SADDR (v : Z) (p : twis) : twis :=
  mk_twis v (SCTRLA p) (SCTRLB p) (SDATA p) (SSTATUS p) (lastAddress_ p)
          (isrCallback_ p) (is1st p) (sdata_log p).
Definition set_SCTRLA (v : Z) (p : twis) : twis :=
  mk_twis (SADDR p) v (SCTRLB p) (SDATA p) (SSTATUS p) (lastAddress_ p)
          (isrCallback_ p) (is1st p) (sdata_log p).
Definition set_SCTRLB (v : Z) (p : twis) : twis :=
  mk_twis (SADDR p) (SCTRLA p) v (SDATA p) (SSTATUS p) (lastAddress_ p)
          (isrCallback_ p) (is1st p) (sdata_log p).
Definition set_SSTATUS (v : Z) (p : twis) : twis :=
  mk_twis (SADDR p) (SCTRLA p) (SCTRLB p) (SDATA p) v (lastAddress_ p)
          (isrCallback_ p) (is1st p) (sdata_log p).
Definition set_lastAddress (v : Z) (p : twis) : twis :=
  mk_twis (SADDR p) (SCTRLA p) (SCTRLB p) (SDATA p) (SSTATUS p) v
          (isrCallback_ p) (is1st p) (sdata_log p).
Definition set_isrCallback (cb : option twis_callback_t) (p : twis) : twis :=
  mk_twis (SADDR p) (SCTRLA p) (SCTRLB p) (SDATA p) (SSTATUS p) (lastAddress_ p)
          cb (is1st p) (sdata_log p).
Definition set_is1st (b : bool) (p : twis) : twis :=
  mk_twis (SADDR p) (SCTRLA p) (SCTRLB p) (SDATA p) (SSTATUS p) (lastAddress_ p)
          (isrCallback_ p) b (sdata_log p).
(** The hardware latching a received byte in the data register. *)
Definition latch_SDATA (v : Z) (p : twis) : twis :=
  mk_twis (SADDR p) (SCTRLA p) (SCTRLB p) v (SSTATUS p) (lastAddress_ p)
          (isrCallback_ p) (is1st p) (sdata_log p).

Definition s_gencall (v : Z) (p : twis) : twis :=
  set_SADDR (uint8 (Z.lor (Z.shiftl v 1) 1)) p.
Definition s_off (p : twis) : twis := set_SCTRLA (Z.land (SCTRLA p) (Z.lnot 1)) p.
Definition s_on (p : twis) : twis := set_SCTRLA (Z.lor (SCTRLA p) 1) p.
Definition s_read (p : twis) : Z := SDATA p.
Definition s_write (v : Z) (p : twis) : twis :=
  mk_twis (SADDR p) (SCTRLA p) (SCTRLB p) v (SSTATUS p) (lastAddress_ p)
          (isrCallback_ p) (is1st p) (sdata_log p ++ [v]).
Definition s_irqAllOn (p : twis) : twis := set_SCTRLA (Z.lor (SCTRLA p) 0xE0) p.
Definition s_irqAllOff (p : twis) : twis :=
  set_SCTRLA (Z.land (SCTRLA p) (Z.lnot 0xE0)) p.
Definition s_status (p : twis) : Z := SSTATUS p.
Definition s_clearFlags (p : twis) : twis := set_SSTATUS 0xCC p.
Definition s_nackComplete (p : twis) : twis := set_SCTRLB 6 p. (* COMPTRANS, NACK *)
Definition s_ack (p : twis) : twis := set_SCTRLB 3 p.          (* RESPONSE, ACK *)

(* DIF:APIF:CLKHOLD:RXACK:COLL:BUSERR:DIR:AP *)
Definition DIF_DIRbm : Z := 0x82.
Definition APIF_APbm : Z := 0x41.
Definition RXNACKbm : Z := 0x10.
Definition ERRbm : Z := 0x0C.
Definition DIF_R : Z := 0x82.
Definition DIF_W : Z := 0x80.
Definition APIF_ADDR : Z := 0x41.
Definition APIF_STOP : Z := 0x40.

(* v = a copy of SSTATUS (used in isr) *)
Definition isDataRead (v : Z) : bool := Z.land v DIF_DIRbm =? DIF_R.
Definition isDataWrite (v : Z) : bool := Z.land v DIF_DIRbm =? DIF_W.
Definition isAddress (v : Z) : bool := Z.land v APIF_APbm =? APIF_ADDR.
Definition isStop (v : Z) : bool := Z.land v APIF_APbm =? APIF_STOP.
Definition isRxNack (v : Z) : bool := truthy (Z.land v RXNACKbm).
Definition isError (v : Z) : bool := truthy (Z.land v ERRbm).

(** The state the handler derives from its copy of the status register. *)
Definition irq_state (s : Z) : twis_irqstate_t :=
  if isError s then TWIS_ERROR
  else if isStop s then TWIS_STOPPED
  else if isAddress s then TWIS_ADDRESSED
  else if isDataRead s then TWIS_MREAD
  else if isDataWrite s then TWIS_MWRITE
  else TWIS_ERROR.

Definition twis_off (p : twis) : twis := s_clearFlags (s_off (s_irqAllOff p)).

Definition twis_init (addr : Z) (cb : option twis_callback_t) (p : twis) : twis :=
  match cb with
  | None => p
  | Some _ => s_on (s_irqAllOn (s_gencall addr (set_isrCallback cb (twis_off p))))
  end.

(** ** main.c, data *)

Definition BUFF_SIZE : Z := 32.
Definition BLINK_DELAY : Z := 1000.
Definition fromHost_addr : Z := 42.
Definition fromApp_addr : Z := 41.
Definition LAST_OP_A : Z := 0.
Definition LAST_OP_R : Z := 1.
Definition LAST_OP_W : Z := 2.

(** Arrays of [BUFF_SIZE] bytes. *)
Definition in_array (i : Z) : bool := (0 <=? i) && (i <? BUFF_SIZE).
Definition arr_get (a : list Z) (i : Z) : Z := default 0 (a !! Z.to_nat i).
Definition arr_set (a : list Z) (i v : Z) : list Z := <[Z.to_nat i := v]> a.
Definition zeros : list Z := replicate (Z.to_nat BUFF_SIZE) 0.

(** [for(int i = 0; i < bufsize; ++i) dst[i] = src[i];] from index [i] on,
    with [n] iterations left. *)
Fixpoint copy_loop (n i : nat) (src dst : list Z) : list Z :=
  match n with
  | O => dst
  | S n' => copy_loop n' (S i) src (<[i := default 0 (src !! i)]> dst)
  end.
Definition copy_bytes (bufsize : Z) (src dst : list Z) : list Z :=
  copy_loop (Z.to_nat bufsize) 0 src dst.

(** The per-bus variables of main.c: [twi0RxBuffer] (BufferA),
    [twi0RxBufferLength], [twi0TxBuffer] (BufferB), [twi0TxBufferLength],
    [twi0TxBufferIndex], [twi0_slave_status_cpy], [twi0_last_op], and the
    same with prefix [twi1] (BufferC, BufferD).  The buffer pointers are
    never reassigned, so a pointer and its array are one field. *)
Record slave_vars := mk_slave_vars {
  RxBuffer : list Z;
  RxBufferLength : Z;
  TxBuffer : list Z;
  TxBufferLength : Z;
  TxBufferIndex : Z;
  slave_status_cpy : Z;
  last_op : Z
}.

(** The Diagnostic Print Job. *)
Record print_job := mk_print_job {
  printOp1Buffer : list Z;
  printOp1BufferLength : Z;
  printOp1BufferIndex : Z;
  printOp1rw : Z;
  printOp2Buffer : list Z;
  printOp2BufferLength : Z;
  printOp2BufferIndex : Z;
  printOp2rw : Z;
  print_slave_addr : Z;
  printing : Z
}.

(** The Relay Record ([got_twi0_buf] is BufferE) and the flag of the
    application bus. *)
Record relay := mk_relay {
  got_twi0 : Z;
  got_twi0_buf : list Z;
  got_twi0BufferLength : Z;
  got_twi0BufferIndex : Z;
  got_twi1 : Z
}.

(** The output pins main.c drives ([io_enum_bsd.h]). *)
Inductive MCU_IO_t :=
| MCU_IO_MGR_LED
| MCU_IO_RX_nRE
| MCU_IO_RX_DE
| MCU_IO_TX_nRE
| MCU_IO_TX_DE
| MCU_IO_OOB_nRE
| MCU_IO_OOB_DE
| MCU_IO_MGR_SETAPP4_UART
| MCU_IO_MGR_SETAPP4_UPDI.

Inductive LOGIC_LEVEL_t := LOGIC_LEVEL_LOW | LOGIC_LEVEL_HIGH.

#[global] Instance MCU_IO_eq_dec : EqDecision MCU_IO_t.
Proof. solve_decision. Defined.

(** What main.c prints on the debug UART, one constructor per format
    string, with the format's arguments. *)
Inductive fragment :=
| Out_echo (c : Z)          (* "%c\r" *)
| Out_abort                 (* {"abort":"'$' found"}\r\n *)
| Out_ping (addr : Z)       (* {"ping":"0x%X"}\r\n *)
| Out_monitor (addr : Z)    (* {"monitor_0x%X":[ *)
| Out_status (st : Z)       (* {"status":"0x%X"} *)
| Out_len (n : Z)           (* ,{"len":"%d"} *)
| Out_W1 (b : Z)            (* ,{"W1":"0x%X"} *)
| Out_R1 (b : Z)            (* ,{"R1":"0x%X"} *)
| Out_W2 (b : Z)            (* ,{"W2":"0x%X"} *)
| Out_R2 (b : Z)            (* ,{"R2":"0x%X"} *)
| Out_close.                (* ]}\r\n *)

(** Pins, blink timing, the monitor's progress counter, the text written
    to the debug UART, and whether [abort_safe] has frozen the device. *)
Record board := mk_board {
  pins : MCU_IO_t -> LOGIC_LEVEL_t;
  blink_started_at : Z;
  blink_delay : Z;
  got_a : Z;
  debug_print_done : Z;
  uart1_out : list fragment;
  halted : bool
}.

(** What the surroundings answer when the program asks: is there room in
    the UART's transmit buffer, the received character if there is one,
    the ticks elapsed since [blink_started_at], the tick counter. *)
Record world := mk_world {
  uart1_room : bool;
  uart1_rx : option Z;
  elapsed_ticks : Z;
  tick_now : Z
}.

Record machine := mk_machine {
  twi0 : slave_vars;
  twi1 : slave_vars;
  job : print_job;
  rly : relay;
  TWI0 : twis;
  TWI1 : twis;
  brd : board;
  env : world;
  fault : bool
}.

Definition upd_twi0 (f : slave_vars -> slave_vars) (m : machine) : machine :=
  mk_machine (f (twi0 m)) (twi1 m) (job m) (rly m) (TWI0 m) (TWI1 m) (brd m) (env m) (fault m).
Definition upd_twi1 (f : slave_vars -> slave_vars) (m : machine) : machine :=
  mk_machine (twi0 m) (f (twi1 m)) (job m) (rly m) (TWI0 m) (TWI1 m) (brd m) (env m) (fault m).
Definition upd_job (f : print_job -> print_job) (m : machine) : machine :=
  mk_machine (twi0 m) (twi1 m) (f (job m)) (rly m) (TWI0 m) (TWI1 m) (brd m) (env m) (fault m).
Definition upd_rly (f : relay -> relay) (m : machine) : machine :=
  mk_machine (twi0 m) (twi1 m) (job m) (f (rly m)) (TWI0 m) (TWI1 m) (brd m) (env m) (fault m).
Definition upd_TWI0 (f : twis -> twis) (m : machine) : machine :=
  mk_machine (twi0 m) (twi1 m) (job m) (rly m) (f (TWI0 m)) (TWI1 m) (brd m) (env m) (fault m).
Definition upd_TWI1 (f : twis -> twis) (m : machine) : machine :=
  mk_machine (twi0 m) (twi1 m) (job m) (rly m) (TWI0 m) (f (TWI1 m)) (brd m) (env m) (fault m).
Definition upd_brd (f : board -> board) (m : machine) : machine :=
  mk_machine (twi0 m) (twi1 m) (job m) (rly m) (TWI0 m) (TWI1 m) (f (brd m)) (env m) (fault m).
Definition set_env (w : world) (m : machine) : machine :=
  mk_machine (twi0 m) (twi1 m) (job m) (rly m) (TWI0 m) (TWI1 m) (brd m) w (fault m).
(** Record an array access; [ok] tells whether it was inside the array. *)
Definition access (ok : bool) (m : machine) : machine :=
  mk_machine (twi0 m) (twi1 m) (job m) (rly m) (TWI0 m) (TWI1 m) (brd m) (env m)
             (fault m || negb ok).

Definition set_RxBuffer (a : list Z) (v : slave_vars) : slave_vars :=
  mk_slave_vars a (RxBufferLength v) (TxBuffer v) (TxBufferLength v)
                (TxBufferIndex v) (slave_status_cpy v) (last_op v).
Definition set_RxBufferLength (n : Z) (v : slave_vars) : slave_vars :=
  mk_slave_vars (RxBuffer v) n (TxBuffer v) (TxBufferLength v)
                (TxBufferIndex v) (slave_status_cpy v) (last_op v).
Definition set_TxBuffer (a : list Z) (v : slave_vars) : slave_vars :=
  mk_slave_vars (RxBuffer v) (RxBufferLength v) a (TxBufferLength v)
                (TxBufferIndex v) (slave_status_cpy v) (last_op v).
Definition set_TxBufferLength (n : Z) (v : slave_vars) : slave_vars :=
  mk_slave_vars (RxBuffer v) (RxBufferLength v) (TxBuffer v) n
                (TxBufferIndex v) (slave_status_cpy v) (last_op v).
Definition set_TxBufferIndex (n : Z) (v : slave_vars) : slave_vars :=
  mk_slave_vars (RxBuffer v) (RxBufferLength v) (TxBuffer v) (TxBufferLength v)
                n (slave_status_cpy v) (last_op v).
Definition set_slave_status_cpy (n : Z) (v : slave_vars) : slave_vars :=
  mk_slave_vars (RxBuffer v) (RxBufferLength v) (TxBuffer v) (TxBufferLength v)
                (TxBufferIndex v) n (last_op v).
Definition set_last_op (n : Z) (v : slave_vars) : slave_vars :=
  mk_slave_vars (RxBuffer v) (RxBufferLength v) (TxBuffer v) (TxBufferLength v)
                (TxBufferIndex v) (slave_status_cpy v) n.

Definition set_printing (n : Z) (j : print_job) : print_job :=
  mk_print_job (printOp1Buffer j) (printOp1BufferLength j) (printOp1BufferIndex j)
               (printOp1rw j) (printOp2Buffer j) (printOp2BufferLength j)
               (printOp2BufferIndex j) (printOp2rw j) (print_slave_addr j) n.
Definition set_printOp1BufferIndex (n : Z) (j : print_job) : print_job :=
  mk_print_job (printOp1Buffer j) (printOp1BufferLength j) n
               (printOp1rw j) (printOp2Buffer j) (printOp2BufferLength j)
               (printOp2BufferIndex j) (printOp2rw j) (print_slave_addr j) (printing j).
Definition set_printOp2BufferIndex (n : Z) (j : print_job) : print_job :=
  mk_print_job (printOp1Buffer j) (printOp1BufferLength j) (printOp1BufferIndex j)
               (printOp1rw j) (printOp2Buffer j) (printOp2BufferLength j)
               n (printOp2rw j) (print_slave_addr j) (printing j).

Definition set_got_twi0 (n : Z) (r : relay) : relay :=
  mk_relay n (got_twi0_buf r) (got_twi0BufferLength r) (got_twi0BufferIndex r) (got_twi1 r).
Definition set_got_twi1 (n : Z) (r : relay) : relay :=
  mk_relay (got_twi0 r) (got_twi0_buf r) (got_twi0BufferLength r) (got_twi0BufferIndex r) n.

Definition set_pins (f : MCU_IO_t -> LOGIC_LEVEL_t) (b : board) : board :=
  mk_board f (blink_started_at b) (blink_delay b) (got_a b) (debug_print_done b)
           (uart1_out b) (halted b).
Definition set_blink_started_at (n : Z) (b : board) : board :=
  mk_board (pins b) n (blink_delay b) (got_a b) (debug_print_done b)
           (uart1_out b) (halted b).
Definition set_blink_delay (n : Z) (b : board) : board :=
  mk_board (pins b) (blink_started_at b) n (got_a b) (debug_print_done b)
           (uart1_out b) (halted b).
Definition set_got_a (n : Z) (b : board) : board :=
  mk_board (pins b) (blink_started_at b) (blink_delay b) n (debug_print_done b)
           (uart1_out b) (halted b).
Definition set_debug_print_done (n : Z) (b : board) : board :=
  mk_board (pins b) (blink_started_at b) (blink_delay b) (got_a b) n
           (uart1_out b) (halted b).
Definition set_halted (h : bool) (b : board) : board :=
  mk_board (pins b) (blink_started_at b) (blink_delay b) (got_a b) (debug_print_done b)
           (uart1_out b) h.
Definition put (f : fragment) (b : board) : board :=
  mk_board (pins b) (blink_started_at b) (blink_delay b) (got_a b) (debug_print_done b)
           (uart1_out b ++ [f]) (halted b).

(** ** main.c, code *)

(** Modelled from the spec: [ioWrite] and [ioToggle] of [io_enum_bsd.h]
    (not among the sources) set and invert the level of a discrete output
    line. *)
Definition ioWrite (io : MCU_IO_t) (level : LOGIC_LEVEL_t) (m : machine) : machine :=
  upd_brd (fun b => set_pins (fun x => if decide (x = io) then level else pins b x) b) m.
Definition ioToggle (io : MCU_IO_t) (m : machine) : machine :=
  ioWrite io (match pins (brd m) io with
              | LOGIC_LEVEL_LOW => LOGIC_LEVEL_HIGH
              | LOGIC_LEVEL_HIGH => LOGIC_LEVEL_LOW
              end) m.

(** [fprintf]/[fprintf_P] on the debug UART. *)
Definition fprintf_P (f : fragment) (m : machine) : machine := upd_brd (put f) m.

Definition uart1_availableForWrite (m : machine) : bool := uart1_room (env m).

(** The public accessors of the slave engines used by the callbacks. *)
Definition twis_write (v : Z) (m : machine) : machine := upd_TWI0 (s_write v) m.
Definition twis_read (m : machine) : Z := s_read (TWI0 m).
Definition twis_lastAddress (m : machine) : Z := lastAddress_ (TWI0 m).
Definition twi1s_write (v : Z) (m : machine) : machine := upd_TWI1 (s_write v) m.
Definition twi1s_read (m : machine) : Z := s_read (TWI1 m).
Definition twi1s_lastAddress (m : machine) : Z := lastAddress_ (TWI1 m).

(** don't block, check if time has elapsed to toggle *)
Definition blink (m : machine) : machine :=
  let kRuntime := elapsed_ticks (env m) in
  if blink_delay (brd m) <? kRuntime then
    let m := ioToggle MCU_IO_MGR_LED m in
    upd_brd (fun b => set_blink_started_at (uint32 (blink_started_at b + blink_delay b)) b) m
  else m.

(** [abort_safe] never returns: after putting the transceivers in a safe
    state it disables interrupts and spins; the machine is [halted]. *)
Definition abort_safe (m : machine) : machine :=
  let m := ioWrite MCU_IO_RX_nRE LOGIC_LEVEL_HIGH m in
  let m := ioWrite MCU_IO_RX_DE LOGIC_LEVEL_LOW m in
  let m := ioWrite MCU_IO_TX_nRE LOGIC_LEVEL_HIGH m in
  let m := ioWrite MCU_IO_TX_DE LOGIC_LEVEL_LOW m in
  let m := ioWrite MCU_IO_MGR_SETAPP4_UART LOGIC_LEVEL_LOW m in
  let m := ioWrite MCU_IO_MGR_SETAPP4_UPDI LOGIC_LEVEL_LOW m in
  let m := ioWrite MCU_IO_MGR_LED LOGIC_LEVEL_LOW m in
  upd_brd (set_halted true) m.

(** The value main.c assigns to [printing] before it fills the first
    slot: both slots fully emitted and room in the UART. *)
Definition slots_free (m : machine) : bool :=
  (printOp1BufferLength (job m) <=? printOp1BufferIndex (job m))
  && (printOp2BufferLength (job m) <=? printOp2BufferIndex (job m))
  && uart1_availableForWrite m.

(** fill print op1 buffer *)
Definition print_Op1_buf_if_possible (rw : Z) (buf : list Z) (bufsize : Z)
    (lastAddress : Z) (m : machine) : bool * machine :=
  let ret := truthy (printing (job m)) in
  if ret then
    let m := access (bufsize <=? BUFF_SIZE) m in
    (ret, upd_job (fun j =>
            mk_print_job (copy_bytes bufsize buf (printOp1Buffer j)) bufsize 0 rw
                         (printOp2Buffer j) (printOp2BufferLength j)
                         (printOp2BufferIndex j) (printOp2rw j)
                         lastAddress (printing j)) m)
  else (ret, m).

(** fill print op2 buffer (e.g. write+write/write+read on i2c) *)
Definition print_Op2_buf_if_possible (rw : Z) (buf : list Z) (bufsize : Z)
    (lastAddress : Z) (m : machine) : bool * machine :=
  let ret := truthy (printing (job m)) in
  if ret then
    let m := access (bufsize <=? BUFF_SIZE) m in
    let m := upd_job (fun j =>
               mk_print_job (printOp1Buffer j) (printOp1BufferLength j)
                            (printOp1BufferIndex j) (printOp1rw j)
                            (copy_bytes bufsize buf (printOp2Buffer j)) bufsize 0 rw
                            (print_slave_addr j) (printing j)) m in
    if negb (print_slave_addr (job m) =? lastAddress) then
      (* don't print this we have got data for different addresses *)
      (false, upd_job (fun j =>
                mk_print_job (printOp1Buffer j) 0 (printOp1BufferIndex j) (printOp1rw j)
                             (printOp2Buffer j) 0 (printOp2BufferIndex j) (printOp2rw j)
                             (print_slave_addr j) 0) m)
    else (ret, m)
  else (ret, m).

(** What [move_buffer] leaves in the objects its pointer arguments refer
    to. *)
Record moved := mk_moved {
  to_buf' : list Z;
  from_bufsize' : Z;
  to_bufsize' : Z;
  to_bufindex' : Z;
  inside : bool (* every index used was inside both arrays *)
}.

Definition move_buffer (from_buf : list Z) (from_bufsize : Z) (to_buf : list Z)
  : bool * moved :=
  (true, mk_moved (copy_bytes from_bufsize from_buf to_buf) 0 from_bufsize 0
                  (from_bufsize <=? BUFF_SIZE)).

(** The callback of the host-facing bus. *)
Definition twisCallback (state : twis_irqstate_t) (statusReg : Z) (m : machine)
  : bool * machine :=
  match state with
  | TWIS_ADDRESSED =>
      let ret := twis_lastAddress m =? fromHost_addr in
      let m := upd_twi0 (set_slave_status_cpy statusReg) m in
      let m :=
        if truthy (RxBufferLength (twi0 m)) then
          let m := upd_job (set_printing (b2z (slots_free m))) m in
          let m := snd (print_Op1_buf_if_possible (last_op (twi0 m)) (RxBuffer (twi0 m))
                          (RxBufferLength (twi0 m)) (twis_lastAddress m) m) in
          let r := snd (move_buffer (RxBuffer (twi0 m)) (RxBufferLength (twi0 m))
                          (TxBuffer (twi0 m))) in
          access (inside r)
            (upd_twi0 (fun v =>
               mk_slave_vars (RxBuffer v) (from_bufsize' r) (to_buf' r) (to_bufsize' r)
                             (to_bufindex' r) (slave_status_cpy v) (last_op v)) m)
        else m in
      (ret, upd_twi0 (set_last_op LAST_OP_A) m)
  | TWIS_MREAD =>
      let i := TxBufferIndex (twi0 m) in
      let m :=
        if i <? TxBufferLength (twi0 m) then
          let m := upd_twi0 (set_TxBufferIndex (uint8 (i + 1))) m in
          twis_write (arr_get (TxBuffer (twi0 m)) i) (access (in_array i) m)
        else m in
      (true, upd_twi0 (set_last_op LAST_OP_R) m)
  | TWIS_MWRITE =>
      let n := RxBufferLength (twi0 m) in
      let m := access (in_array n) m in
      let m := upd_twi0 (set_RxBuffer (arr_set (RxBuffer (twi0 m)) n (twis_read m))) m in
      let m := upd_twi0 (set_RxBufferLength (uint8 (n + 1))) m in
      let ret := RxBufferLength (twi0 m) <? BUFF_SIZE in
      (ret, upd_twi0 (set_last_op LAST_OP_W) m)
  | TWIS_STOPPED =>
      let m :=
        if truthy (TxBufferLength (twi0 m)) then
          if truthy (RxBufferLength (twi0 m)) then (* write+write *)
            snd (print_Op2_buf_if_possible (last_op (twi0 m)) (RxBuffer (twi0 m))
                   (RxBufferLength (twi0 m)) (twis_lastAddress m) m)
          else (* write+read *)
            let m := snd (print_Op2_buf_if_possible (last_op (twi0 m)) (TxBuffer (twi0 m))
                            (TxBufferLength (twi0 m)) (twis_lastAddress m) m) in
            let r := snd (move_buffer (TxBuffer (twi0 m)) (TxBufferLength (twi0 m))
                            (got_twi0_buf (rly m))) in
            let m := upd_twi0 (set_TxBufferLength (from_bufsize' r)) m in
            let m := upd_rly (fun g =>
                       mk_relay (got_twi0 g) (to_buf' r) (to_bufsize' r) (to_bufindex' r)
                                (got_twi1 g)) m in
            upd_rly (set_got_twi0 1) (access (inside r) m)
        else if truthy (RxBufferLength (twi0 m)) then (* stop after write *)
          let m := upd_job (set_printing (b2z (slots_free m))) m in
          snd (print_Op1_buf_if_possible (last_op (twi0 m)) (RxBuffer (twi0 m))
                 (RxBufferLength (twi0 m)) (twis_lastAddress m) m)
        else if last_op (twi0 m) =? LAST_OP_A then (* we got a ping *)
          let m := upd_job (set_printing (b2z (slots_free m))) m in
          if truthy (printing (job m)) then fprintf_P (Out_ping fromHost_addr) m else m
        else m in
      (* transaction is done. *)
      let m := upd_twi0 (set_TxBufferLength 0) m in
      let m := upd_twi0 (set_RxBufferLength 0) m in
      (true, m)
  | TWIS_ERROR => (false, m)
  end.

(** The callback of the application-facing bus. *)
Definition twi1sCallback (state : twis_irqstate_t) (statusReg : Z) (m : machine)
  : bool * machine :=
  match state with
  | TWIS_ADDRESSED =>
      let ret := twi1s_lastAddress m =? fromApp_addr in
      let m := upd_twi1 (set_slave_status_cpy statusReg) m in
      let m :=
        if truthy (RxBufferLength (twi1 m)) then
          let m := upd_job (set_printing (b2z (slots_free m))) m in
          let m := snd (print_Op1_buf_if_possible (last_op (twi1 m)) (RxBuffer (twi1 m))
                          (RxBufferLength (twi1 m)) (twi1s_lastAddress m) m) in
          let r := snd (move_buffer (RxBuffer (twi1 m)) (RxBufferLength (twi1 m))
                          (TxBuffer (twi1 m))) in
          access (inside r)
            (upd_twi1 (fun v =>
               mk_slave_vars (RxBuffer v) (from_bufsize' r) (to_buf' r) (to_bufsize' r)
                             (to_bufindex' r) (slave_status_cpy v) (last_op v)) m)
        else m in
      (ret, upd_twi1 (set_last_op LAST_OP_A) m)
  | TWIS_MREAD =>
      let i := TxBufferIndex (twi1 m) in
      let m :=
        if i <? TxBufferLength (twi1 m) then
          let m := upd_twi1 (set_TxBufferIndex (uint8 (i + 1))) m in
          twis_write (arr_get (TxBuffer (twi1 m)) i) (access (in_array i) m)
        else m in
      (true, upd_twi1 (set_last_op LAST_OP_R) m)
  | TWIS_MWRITE =>
      let n := RxBufferLength (twi1 m) in
      let m := access (in_array n) m in
      let m := upd_twi1 (set_RxBuffer (arr_set (RxBuffer (twi1 m)) n (twis_read m))) m in
      let m := upd_twi1 (set_RxBufferLength (uint8 (n + 1))) m in
      let ret := RxBufferLength (twi1 m) <? BUFF_SIZE in
      (ret, upd_twi1 (set_last_op LAST_OP_W) m)
  | TWIS_STOPPED =>
      let m :=
        if truthy (TxBufferLength (twi1 m)) then
          if truthy (RxBufferLength (twi1 m)) then (* write+write *)
            snd (print_Op2_buf_if_possible (last_op (twi1 m)) (RxBuffer (twi1 m))
                   (RxBufferLength (twi1 m)) (twis_lastAddress m) m)
          else (* write+read *)
            snd (print_Op2_buf_if_possible (last_op (twi1 m)) (TxBuffer (twi1 m))
                   (TxBufferLength (twi1 m)) (twis_lastAddress m) m)
        else if truthy (RxBufferLength (twi1 m)) then (* stop after write or read *)
          let m := upd_job (set_printing (b2z (slots_free m))) m in
          snd (print_Op1_buf_if_possible (last_op (twi1 m)) (RxBuffer (twi1 m))
                 (RxBufferLength (twi1 m)) (twis_lastAddress m) m)
        else if last_op (twi1 m) =? LAST_OP_A then (* we got a ping *)
          let m := upd_job (set_printing (b2z (slots_free m))) m in
          if truthy (printing (job m)) then fprintf_P (Out_ping fromHost_addr) m else m
        else m in
      (* transaction is done so reset the buffers *)
      let m := upd_twi1 (set_TxBufferLength 0) m in
      let m := upd_twi1 (set_RxBufferLength 0) m in
      (true, m)
  | TWIS_ERROR => (false, m)
  end.

(** ** twi.c, the slave interrupt handlers *)

(** Calling through a registered callback pointer. *)
Definition call_callback (cb : twis_callback_t) : twis_irqstate_t -> Z -> machine -> bool * machine :=
  match cb with
  | ptr_twisCallback => twisCallback
  | ptr_twi1sCallback => twi1sCallback
  end.

Inductive bus := Bus0 | Bus1.

Definition periph (b : bus) (m : machine) : twis :=
  match b with Bus0 => TWI0 m | Bus1 => TWI1 m end.
Definition upd_periph (b : bus) (f : twis -> twis) (m : machine) : machine :=
  match b with Bus0 => upd_TWI0 f m | Bus1 => upd_TWI1 f m end.

(** [ISR(TWI0_TWIS_vect)] and [ISR(TWI1_TWIS_vect)]: the two handlers are
    the same text over the register block and the static variables of
    their own peripheral.  The callback function returns true if it wants
    to proceed. *)
Definition slave_isr (b : bus) (m : machine) : machine :=
  let s := s_status (periph b m) in
  let state := irq_state s in
  let nacked := isRxNack s in
  let done := false in
  let '(done, m) :=
    if irqstate_eqb state TWIS_ADDRESSED then
      (done, upd_periph b (fun p => set_is1st true
                                      (set_lastAddress (Z.shiftr (s_read p) 1) p)) m)
    else if irqstate_eqb state TWIS_MREAD then
      if is1st (periph b m) then (done, upd_periph b (set_is1st false) m)
      else (nacked, m)
    else if negb (irqstate_eqb state TWIS_MWRITE) then (true, m) (* error or stopped *)
    else (done, m) in
  let '(ret, m) :=
    match isrCallback_ (periph b m) with
    | Some cb => call_callback cb state s m
    | None => (true, access false m) (* call through a null pointer *)
    end in
  let done := if negb ret then true else done in
  if done then upd_periph b s_nackComplete m else upd_periph b s_ack m.

Definition ISR_TWI0_TWIS : machine -> machine := slave_isr Bus0.
Definition ISR_TWI1_TWIS : machine -> machine := slave_isr Bus1.

(** ** main.c, setup, monitor and main loop *)

Section Board.

(** [cnvrt_milli] of [timers_bsd.h] (not among the sources) converts
    milliseconds to timer ticks. *)
Variable cnvrt_milli : Z -> Z.

Definition setup (m : machine) : machine :=
  let m := ioWrite MCU_IO_MGR_LED LOGIC_LEVEL_HIGH m in
  (* Manager controls if multi-drop RX and TX transceivers *)
  let m := ioWrite MCU_IO_RX_nRE LOGIC_LEVEL_LOW m in
  let m := ioWrite MCU_IO_RX_DE LOGIC_LEVEL_HIGH m in
  let m := ioWrite MCU_IO_TX_nRE LOGIC_LEVEL_LOW m in
  let m := ioWrite MCU_IO_TX_DE LOGIC_LEVEL_HIGH m in
  (* Manager controls out of band transceiver *)
  let m := ioWrite MCU_IO_OOB_nRE LOGIC_LEVEL_HIGH m in
  let m := ioWrite MCU_IO_OOB_DE LOGIC_LEVEL_LOW m in
  (* Manager controls if multi-drop is connected to UART or UPDI *)
  let m := ioWrite MCU_IO_MGR_SETAPP4_UART LOGIC_LEVEL_HIGH m in
  let m := ioWrite MCU_IO_MGR_SETAPP4_UPDI LOGIC_LEVEL_LOW m in
  (* Initialize I2C *)
  let m := upd_TWI0 (twis_init fromHost_addr (Some ptr_twisCallback)) m in
  let m := upd_TWI1 (twis_init fromHost_addr (Some ptr_twi1sCallback)) m in
  let m := upd_brd (set_blink_started_at (tick_now (env m))) m in
  let m := upd_brd (set_blink_delay (cnvrt_milli BLINK_DELAY)) m in
  let m := upd_brd (set_got_a 0) m in
  let m := upd_rly (set_got_twi0 0) m in
  upd_rly (set_got_twi1 0) m.

(** Monitor the I2C slave address with the debug UART.  The first part is
    the [if]/[else if] chain; [None] is its early [return]. *)
Definition i2c_monitor_chain (m : machine) : option machine :=
  let d := debug_print_done (brd m) in
  let j := job m in
  if d =? 0 then
    if printOp1BufferIndex j <? printOp1BufferLength j then
      Some (upd_brd (set_debug_print_done 1) (fprintf_P (Out_monitor (print_slave_addr j)) m))
    else None (* slave receive did not happen yet *)
  else if d =? 1 then
    Some (upd_brd (set_debug_print_done 2)
            (fprintf_P (Out_status (slave_status_cpy (twi0 m))) m))
  else if d =? 2 then
    Some (upd_brd (set_debug_print_done 3) (fprintf_P (Out_len (printOp1BufferLength j)) m))
  else if d =? 3 then
    if printOp1BufferLength j <=? printOp1BufferIndex j then
      Some (upd_brd (set_debug_print_done 4) m) (* done printing *)
    else
      let i := printOp1BufferIndex j in
      let b := arr_get (printOp1Buffer j) i in
      let next := upd_job (set_printOp1BufferIndex (uint8 (i + 1))) (access (in_array i) m) in
      if printOp1rw j =? LAST_OP_W then Some (fprintf_P (Out_W1 b) next)
      else if printOp1rw j =? LAST_OP_R then Some (fprintf_P (Out_R1 b) next)
      else Some m
  else if d =? 4 then
    if printOp2BufferLength j <=? printOp2BufferIndex j then
      Some (upd_brd (set_debug_print_done 5) m) (* done printing *)
    else
      let i := printOp2BufferIndex j in
      let b := arr_get (printOp2Buffer j) i in
      let next := upd_job (set_printOp2BufferIndex (uint8 (i + 1))) (access (in_array i) m) in
      if printOp2rw j =? LAST_OP_W then Some (fprintf_P (Out_W2 b) next)
      else if printOp2rw j =? LAST_OP_R then Some (fprintf_P (Out_R2 b) next)
      else Some m
  else Some m.

Definition i2c_monitor (m : machine) : machine :=
  match i2c_monitor_chain m with
  | None => m
  | Some m =>
      if debug_print_done (brd m) =? 5 then
        (* wait for next slave receive event to fill printBuffer(s) *)
        upd_brd (set_debug_print_done 0) (fprintf_P Out_close m)
      else m
  end.

(** The part of the loop body guarded by [if(uart1_available())]: echo the
    character, abort on '$', remember whether it was 'a'. *)
Definition handle_input (input : Z) (m : machine) : machine :=
  let m := fprintf_P (Out_echo input) m in
  let m := if input =? 36 then abort_safe (fprintf_P Out_abort m) else m in
  if halted (brd m) then m
  else upd_brd (set_got_a (if input =? 97 then 1 else 0)) m.

(** The part of the loop body guarded by [if (got_twi0)]: only if
    write+read is done can the host change UPDI mode. *)
Definition handle_got_twi0 (m : machine) : machine :=
  let m :=
    if arr_get (got_twi0_buf (rly m)) 0 =? 7 then
      (* UPDI mode, application uploaded over multi-drop serial *)
      let m := ioWrite MCU_IO_MGR_SETAPP4_UART LOGIC_LEVEL_LOW m in
      let m := ioWrite MCU_IO_MGR_SETAPP4_UPDI LOGIC_LEVEL_HIGH m in
      upd_brd (set_blink_delay (cnvrt_milli (BLINK_DELAY / 4))) m
    else
      (* UART mode, application serial connected to multi-drop serial *)
      let m := ioWrite MCU_IO_MGR_SETAPP4_UART LOGIC_LEVEL_HIGH m in
      let m := ioWrite MCU_IO_MGR_SETAPP4_UPDI LOGIC_LEVEL_LOW m in
      upd_brd (set_blink_delay (cnvrt_milli BLINK_DELAY)) m in
  upd_rly (set_got_twi0 0) m.

(** One pass through the body of [while (1)] in [main]. *)
Definition main_loop (m : machine) : machine :=
  let m :=
    match uart1_rx (env m) with
    | Some input => handle_input input m
    | None => m
    end in
  if halted (brd m) then m
  else
    let m := if negb (truthy (got_a (brd m))) then blink m else m in
    if uart1_availableForWrite m then
      let m := i2c_monitor m in
      let m := if truthy (got_twi1 (rly m)) then upd_rly (set_got_twi1 0) m else m in
      if truthy (got_twi0 (rly m)) then handle_got_twi0 m else m
    else m.

(** ** The machine as a transition system *)

(** What can happen: a slave interrupt on either bus, with the status and
    data the hardware latched and the room in the UART at that moment, or
    one pass of the main loop with what it finds around it. *)
Inductive event :=
| Irq (b : bus) (status data : Z) (room : bool)
| Poll (w : world).

Definition latch (b : bus) (status data : Z) (room : bool) (m : machine) : machine :=
  let m := upd_periph b (fun p => latch_SDATA data (set_SSTATUS status p)) m in
  set_env (mk_world room (uart1_rx (env m)) (elapsed_ticks (env m)) (tick_now (env m))) m.

(** Once [abort_safe] has run, interrupts are off and the main loop never
    comes back. *)
Definition step (e : event) (m : machine) : machine :=
  if halted (brd m) then m
  else match e with
       | Irq b status data room => slave_isr b (latch b status data room m)
       | Poll w => main_loop (set_env w m)
       end.

Definition run (es : list event) (m : machine) : machine :=
  fold_left (fun m e => step e m) es m.

End Board.

(** All variables zero, all registers at their reset value, all pins
    low. *)
Definition power_on : machine :=
  mk_machine (mk_slave_vars zeros 0 zeros 0 0 0 0)
             (mk_slave_vars zeros 0 zeros 0 0 0 0)
             (mk_print_job zeros 0 0 0 zeros 0 0 0 0 0)
             (mk_relay 0 zeros 0 0 0)
             (mk_twis 0 0 0 0 0 0 None false [])
             (mk_twis 0 0 0 0 0 0 None false [])
             (mk_board (fun _ => LOGIC_LEVEL_LOW) 0 0 0 0 [] false)
             (mk_world false None 0 0)
             false.

(** ** The hardware's side of the slave protocol *)

(** The addresses the address-match logic answers to: the seven bits of
    [SADDR], and the general call address when bit 0 of [SADDR] is set. *)
Definition hw_address_match (saddr a : Z) : bool :=
  (a =? Z.shiftr saddr 1) || (Z.testbit saddr 0 && (a =? 0)).

Definition is_byte (z : Z) : bool := (0 <=? z) && (z <? 256).

(** The interrupts the peripheral can raise in a given state: status and
    data are bytes; an address interrupt only for an address it matches; a
    data interrupt only while the transaction is open, that is when the
    driver's last command was ACK (3) and not COMPTRANS (6). *)
Definition hw_raises (p : twis) (status data : Z) : bool :=
  is_byte status && is_byte data &&
  match irq_state status with
  | TWIS_ADDRESSED => hw_address_match (SADDR p) (Z.shiftr data 1)
  | TWIS_MREAD | TWIS_MWRITE => SCTRLB p =? 3
  | TWIS_STOPPED | TWIS_ERROR => true
  end.

Definition possible (e : event) (m : machine) : bool :=
  match e with
  | Irq b status data _ => hw_raises (periph b m) status data
  | Poll _ => true
  end.

(** Every event of the trace is possible in the state it meets. *)
Fixpoint feasible (cnvrt_milli : Z -> Z) (es : list event) (m : machine) : bool :=
  match es with
  | [] => true
  | e :: es' => possible e m && feasible cnvrt_milli es' (step cnvrt_milli e m)
  end.


(** ** Invariants *)

(** The callbacks are registered the way [setup] registers them. *)
Definition wired (m : machine) : Prop :=
  isrCallback_ (TWI0 m) = Some ptr_twisCallback
  /\ isrCallback_ (TWI1 m) = Some ptr_twi1sCallback.

(** The variables of one bus are within their arrays; a full receive
    buffer goes with a closed transaction. *)
Definition bus_ok (v : slave_vars) (p : twis) : Prop :=
  length (RxBuffer v) = Z.to_nat BUFF_SIZE
  /\ length (TxBuffer v) = Z.to_nat BUFF_SIZE
  /\ 0 <= RxBufferLength v <= BUFF_SIZE
  /\ (RxBufferLength v = BUFF_SIZE -> SCTRLB p = 6)
  /\ 0 <= TxBufferLength v <= BUFF_SIZE
  /\ 0 <= TxBufferIndex v.

Definition job_ok (j : print_job) : Prop :=
  length (printOp1Buffer j) = Z.to_nat BUFF_SIZE
  /\ length (printOp2Buffer j) = Z.to_nat BUFF_SIZE
  /\ 0 <= printOp1BufferLength j <= BUFF_SIZE
  /\ 0 <= printOp1BufferIndex j
  /\ 0 <= printOp2BufferLength j <= BUFF_SIZE
  /\ 0 <= printOp2BufferIndex j.

Record safe (m : machine) : Prop := mk_safe {
  safe_wired : wired m;
  safe_bus0 : bus_ok (twi0 m) (TWI0 m);
  safe_bus1 : bus_ok (twi1 m) (TWI1 m);
  safe_job : job_ok (job m);
  safe_rly : length (got_twi0_buf (rly m)) = Z.to_nat BUFF_SIZE;
  safe_fault : fault m = false
}.

(** The machine after [setup], started in surroundings [w]. *)
Definition boot (cnvrt_milli : Z -> Z) (w : world) : machine :=
  setup cnvrt_milli (set_env w power_on).

(** The invariant without the link between a full receive buffer and the
    acknowledge command: the callbacks keep it, the handlers restore the
    link. *)
Definition vars_ok (v : slave_vars) : Prop :=
  length (RxBuffer v) = Z.to_nat BUFF_SIZE
  /\ length (TxBuffer v) = Z.to_nat BUFF_SIZE
  /\ 0 <= RxBufferLength v <= BUFF_SIZE
  /\ 0 <= TxBufferLength v <= BUFF_SIZE
  /\ 0 <= TxBufferIndex v.

Record sound (m : machine) : Prop := mk_sound {
  sound_bus0 : vars_ok (twi0 m);
  sound_bus1 : vars_ok (twi1 m);
  sound_job : job_ok (job m);
  sound_rly : length (got_twi0_buf (rly m)) = Z.to_nat BUFF_SIZE;
  sound_fault : fault m = false
}.

(** What a callback leaves alone in the two peripherals and on the
    board. *)
Definition same_control (m m' : machine) : Prop :=
  SCTRLB (TWI0 m') = SCTRLB (TWI0 m) /\ SCTRLB (TWI1 m') = SCTRLB (TWI1 m)
  /\ SADDR (TWI0 m') = SADDR (TWI0 m) /\ SADDR (TWI1 m') = SADDR (TWI1 m)
  /\ isrCallback_ (TWI0 m') = isrCallback_ (TWI0 m)
  /\ isrCallback_ (TWI1 m') = isrCallback_ (TWI1 m)
  /\ halted (brd m') = halted (brd m).

(** Two machines that agree on everything the invariants look at. *)
Definition same_core (m m' : machine) : Prop :=
  twi0 m' = twi0 m /\ twi1 m' = twi1 m /\ job m' = job m
  /\ got_twi0_buf (rly m') = got_twi0_buf (rly m)
  /\ TWI0 m' = TWI0 m /\ TWI1 m' = TWI1 m /\ fault m' = fault m.

(** What the loop body leaves alone before it looks at the relay flag. *)
Definition same_relay (m m' : machine) : Prop :=
  rly m' = rly m /\ env m' = env m /\ halted (brd m') = halted (brd m)
  /\ pins (brd m') MCU_IO_MGR_SETAPP4_UART = pins (brd m) MCU_IO_MGR_SETAPP4_UART
  /\ pins (brd m') MCU_IO_MGR_SETAPP4_UPDI = pins (brd m) MCU_IO_MGR_SETAPP4_UPDI.

(** The buses as the main loop sees them: it touches neither the per-bus
    variables nor the peripherals. *)
Definition same_buses (m m' : machine) : Prop :=
  twi0 m' = twi0 m /\ twi1 m' = twi1 m /\ TWI0 m' = TWI0 m /\ TWI1 m' = TWI1 m.

(** The application bus as [setup] leaves it and as it stays: it matches
    the host's address, holds no data and has acknowledged nothing. *)
Definition app_closed (m : machine) : Prop :=
  wired m
  /\ SADDR (TWI1 m) = uint8 (Z.lor (Z.shiftl fromHost_addr 1) 1)
  /\ RxBufferLength (twi1 m) = 0
  /\ TxBufferLength (twi1 m) = 0
  /\ SCTRLB (TWI1 m) <> 3.

(** ** Sessions *)

(** A slave interrupt as the hardware presents it: status, data and the
    room in the UART at that moment. *)
Record slave_irq := mk_slave_irq { sts : Z; dat : Z; rm : bool }.

Definition on (b : bus) (r : slave_irq) : event := Irq b (sts r) (dat r) (rm r).

(** The interrupt is one the handler reports to its callback as [k]. *)
Definition reports (k : twis_irqstate_t) (r : slave_irq) : Prop :=
  irq_state (sts r) = k.

(** ** Concrete scenarios *)

(** Surroundings: a UART with room and nothing received, one whose
    transmit buffer is full, and a timer of one tick per millisecond. *)
Definition quiet : world := mk_world true None 0 0.
Definition ticks_are_ms (ms : Z) : Z := ms.
Definition booted : machine := boot ticks_are_ms quiet.

(** Status bytes: address match (write, read), data (write, read), stop. *)
Definition addr_w (a : Z) : slave_irq := mk_slave_irq 0x61 (Z.shiftl a 1) true.
Definition addr_r (a : Z) : slave_irq := mk_slave_irq 0x63 (Z.lor (Z.shiftl a 1) 1) true.
Definition data_w (b : Z) : slave_irq := mk_slave_irq 0xA0 b true.
Definition data_r : slave_irq := mk_slave_irq 0xA2 0 true.
Definition stop : slave_irq := mk_slave_irq 0x60 0 true.

(** The host writes the byte [b] and, after a repeated start, reads one
    byte back. *)
Definition write_then_read (b : Z) : list event :=
  map (on Bus0) [addr_w 42; data_w b; addr_r 42; data_r; stop].

(** The host writes 7 and stops, then addresses the device again and
    reads two bytes. *)
Definition write_stop_read : list event :=
  map (on Bus0) [addr_w 42; data_w 7; stop; addr_r 42; data_r; data_r].






(** ** Runs of the master engine *)

Module TwimRun.
Import Twim.

Section Run.

Variable twim_isrCallback_ : option (state -> state).

(** One master interrupt: the hardware latches status and data, then the
    handler runs. *)
Definition irq_step (e : irq) (s : state) : state :=
  ISR_TWI0_TWIM twim_isrCallback_ (latch e s).

Definition feed (es : list irq) (s : state) : state :=
  fold_left (fun s e => irq_step e s) es s.

(** What the data register holds after each interrupt of the run. *)
Fixpoint sent (es : list irq) (s : state) : list Z :=
  match es with
  | [] => []
  | e :: es' => MDATA (TWI0 (irq_step e s)) :: sent es' (irq_step e s)
  end.

End Run.

(** The interrupt reports an acknowledged write, a byte ready to read. *)
Definition write_acked (e : irq) : Prop := irq_status e = WRITEOK.
Definition read_ready (e : irq) : Prop := irq_status e = READOK.

(** What the engine's user can do to it: start a transfer, let an
    interrupt happen, switch the master off. *)
Inductive op :=
| Op_writeRead (wbuf wn rbuf rn : Z)
| Op_writeWrite (wbuf wn wbuf2 wn2 : Z)
| Op_irq (e : irq)
| Op_off.

Definition apply_op (o : op) (s : state) : state :=
  match o with
  | Op_writeRead wbuf wn rbuf rn => twim_writeRead wbuf wn rbuf rn s
  | Op_writeWrite wbuf wn wbuf2 wn2 => twim_writeWrite wbuf wn wbuf2 wn2 s
  | Op_irq e => irq_step None e s
  | Op_off => twim_off s
  end.

Definition apply_ops (os : list op) (s : state) : state :=
  fold_left (fun s o => apply_op o s) os s.

(** Concrete data: four bytes at 0x100, a second buffer at 0x200. *)
Definition with_data : state :=
  mk_state (TWI0 (twim_on 0x29 reset_state)) 0 0 0 0 0 0 false
           (fun a => if a =? 0x100 then 11 else if a =? 0x101 then 22
                     else if a =? 0x200 then 33 else 0).
Definition rok (d : Z) : irq := mk_irq READOK d.

(** What a run of interrupts keeps while no transfer finishes. *)
Definition kept (s s' : state) : Prop :=
  MCTRLA (TWI0 s') = MCTRLA (TWI0 s)
  /\ MADDR (TWI0 s') = MADDR (TWI0 s)
  /\ twi_lastResult_ s' = twi_lastResult_ s
  /\ txbufEnd_ s' = txbufEnd_ s /\ txbuf2End_ s' = txbuf2End_ s
  /\ rxbufEnd_ s' = rxbufEnd_ s.

(** The memory after the bytes [ds] have been stored from address [p] on. *)
Definition filled (p : Z) (ds : list Z) (old : Z -> Z) (a : Z) : Z :=
  if (p <=? a) && (a <? p + Z.of_nat (length ds))
  then default 0 (ds !! Z.to_nat (a - p))
  else old a.

End TwimRun.

(** ** Views of the board, the monitor and the print job *)

(** What the interrupt handlers leave alone on the board. *)
Definition same_board (m m' : machine) : Prop :=
  pins (brd m') = pins (brd m)
  /\ halted (brd m') = halted (brd m)
  /\ blink_started_at (brd m') = blink_started_at (brd m)
  /\ blink_delay (brd m') = blink_delay (brd m)
  /\ got_a (brd m') = got_a (brd m)
  /\ debug_print_done (brd m') = debug_print_done (brd m).


(** No character arrives during the events of a trace. *)
Definition no_input (e : event) : Prop :=
  match e with
  | Irq _ _ _ _ => True
  | Poll w => uart1_rx w = None
  end.

(** The machine with the monitor at stage [d], the two slot indices at
    [i1] and [i2], and [out] written to the debug UART so far; all else as
    in [m]. *)
Definition at_stage (d i1 i2 : Z) (out : list fragment) (m : machine) : machine :=
  let j := job m in
  let b := brd m in
  mk_machine (twi0 m) (twi1 m)
    (mk_print_job (printOp1Buffer j) (printOp1BufferLength j) i1 (printOp1rw j)
                  (printOp2Buffer j) (printOp2BufferLength j) i2 (printOp2rw j)
                  (print_slave_addr j) (printing j))
    (rly m) (TWI0 m) (TWI1 m)
    (mk_board (pins b) (blink_started_at b) (blink_delay b) (got_a b) d out (halted b))
    (env m) (fault m).

(** How the monitor prints a byte of the first and of the second slot. *)
Definition tag1 (rw b : Z) : fragment := if rw =? LAST_OP_W then Out_W1 b else Out_R1 b.
Definition tag2 (rw b : Z) : fragment := if rw =? LAST_OP_W then Out_W2 b else Out_R2 b.

Definition is_rw (rw : Z) : Prop := rw = LAST_OP_W \/ rw = LAST_OP_R.

(** The bytes of the second slot that are still to be printed. *)
Definition rest2 (j : print_job) : list Z :=
  drop (Z.to_nat (printOp2BufferIndex j))
       (take (Z.to_nat (printOp2BufferLength j)) (printOp2Buffer j)).

(** The record the monitor prints for the queued job. *)
Definition record_of (m : machine) : list fragment :=
  let j := job m in
  [Out_monitor (print_slave_addr j); Out_status (slave_status_cpy (twi0 m));
   Out_len (printOp1BufferLength j)]
  ++ map (tag1 (printOp1rw j)) (take (Z.to_nat (printOp1BufferLength j)) (printOp1Buffer j))
  ++ map (tag2 (printOp2rw j)) (rest2 j)
  ++ [Out_close].

(** The calls of [i2c_monitor] it takes. *)
Definition polls_needed (m : machine) : nat :=
  (Z.to_nat (printOp1BufferLength (job m)) + length (rest2 (job m)) + 5)%nat.

(** A job as the callbacks queue it: the first slot holds at least one
    byte and none is printed yet, the slots are tagged read or write, the
    machine is between two records. *)
Definition queued (m : machine) : Prop :=
  let j := job m in
  debug_print_done (brd m) = 0
  /\ printOp1BufferIndex j = 0
  /\ 1 <= printOp1BufferLength j <= BUFF_SIZE
  /\ 0 <= printOp2BufferIndex j
  /\ printOp2BufferLength j <= BUFF_SIZE
  /\ is_rw (printOp1rw j)
  /\ (printOp2BufferIndex j < printOp2BufferLength j -> is_rw (printOp2rw j))
  /\ length (printOp1Buffer j) = Z.to_nat BUFF_SIZE
  /\ length (printOp2Buffer j) = Z.to_nat BUFF_SIZE
  /\ fault m = false.

(** The monitor is in the middle of the second slot, bytes are left to
    print, and the slot is tagged neither read nor write. *)
Definition wedged (m : machine) : bool :=
  (debug_print_done (brd m) =? 4)
  && (printOp2BufferIndex (job m) <? printOp2BufferLength (job m))
  && negb (printOp2rw (job m) =? LAST_OP_W)
  && negb (printOp2rw (job m) =? LAST_OP_R).

(** ... and no callback is about to queue a second slot. *)
Definition parked (m : machine) : bool :=
  wedged m
  && ((printing (job m) =? 0)
      || ((TxBufferLength (twi0 m) =? 0) && (TxBufferLength (twi1 m) =? 0))).

(** The output of the console part of the main loop. *)
Definition console (f : fragment) : bool :=
  match f with
  | Out_echo _ | Out_abort => true
  | _ => false
  end.

(** The host writes 7, restarts with a write address and stops. *)
Definition write_restart_stop : list event :=
  map (on Bus0) [addr_w 42; data_w 7; addr_w 42; stop].

(** * Properties of the master engine *)

Module TwimFacts.
Import Twim.

Lemma uint16_pred (us : Z) :
  uint16 (us - 1) = if uint16 us =? 0 then 65535 else uint16 us - 1.
Proof.
  unfold uint16. destruct (Z.eqb_spec (us mod 65536) 0); Z.div_mod_to_equations; lia.
Qed.

Lemma slots_of_pos (us : Z) : 1 <= slots_of us <= 65536.
Proof.
  unfold slots_of, uint16. destruct (Z.eqb_spec (us mod 65536) 0);
    Z.div_mod_to_equations; lia.
Qed.

Lemma slots_of_last (us : Z) : uint16 (us - 1) = 0 -> slots_of us = 1.
Proof.
  rewrite uint16_pred. unfold slots_of.
  destruct (Z.eqb_spec (uint16 us) 0); lia.
Qed.

Lemma slots_of_next (us : Z) :
  uint16 (us - 1) <> 0 -> slots_of (uint16 (us - 1)) = slots_of us - 1.
Proof.
  intros H. unfold slots_of at 1.
  assert (E : uint16 (uint16 (us - 1)) = uint16 (us - 1)).
  { unfold uint16. apply Z.mod_mod. lia. }
  rewrite E. destruct (Z.eqb_spec (uint16 (us - 1)) 0); [lia|].
  revert H. rewrite uint16_pred. unfold slots_of.
  destruct (Z.eqb_spec (uint16 us) 0); lia.
Qed.

Lemma irq_off_not_busy (x : Z) : Z.land (Z.land x (Z.lnot RWIEN)) RWIEN = 0.
Proof.
  rewrite <- Z.land_assoc, (Z.land_comm (Z.lnot RWIEN)), Z.land_lnot_diag.
  apply Z.land_0_r.
Qed.

Lemma irq_on_busy (x : Z) : truthy (Z.land (Z.lor x RWIEN) RWIEN) = true.
Proof.
  unfold truthy. destruct (Z.eqb_spec (Z.land (Z.lor x RWIEN) RWIEN) 0) as [E|]; [|done].
  assert (B : Z.testbit (Z.land (Z.lor x RWIEN) RWIEN) 7 = true).
  { rewrite Z.land_spec, Z.lor_spec. change (Z.testbit RWIEN 7) with true.
    by rewrite orb_true_r. }
  rewrite E in B. by rewrite Z.bits_0 in B.
Qed.

Lemma m_startIrq_armed (wr : bool) (s : state) :
  twim_isBusy (m_startIrq wr s) = true /\ twi_lastResult_ (m_startIrq wr s) = false.
Proof.
  split; [|reflexivity].
  unfold twim_isBusy, m_isBusy, m_startIrq. destruct wr; cbn; apply irq_on_busy.
Qed.

Section WithCallback.

Variable cb : option (state -> state).

Lemma m_finished_invoke (tf : bool) (s : state) :
  m_finished cb tf s = invoke cb (at_callback tf s).
Proof. reflexivity. Qed.

Lemma at_callback_facts (tf : bool) (s : state) :
  twi_lastResult_ (at_callback tf s) = tf
  /\ MCTRLB (TWI0 (at_callback tf s)) = Z.lor NACK STOP
  /\ m_isBusy (at_callback tf s) = false.
Proof.
  repeat split. unfold m_isBusy, at_callback; cbn.
  by rewrite irq_off_not_busy.
Qed.

Lemma status_fails_finishes (s : state) :
  status_fails (m_status s) = true -> ISR_TWI0_TWIM cb s = m_finished cb false s.
Proof.
  unfold status_fails, ISR_TWI0_TWIM. intros H.
  destruct (truthy (Z.land (m_status s) ANYERR)); [done|].
  cbn in H. apply andb_true_iff in H as [H1 H2].
  apply negb_true_iff in H1, H2. by rewrite H1, H2.
Qed.

Lemma isr_finishes_shape (s : state) :
  isr_finishes s = true ->
  exists tf s0, ISR_TWI0_TWIM cb s = m_finished cb tf s0.
Proof.
  unfold isr_finishes, ISR_TWI0_TWIM. intros H.
  destruct (truthy (Z.land (m_status s) ANYERR)); [by eauto|].
  destruct (m_status s =? READOK).
  { cbn. apply negb_true_iff in H. rewrite H. eauto. }
  destruct (m_status s =? WRITEOK); [|by eauto].
  apply andb_true_iff in H as [H H3]. apply andb_true_iff in H as [H1 H2].
  apply negb_true_iff in H1, H2, H3. rewrite H1, H2, H3. eauto.
Qed.

Lemma isr_continues_keeps (s : state) :
  isr_finishes s = false ->
  MCTRLA (TWI0 (ISR_TWI0_TWIM cb s)) = MCTRLA (TWI0 s)
  /\ twi_lastResult_ (ISR_TWI0_TWIM cb s) = twi_lastResult_ s.
Proof.
  unfold isr_finishes, ISR_TWI0_TWIM. intros H.
  destruct (truthy (Z.land (m_status s) ANYERR)); [done|].
  destruct (m_status s =? READOK).
  { cbn. apply negb_false_iff in H. by rewrite H. }
  destruct (m_status s =? WRITEOK); [|done].
  destruct (txbuf_ s <? txbufEnd_ s); [done|].
  destruct (txbuf2_ s <? txbuf2End_ s); [done|].
  destruct (truthy (rxbuf_ s)); [done|]. discriminate.
Qed.

Lemma latch_keeps (e : irq) (s : state) :
  twim_isBusy (latch e s) = twim_isBusy s
  /\ twi_lastResult_ (latch e s) = twi_lastResult_ s.
Proof. done. Qed.

Lemma failed_state (s : state) :
  cb_quiet cb ->
  twim_isBusy (m_finished cb false s) = false
  /\ twi_lastResult_ (m_finished cb false s) = false.
Proof.
  intros Q. rewrite m_finished_invoke.
  destruct (at_callback_facts false s) as (R & _ & B).
  unfold invoke, cb_quiet in *. destruct cb as [f|]; [|done].
  destruct (Q (at_callback false s)) as [Q1 Q2].
  unfold twim_isBusy, m_isBusy in *. by rewrite Q1, Q2.
Qed.

Lemma wait_loop_timeout (fuel : nat) :
  forall env us s,
    (Z.to_nat (slots_of us) <= fuel)%nat ->
    never_finishes cb (Z.to_nat (slots_of us)) env s = true ->
    twim_isBusy s = true -> twi_lastResult_ s = false ->
    exists s', wait_loop cb fuel env us s = Some s'
               /\ twim_isBusy s' = true /\ twi_lastResult_ s' = false.
Proof.
  induction fuel as [|fuel IH]; intros env us s Hf Hn Hb Hr.
  { pose proof (slots_of_pos us). lia. }
  pose proof (slots_of_pos us) as Hp.
  destruct (Z.to_nat (slots_of us)) as [|n] eqn:En; [lia|].
  cbn [wait_loop]. cbn [never_finishes] in Hn.
  set (s1 := delay_us_1 cb (hd None env) s).
  assert (K : twim_isBusy s1 = true /\ twi_lastResult_ s1 = false
              /\ never_finishes cb n (tl env) s1 = true).
  { subst s1. destruct (hd None env) as [e|]; cbn [delay_us_1]; [|done].
    apply andb_true_iff in Hn as [Hn1 Hn2]. apply negb_true_iff in Hn1.
    destruct (isr_continues_keeps _ Hn1) as [K1 K2].
    unfold twim_isBusy, m_isBusy in *. rewrite K1, K2. done. }
  destruct K as (Kb & Kr & Kn).
  destruct (truthy (uint16 (us - 1))) eqn:Eu; cbn [andb].
  - rewrite Kb. apply IH; try done.
    + assert (uint16 (us - 1) <> 0).
      { unfold truthy in Eu. by destruct (Z.eqb_spec (uint16 (us - 1)) 0). }
      rewrite slots_of_next by done. lia.
    + assert (uint16 (us - 1) <> 0).
      { unfold truthy in Eu. by destruct (Z.eqb_spec (uint16 (us - 1)) 0). }
      rewrite slots_of_next by done.
      replace (Z.to_nat (slots_of us - 1)) with n by lia. done.
  - eauto.
Qed.

Lemma wait_loop_failure (fuel : nat) :
  forall env us s,
    cb_quiet cb ->
    (Z.to_nat (slots_of us) <= fuel)%nat ->
    fails_within cb (Z.to_nat (slots_of us)) env s = true ->
    twim_isBusy s = true -> twi_lastResult_ s = false ->
    exists s', wait_loop cb fuel env us s = Some s'
               /\ twim_isBusy s' = false /\ twi_lastResult_ s' = false.
Proof.
  induction fuel as [|fuel IH]; intros env us s Q Hf Hn Hb Hr.
  { pose proof (slots_of_pos us). lia. }
  pose proof (slots_of_pos us) as Hp.
  destruct (Z.to_nat (slots_of us)) as [|n] eqn:En; [lia|].
  cbn [wait_loop]. cbn [fails_within] in Hn.
  assert (Last : truthy (uint16 (us - 1)) = false -> n = O).
  { unfold truthy. destruct (Z.eqb_spec (uint16 (us - 1)) 0) as [E|]; [|done].
    intros _. apply slots_of_last in E. lia. }
  assert (Next : truthy (uint16 (us - 1)) = true ->
                 Z.to_nat (slots_of (uint16 (us - 1))) = n).
  { unfold truthy. destruct (Z.eqb_spec (uint16 (us - 1)) 0) as [|E]; [done|].
    intros _. rewrite slots_of_next by done. lia. }
  destruct (hd None env) as [e|]; cbn [delay_us_1].
  - destruct (status_fails (irq_status e)) eqn:Ef.
    + rewrite status_fails_finishes by exact Ef.
      destruct (failed_state (latch e s) Q) as [F1 F2].
      rewrite F1, andb_false_r. eauto.
    + apply andb_true_iff in Hn as [Hn1 Hn2]. apply negb_true_iff in Hn1.
      destruct (isr_continues_keeps _ Hn1) as [K1 K2].
      assert (Kb : twim_isBusy (ISR_TWI0_TWIM cb (latch e s)) = true).
      { unfold twim_isBusy, m_isBusy in *. by rewrite K1. }
      destruct (truthy (uint16 (us - 1))) eqn:Eu; cbn [andb].
      * rewrite Kb. apply IH; try done.
        -- rewrite Next by done. lia.
        -- by rewrite Next.
        -- by rewrite K2.
      * rewrite (Last eq_refl) in Hn2. discriminate.
  - destruct (truthy (uint16 (us - 1))) eqn:Eu; cbn [andb].
    + rewrite Hb. apply IH; try done.
      * rewrite Next by done. lia.
      * by rewrite Next.
    + rewrite (Last eq_refl) in Hn. discriminate.
Qed.

End WithCallback.

(** C7.  In the completion interrupt of the master, a status snapshot with
    an error bit (arbitration lost or bus error) set, and a status that is
    neither the read-ready nor the write-acknowledged pattern, finishes
    the transaction with result = failure.  Whenever the handler finishes
    (with either result), the user callback is entered in a state in which
    the result is recorded, NACK+STOP has been written to MCTRLB and the
    completion interrupt is disabled. *)
Theorem master_isr_fail_closed (cb : option (state -> state)) (s : state) :
  Z.land (m_status s) ANYERR <> 0
  \/ (m_status s <> READOK /\ m_status s <> WRITEOK) ->
  ISR_TWI0_TWIM cb s = invoke cb (at_callback false s)
  /\ twi_lastResult_ (at_callback false s) = false
  /\ (forall s' : state, isr_finishes s' = true ->
        exists tf s0,
          ISR_TWI0_TWIM cb s' = invoke cb (at_callback tf s0)
          /\ twi_lastResult_ (at_callback tf s0) = tf
          /\ MCTRLB (TWI0 (at_callback tf s0)) = Z.lor NACK STOP
          /\ m_isBusy (at_callback tf s0) = false).
Proof.
  intros H. split; [|split; [reflexivity|]].
  - rewrite <- m_finished_invoke. apply status_fails_finishes.
    unfold status_fails, truthy.
    destruct H as [H|[H1 H2]].
    + destruct (Z.eqb_spec (Z.land (m_status s) ANYERR) 0); [lia|reflexivity].
    + destruct (Z.eqb_spec (m_status s) READOK); [lia|].
      destruct (Z.eqb_spec (m_status s) WRITEOK); [lia|].
      apply orb_true_r.
  - intros s' F. destruct (isr_finishes_shape cb s' F) as (tf & s0 & E).
    exists tf, s0. rewrite E, m_finished_invoke.
    split; [reflexivity|]. apply at_callback_facts.
Qed.

Lemma master_isr_fail_closed_witness :
  (m_status (latch nack_irq started_write) <> READOK
   /\ m_status (latch nack_irq started_write) <> WRITEOK)
  /\ twim_lastResultOK (ISR_TWI0_TWIM None (latch nack_irq started_write)) = false.
Proof.
  assert (H : m_status (latch nack_irq started_write) <> READOK
              /\ m_status (latch nack_irq started_write) <> WRITEOK).
  { split; vm_compute; discriminate. }
  split; [exact H|].
  destruct (master_isr_fail_closed None (latch nack_irq started_write) (or_intror H))
    as (E & R & _).
  rewrite E. exact R.
Defined.

(** C6.  A transaction is started with [m_startIrq], which clears the
    result flag.  If no interrupt during the wait finishes it, [twim_waitUS]
    returns false and [twim_isBusy] is still true; if the hardware reports a
    failure during the wait (NACK, error bit, unexpected status),
    [twim_waitUS] returns false and [twim_isBusy] is false.  The return values
    agree, the busy flag tells the two apart. *)
Theorem waitUS_timeout_vs_failure (cb : option (state -> state)) (wr : bool)
    (s0 : state) (us : Z) (stalled failing : list (option irq)) :
  cb_quiet cb ->
  never_finishes cb (Z.to_nat (slots_of us)) stalled (m_startIrq wr s0) = true ->
  fails_within cb (Z.to_nat (slots_of us)) failing (m_startIrq wr s0) = true ->
  (exists s', twim_waitUS cb stalled us (m_startIrq wr s0) = Some (false, s')
              /\ twim_isBusy s' = true)
  /\ (exists s', twim_waitUS cb failing us (m_startIrq wr s0) = Some (false, s')
                 /\ twim_isBusy s' = false).
Proof.
  intros Q Hs Hf. destruct (m_startIrq_armed wr s0) as [B R].
  assert (Fuel : (Z.to_nat (slots_of us) <= Z.to_nat 65536)%nat).
  { pose proof (slots_of_pos us). lia. }
  split.
  - destruct (wait_loop_timeout cb _ stalled us _ Fuel Hs B R) as (s' & E & B' & R').
    exists s'. unfold twim_waitUS, twim_lastResultOK. by rewrite E, R'.
  - destruct (wait_loop_failure cb _ failing us _ Q Fuel Hf B R) as (s' & E & B' & R').
    exists s'. unfold twim_waitUS, twim_lastResultOK. by rewrite E, R'.
Qed.

Lemma waitUS_timeout_vs_failure_witness :
  (exists s', twim_waitUS None [None; Some wok_irq; None] 3 started_write
              = Some (false, s') /\ twim_isBusy s' = true)
  /\ (exists s', twim_waitUS None [None; Some nack_irq] 3 started_write
                 = Some (false, s') /\ twim_isBusy s' = false).
Proof.
  apply (waitUS_timeout_vs_failure None true loaded 3
           [None; Some wok_irq; None] [None; Some nack_irq]).
  - exact I.
  - vm_compute. reflexivity.
  - vm_compute. reflexivity.
Defined.

End TwimFacts.

(** * Properties of the slave engine and of the relay logic *)

(** ** Arrays *)

Lemma copy_loop_length (n : nat) : forall i (src dst : list Z),
  length (copy_loop n i src dst) = length dst.
Proof.
  induction n as [|n IH]; intros i src dst; cbn [copy_loop]; [done|].
  by rewrite IH, length_insert.
Qed.

Lemma copy_bytes_length (bufsize : Z) (src dst : list Z) :
  length (copy_bytes bufsize src dst) = length dst.
Proof. apply copy_loop_length. Qed.

Lemma copy_loop_lookup (n : nat) : forall i (src dst : list Z) (k : nat),
  (i + n <= length dst)%nat -> (i + n <= length src)%nat ->
  copy_loop n i src dst !! k =
    if decide (i <= k < i + n)%nat then src !! k else dst !! k.
Proof.
  induction n as [|n IH]; intros i src dst k Hd Hs; cbn [copy_loop].
  { case_decide; [lia|done]. }
  rewrite IH by (rewrite ?length_insert; lia).
  destruct (decide (k = i)) as [->|Hne].
  - rewrite list_lookup_insert_eq by lia.
    destruct (src !! i) as [x|] eqn:E.
    + repeat case_decide; try lia; done.
    + apply lookup_ge_None in E. lia.
  - rewrite list_lookup_insert_ne by done.
    repeat case_decide; try lia; done.
Qed.

Lemma copy_bytes_take (bufsize : Z) (src dst : list Z) :
  0 <= bufsize ->
  (Z.to_nat bufsize <= length src)%nat -> (Z.to_nat bufsize <= length dst)%nat ->
  take (Z.to_nat bufsize) (copy_bytes bufsize src dst) = take (Z.to_nat bufsize) src.
Proof.
  intros H0 Hs Hd. apply list_eq. intros k. unfold copy_bytes.
  destruct (decide (k < Z.to_nat bufsize)%nat) as [Hk|Hk].
  - rewrite !lookup_take_lt by done.
    rewrite copy_loop_lookup by (cbn; lia). case_decide; [done|lia].
  - rewrite !lookup_take_ge by lia. done.
Qed.

Lemma arr_set_length (a : list Z) (i v : Z) : length (arr_set a i v) = length a.
Proof. apply length_insert. Qed.

(** ** Reading conditions *)

Lemma truthy_true (z : Z) : truthy z = true <-> z <> 0.
Proof. unfold truthy. destruct (Z.eqb_spec z 0); split; (done || lia). Qed.

Lemma truthy_false (z : Z) : truthy z = false <-> z = 0.
Proof. unfold truthy. destruct (Z.eqb_spec z 0); split; (done || lia). Qed.

Lemma uint8_small (z : Z) : 0 <= z < 256 -> uint8 z = z.
Proof. intros H. unfold uint8. by apply Z.mod_small. Qed.

Ltac zbool :=
  repeat match goal with
    | H : (_ <? _) = true |- _ => apply Z.ltb_lt in H
    | H : (_ <? _) = false |- _ => apply Z.ltb_ge in H
    | H : (_ <=? _) = true |- _ => apply Z.leb_le in H
    | H : (_ <=? _) = false |- _ => apply Z.leb_gt in H
    | H : (_ =? _) = true |- _ => apply Z.eqb_eq in H
    | H : (_ =? _) = false |- _ => apply Z.eqb_neq in H
    | H : truthy _ = true |- _ => apply truthy_true in H
    | H : truthy _ = false |- _ => apply truthy_false in H
    | H : _ && _ = true |- _ => apply andb_true_iff in H as [? ?]
    | H : negb _ = true |- _ => apply negb_true_iff in H
    | H : negb _ = false |- _ => apply negb_false_iff in H
    end.

(** ** No access outside the arrays *)

Lemma boot_safe (cnv : Z -> Z) (w : world) : safe (boot cnv w).
Proof.
  split; cbn; unfold bus_ok, job_ok, wired; cbn; repeat split; try done; try lia.
Qed.

Lemma same_core_refl (m : machine) : same_core m m.
Proof. by repeat split. Qed.

Lemma same_core_trans (m1 m2 m3 : machine) :
  same_core m1 m2 -> same_core m2 m3 -> same_core m1 m3.
Proof.
  unfold same_core. intros (?&?&?&?&?&?&?) (?&?&?&?&?&?&?).
  repeat split; congruence.
Qed.

Lemma safe_same_core (m m' : machine) : same_core m m' -> safe m -> safe m'.
Proof.
  intros (E0&E1&EJ&ER&ET0&ET1&EF) [W B0 B1 J R F].
  split; unfold wired in *; rewrite ?E0, ?E1, ?EJ, ?ER, ?ET0, ?ET1, ?EF; done.
Qed.

Lemma handle_input_core (input : Z) (m : machine) : same_core m (handle_input input m).
Proof.
  unfold handle_input.
  repeat match goal with
  | |- context [if ?c then _ else _] => destruct c
  end; by repeat split.
Qed.

Lemma blink_core (m : machine) : same_core m (blink m).
Proof.
  unfold blink. destruct (_ <? _); cbn; by repeat split.
Qed.

Lemma handle_got_twi0_core (cnv : Z -> Z) (m : machine) :
  same_core m (handle_got_twi0 cnv m).
Proof.
  unfold handle_got_twi0. destruct (_ =? 7); cbn; by repeat split.
Qed.

Lemma in_array_true (i : Z) : 0 <= i < 32 -> in_array i = true.
Proof.
  intros H. unfold in_array, BUFF_SIZE. apply andb_true_iff.
  split; [apply Z.leb_le|apply Z.ltb_lt]; lia.
Qed.

Lemma still_no_fault (f ok : bool) : f = false -> ok = true -> f || negb ok = false.
Proof. by intros -> ->. Qed.

Lemma leb_32_true (n : Z) : n <= 32 -> (n <=? BUFF_SIZE) = true.
Proof. intros H. apply Z.leb_le. unfold BUFF_SIZE. lia. Qed.

Ltac bounds :=
  unfold BUFF_SIZE in *;
  first
    [ done
    | lia
    | apply still_no_fault; [done | first [apply in_array_true; lia | apply Z.leb_le; lia | done]]
    | rewrite uint8_small by lia; lia ].

Lemma i2c_monitor_safe (m : machine) : safe m -> safe (i2c_monitor m).
Proof.
  intros [W B0 B1 J R F]. unfold i2c_monitor, i2c_monitor_chain.
  destruct J as (L1 & L2 & H1 & I1 & H2 & I2).
  repeat match goal with
  | |- context [if ?c then _ else _] => destruct c eqn:?
  end; zbool.
  all: split; unfold wired, bus_ok, job_ok; cbn; try done.
  all: repeat split; bounds.
Qed.

Ltac split_ifs :=
  repeat match goal with
  | |- context [if ?c then _ else _] => destruct c eqn:?
  end.

(** The case analysis shared by the two callbacks: split on every
    condition, then check each part of the invariant. *)
Ltac callback_cases Hw F :=
  split_ifs; zbool; cbn;
  (split; [split; unfold vars_ok, job_ok; cbn;
             rewrite ?copy_bytes_length, ?arr_set_length;
             try done; repeat split; try bounds|]);
  try (split; [by repeat split|]); try (split; [done|]); try tauto;
  try specialize (Hw eq_refl);
  cbn in *; unfold BUFF_SIZE in *;
  try (rewrite F; cbn);
  rewrite ?(proj2 (Z.leb_le _ 32)) by lia; try done;
  try (intros E; exfalso; lia);
  try (rewrite uint8_small by lia);
  try lia;
  try (rewrite in_array_true by lia; done);
  try (intros E; right; apply Z.ltb_ge; lia);
  try (intros E; right; reflexivity);
  try (intros E; left; done).

Lemma twisCallback_sound (state : twis_irqstate_t) (st : Z) (m : machine) :
  sound m ->
  (state = TWIS_MWRITE -> RxBufferLength (twi0 m) < BUFF_SIZE) ->
  sound (snd (twisCallback state st m))
  /\ same_control m (snd (twisCallback state st m))
  /\ twi1 (snd (twisCallback state st m)) = twi1 m
  /\ (RxBufferLength (twi0 (snd (twisCallback state st m))) = BUFF_SIZE ->
      (state = TWIS_MREAD /\ RxBufferLength (twi0 m) = BUFF_SIZE)
      \/ fst (twisCallback state st m) = false).
Proof.
  intros [B0 B1 J R F] Hw.
  destruct B0 as (L1 & L2 & H1 & H2 & I2).
  destruct J as (JL1 & JL2 & JH1 & JI1 & JH2 & JI2).
  destruct state; unfold twisCallback, print_Op1_buf_if_possible, print_Op2_buf_if_possible,
    move_buffer; cbn [fst snd].
  all: callback_cases Hw F.
Qed.

Lemma twi1sCallback_sound (state : twis_irqstate_t) (st : Z) (m : machine) :
  sound m ->
  (state = TWIS_MWRITE -> RxBufferLength (twi1 m) < BUFF_SIZE) ->
  sound (snd (twi1sCallback state st m))
  /\ same_control m (snd (twi1sCallback state st m))
  /\ twi0 (snd (twi1sCallback state st m)) = twi0 m
  /\ (RxBufferLength (twi1 (snd (twi1sCallback state st m))) = BUFF_SIZE ->
      (state = TWIS_MREAD /\ RxBufferLength (twi1 m) = BUFF_SIZE)
      \/ fst (twi1sCallback state st m) = false).
Proof.
  intros [B0 B1 J R F] Hw.
  destruct B1 as (L1 & L2 & H1 & H2 & I2).
  destruct J as (JL1 & JL2 & JH1 & JI1 & JH2 & JI2).
  destruct state; unfold twi1sCallback, print_Op1_buf_if_possible, print_Op2_buf_if_possible,
    move_buffer; cbn [fst snd].
  all: callback_cases Hw F.
Qed.

Lemma safe_sound (m : machine) : safe m -> sound m.
Proof.
  intros [W B0 B1 J R F]. unfold bus_ok in *. split; unfold vars_ok; tauto.
Qed.


Lemma isr0_safe (m : machine) (status data : Z) (room : bool) :
  safe m -> hw_raises (TWI0 m) status data = true ->
  safe (slave_isr Bus0 (latch Bus0 status data room m)).
Proof.
  intros S H. pose proof (safe_sound m S) as Snd.
  destruct S as [[W0 W1] B0 B1 J R F]. unfold hw_raises in H.
  apply andb_true_iff in H as [_ H].
  assert (Open : irq_state status = TWIS_MREAD \/ irq_state status = TWIS_MWRITE ->
                 RxBufferLength (twi0 m) < BUFF_SIZE).
  { intros Hs. destruct B0 as (_ & _ & ? & C & _).
    destruct (Z.eq_dec (RxBufferLength (twi0 m)) BUFF_SIZE) as [E|]; [|unfold BUFF_SIZE in *; lia].
    apply C in E. destruct Hs as [Hs|Hs]; rewrite Hs in H; zbool; lia. }
  unfold slave_isr, latch. cbn [periph upd_periph]. cbn.
  set (m0 := set_env _ _).
  assert (S0 : sound m0) by (destruct Snd; by split).
  set (P := if irqstate_eqb _ _ then _ else _).
  assert (K : sound (snd P)
              /\ isrCallback_ (TWI0 (snd P)) = Some ptr_twisCallback
              /\ isrCallback_ (TWI1 (snd P)) = Some ptr_twi1sCallback
              /\ twi0 (snd P) = twi0 m /\ twi1 (snd P) = twi1 m
              /\ SCTRLB (TWI1 (snd P)) = SCTRLB (TWI1 m)); [subst P|destruct P as [done m1]].
  { subst m0. destruct Snd.
    destruct (irq_state status); cbn; try destruct (is1st (TWI0 m)); cbn;
      (split; [by split|by repeat split]). }
  cbn [fst snd] in K. destruct K as (S1 & K0 & K1 & E0 & E1 & EC).
  rewrite K0. cbn [call_callback].
  assert (Hw : irq_state status = TWIS_MWRITE -> RxBufferLength (twi0 m1) < BUFF_SIZE).
  { rewrite E0. auto. }
  destruct (twisCallback_sound (irq_state status) status m1 S1 Hw) as (S2 & Ctl & T1 & Full).
  destruct (twisCallback (irq_state status) status m1) as [ret m2]. cbn [fst snd] in *.
  destruct Ctl as (C0 & C1 & _ & _ & CB0 & CB1 & _).
  destruct S2 as [V0 V1 J2 R2 F2].
  assert (B1' : bus_ok (twi1 m2) (TWI1 m2)).
  { unfold bus_ok in *. rewrite T1, E1, C1, EC. done. }
  destruct V0 as (? & ? & ? & ? & ?).
  destruct (if negb ret then true else done) eqn:D; split; unfold wired, bus_ok; cbn;
    rewrite ?CB0, ?CB1; try done.
  all: repeat split; try done; try lia.
  intros E. destruct (Full E) as [[Hs Em]|Hr].
  - rewrite E0 in Em. specialize (Open (or_introl Hs)). lia.
  - subst ret. discriminate.
Qed.

Lemma isr1_safe (m : machine) (status data : Z) (room : bool) :
  safe m -> hw_raises (TWI1 m) status data = true ->
  safe (slave_isr Bus1 (latch Bus1 status data room m)).
Proof.
  intros S H. pose proof (safe_sound m S) as Snd.
  destruct S as [[W0 W1] B0 B1 J R F]. unfold hw_raises in H.
  apply andb_true_iff in H as [_ H].
  assert (Open : irq_state status = TWIS_MREAD \/ irq_state status = TWIS_MWRITE ->
                 RxBufferLength (twi1 m) < BUFF_SIZE).
  { intros Hs. destruct B1 as (_ & _ & ? & C & _).
    destruct (Z.eq_dec (RxBufferLength (twi1 m)) BUFF_SIZE) as [E|]; [|unfold BUFF_SIZE in *; lia].
    apply C in E. destruct Hs as [Hs|Hs]; rewrite Hs in H; zbool; lia. }
  unfold slave_isr, latch. cbn [periph upd_periph]. cbn.
  set (m0 := set_env _ _).
  assert (S0 : sound m0) by (destruct Snd; by split).
  set (P := if irqstate_eqb _ _ then _ else _).
  assert (K : sound (snd P)
              /\ isrCallback_ (TWI0 (snd P)) = Some ptr_twisCallback
              /\ isrCallback_ (TWI1 (snd P)) = Some ptr_twi1sCallback
              /\ twi0 (snd P) = twi0 m /\ twi1 (snd P) = twi1 m
              /\ SCTRLB (TWI0 (snd P)) = SCTRLB (TWI0 m)); [subst P|destruct P as [done m1]].
  { subst m0. destruct Snd.
    destruct (irq_state status); cbn; try destruct (is1st (TWI1 m)); cbn;
      (split; [by split|by repeat split]). }
  cbn [fst snd] in K. destruct K as (S1 & K0 & K1 & E0 & E1 & EC).
  rewrite K1. cbn [call_callback].
  assert (Hw : irq_state status = TWIS_MWRITE -> RxBufferLength (twi1 m1) < BUFF_SIZE).
  { rewrite E1. auto. }
  destruct (twi1sCallback_sound (irq_state status) status m1 S1 Hw) as (S2 & Ctl & T0 & Full).
  destruct (twi1sCallback (irq_state status) status m1) as [ret m2]. cbn [fst snd] in *.
  destruct Ctl as (C0 & C1 & _ & _ & CB0 & CB1 & _).
  destruct S2 as [V0 V1 J2 R2 F2].
  assert (B0' : bus_ok (twi0 m2) (TWI0 m2)).
  { unfold bus_ok in *. rewrite T0, E0, C0, EC. done. }
  destruct V1 as (? & ? & ? & ? & ?).
  destruct (if negb ret then true else done) eqn:D; split; unfold wired, bus_ok; cbn;
    rewrite ?CB0, ?CB1; try done.
  all: repeat split; try done; try lia.
  intros E. destruct (Full E) as [[Hs Em]|Hr].
  - rewrite E1 in Em. specialize (Open (or_introl Hs)). lia.
  - subst ret. discriminate.
Qed.

Lemma main_loop_safe (cnv : Z -> Z) (m : machine) : safe m -> safe (main_loop cnv m).
Proof.
  intros S. unfold main_loop.
  set (m1 := match uart1_rx (env m) with Some input => handle_input input m | None => m end).
  assert (S1 : safe m1).
  { subst m1. destruct (uart1_rx (env m)); [|done].
    eapply safe_same_core; [apply handle_input_core|done]. }
  clearbody m1. destruct (halted (brd m1)); [done|].
  set (m2 := if negb (truthy (got_a (brd m1))) then blink m1 else m1).
  assert (S2 : safe m2).
  { subst m2. destruct (negb _); [|done].
    eapply safe_same_core; [apply blink_core|done]. }
  clearbody m2. destruct (uart1_availableForWrite m2); [|done].
  pose proof (i2c_monitor_safe m2 S2) as S3.
  set (m3 := i2c_monitor m2) in *. clearbody m3.
  set (m4 := if truthy (got_twi1 (rly m3)) then upd_rly (set_got_twi1 0) m3 else m3).
  assert (S4 : safe m4).
  { subst m4. destruct (truthy _); [|done].
    eapply safe_same_core; [|exact S3]. by repeat split. }
  clearbody m4. destruct (truthy (got_twi0 (rly m4))); [|done].
  eapply safe_same_core; [apply handle_got_twi0_core|done].
Qed.

Lemma step_safe (cnv : Z -> Z) (e : event) (m : machine) :
  safe m -> possible e m = true -> safe (step cnv e m).
Proof.
  intros S P. unfold step. destruct (halted (brd m)); [done|].
  destruct e as [[|] status data room|w]; cbn in P.
  - by apply isr0_safe.
  - by apply isr1_safe.
  - apply main_loop_safe. eapply safe_same_core; [|exact S]. by repeat split.
Qed.

Lemma run_safe (cnv : Z -> Z) (es : list event) : forall m,
  safe m -> feasible cnv es m = true -> safe (run cnv es m).
Proof.
  induction es as [|e es IH]; intros m S F; [done|].
  cbn in F. apply andb_true_iff in F as [P F].
  cbn. apply IH; [by apply step_safe|done].
Qed.

(** ** What one interrupt of the host-facing bus does *)

Lemma isr0_mwrite (m : machine) (st d : Z) (room : bool) :
  isrCallback_ (TWI0 m) = Some ptr_twisCallback ->
  irq_state st = TWIS_MWRITE ->
  let m' := slave_isr Bus0 (latch Bus0 st d room m) in
  twi0 m' = mk_slave_vars (arr_set (RxBuffer (twi0 m)) (RxBufferLength (twi0 m)) d)
                          (uint8 (RxBufferLength (twi0 m) + 1))
                          (TxBuffer (twi0 m)) (TxBufferLength (twi0 m))
                          (TxBufferIndex (twi0 m)) (slave_status_cpy (twi0 m)) LAST_OP_W
  /\ sdata_log (TWI0 m') = sdata_log (TWI0 m)
  /\ isrCallback_ (TWI0 m') = isrCallback_ (TWI0 m)
  /\ brd m' = brd m /\ rly m' = rly m /\ job m' = job m
  /\ SCTRLB (TWI0 m') = (if uint8 (RxBufferLength (twi0 m) + 1) <? BUFF_SIZE then 3 else 6).
Proof.
  intros W E. unfold slave_isr, latch. cbn [periph upd_periph]. cbn.
  rewrite E. cbn. rewrite W. cbn.
  destruct (uint8 (RxBufferLength (twi0 m) + 1) <? BUFF_SIZE); cbn; by repeat split.
Qed.

Lemma isr0_addressed (m : machine) (st d : Z) (room : bool) :
  isrCallback_ (TWI0 m) = Some ptr_twisCallback ->
  irq_state st = TWIS_ADDRESSED ->
  let m' := slave_isr Bus0 (latch Bus0 st d room m) in
  let v := twi0 m in
  twi0 m' = (if truthy (RxBufferLength v)
             then mk_slave_vars (RxBuffer v) 0
                    (copy_bytes (RxBufferLength v) (RxBuffer v) (TxBuffer v))
                    (RxBufferLength v) 0 st LAST_OP_A
             else mk_slave_vars (RxBuffer v) (RxBufferLength v) (TxBuffer v)
                    (TxBufferLength v) (TxBufferIndex v) st LAST_OP_A)
  /\ sdata_log (TWI0 m') = sdata_log (TWI0 m)
  /\ isrCallback_ (TWI0 m') = isrCallback_ (TWI0 m)
  /\ halted (brd m') = halted (brd m) /\ rly m' = rly m
  /\ lastAddress_ (TWI0 m') = Z.shiftr d 1
  /\ SCTRLB (TWI0 m') = (if Z.shiftr d 1 =? fromHost_addr then 3 else 6).
Proof.
  intros W E. unfold slave_isr, latch. cbn [periph upd_periph]. cbn.
  rewrite E. cbn. rewrite W. cbn.
  unfold print_Op1_buf_if_possible, twis_lastAddress. cbn.
  split_ifs; cbn; by repeat split.
Qed.

Lemma isr0_mread (m : machine) (st d : Z) (room : bool) :
  isrCallback_ (TWI0 m) = Some ptr_twisCallback ->
  irq_state st = TWIS_MREAD ->
  let m' := slave_isr Bus0 (latch Bus0 st d room m) in
  let v := twi0 m in
  twi0 m' = (if TxBufferIndex v <? TxBufferLength v
             then mk_slave_vars (RxBuffer v) (RxBufferLength v) (TxBuffer v)
                    (TxBufferLength v) (uint8 (TxBufferIndex v + 1))
                    (slave_status_cpy v) LAST_OP_R
             else mk_slave_vars (RxBuffer v) (RxBufferLength v) (TxBuffer v)
                    (TxBufferLength v) (TxBufferIndex v)
                    (slave_status_cpy v) LAST_OP_R)
  /\ sdata_log (TWI0 m') = (if TxBufferIndex v <? TxBufferLength v
                            then sdata_log (TWI0 m) ++ [arr_get (TxBuffer v) (TxBufferIndex v)]
                            else sdata_log (TWI0 m))
  /\ isrCallback_ (TWI0 m') = isrCallback_ (TWI0 m)
  /\ halted (brd m') = halted (brd m) /\ rly m' = rly m.
Proof.
  intros W E. unfold slave_isr, latch. cbn [periph upd_periph]. cbn.
  rewrite E. cbn.
  destruct (is1st (TWI0 m)); cbn; rewrite W; cbn.
  all: split_ifs; cbn; by repeat split.
Qed.

Lemma isr0_stopped (m : machine) (st d : Z) (room : bool) :
  isrCallback_ (TWI0 m) = Some ptr_twisCallback ->
  irq_state st = TWIS_STOPPED ->
  TxBufferLength (twi0 m) <> 0 -> RxBufferLength (twi0 m) = 0 ->
  let m' := slave_isr Bus0 (latch Bus0 st d room m) in
  rly m' = mk_relay 1 (copy_bytes (TxBufferLength (twi0 m)) (TxBuffer (twi0 m))
                                  (got_twi0_buf (rly m)))
                    (TxBufferLength (twi0 m)) 0 (got_twi1 (rly m))
  /\ TxBufferLength (twi0 m') = 0 /\ RxBufferLength (twi0 m') = 0
  /\ halted (brd m') = halted (brd m)
  /\ pins (brd m') = pins (brd m)
  /\ SCTRLB (TWI0 m') = 6.
Proof.
  intros W E T R. unfold slave_isr, latch. cbn [periph upd_periph]. cbn.
  rewrite E. cbn. rewrite W. cbn.
  unfold print_Op2_buf_if_possible, move_buffer. cbn.
  apply truthy_true in T. rewrite T, R. cbn.
  split_ifs; cbn; by repeat split.
Qed.

(** ** Bursts of data interrupts on the host-facing bus *)

Lemma run_app (cnv : Z -> Z) (es1 es2 : list event) (m : machine) :
  run cnv (es1 ++ es2) m = run cnv es2 (run cnv es1 m).
Proof. unfold run. apply fold_left_app. Qed.

Lemma step_irq (cnv : Z -> Z) (b : bus) (r : slave_irq) (m : machine) :
  halted (brd m) = false ->
  step cnv (on b r) m = slave_isr b (latch b (sts r) (dat r) (rm r) m).
Proof. intros H. unfold step, on. by rewrite H. Qed.

(** A burst of master-write bytes appends them to the receive buffer. *)
Lemma run_writes (cnv : Z -> Z) (ws : list slave_irq) : forall (m : machine) (n : nat),
  halted (brd m) = false ->
  isrCallback_ (TWI0 m) = Some ptr_twisCallback ->
  Forall (reports TWIS_MWRITE) ws ->
  RxBufferLength (twi0 m) = Z.of_nat n ->
  (n + length ws <= 32)%nat ->
  length (RxBuffer (twi0 m)) = 32%nat ->
  let m' := run cnv (map (on Bus0) ws) m in
  RxBufferLength (twi0 m') = Z.of_nat (n + length ws)
  /\ take (n + length ws) (RxBuffer (twi0 m')) = take n (RxBuffer (twi0 m)) ++ map dat ws
  /\ length (RxBuffer (twi0 m')) = 32%nat
  /\ TxBuffer (twi0 m') = TxBuffer (twi0 m)
  /\ TxBufferLength (twi0 m') = TxBufferLength (twi0 m)
  /\ TxBufferIndex (twi0 m') = TxBufferIndex (twi0 m)
  /\ sdata_log (TWI0 m') = sdata_log (TWI0 m)
  /\ isrCallback_ (TWI0 m') = Some ptr_twisCallback
  /\ halted (brd m') = false
  /\ rly m' = rly m.
Proof.
  induction ws as [|r ws IH]; intros m n Hh W F Hn Hle HL; cbn [map run fold_left length].
  { rewrite Nat.add_0_r, app_nil_r. by repeat split. }
  apply Forall_cons in F as [Fr F].
  change (fold_left (fun m e => step cnv e m) (map (on Bus0) ws) (step cnv (on Bus0 r) m))
    with (run cnv (map (on Bus0) ws) (step cnv (on Bus0 r) m)).
  rewrite step_irq by done.
  destruct (isr0_mwrite m (sts r) (dat r) (rm r) W Fr) as (E & EL & EC & EB & ER & _).
  set (m1 := slave_isr Bus0 _) in *. clearbody m1.
  cbn in Hle.
  assert (U : uint8 (Z.of_nat n + 1) = Z.of_nat (S n)).
  { rewrite uint8_small by lia. lia. }
  destruct (IH m1 (S n)) as (I1 & I2 & I3 & I4 & I5 & I6 & I7 & I8 & I9 & I10).
  - by rewrite EB.
  - by rewrite EC.
  - done.
  - rewrite E. cbn. by rewrite Hn, U.
  - lia.
  - rewrite E. cbn. by rewrite arr_set_length.
  - rewrite E in I2, I4, I5, I6. cbn in I2, I4, I5, I6.
    rewrite Nat.add_succ_r. cbn [Nat.add] in I1, I2.
    repeat split; try done; try congruence.
    rewrite I2. unfold arr_set. rewrite Hn, Nat2Z.id.
    erewrite take_S_r; [|apply list_lookup_insert_eq; lia].
    rewrite take_insert_ge by lia. by rewrite <- app_assoc.
Qed.

(** A burst of master reads emits the transmit buffer from the cursor
    on. *)
Lemma run_reads (cnv : Z -> Z) (rs : list slave_irq) : forall (m : machine) (i n : nat),
  halted (brd m) = false ->
  isrCallback_ (TWI0 m) = Some ptr_twisCallback ->
  Forall (reports TWIS_MREAD) rs ->
  TxBufferIndex (twi0 m) = Z.of_nat i ->
  TxBufferLength (twi0 m) = Z.of_nat n ->
  (i <= n <= 32)%nat ->
  length (TxBuffer (twi0 m)) = 32%nat ->
  let m' := run cnv (map (on Bus0) rs) m in
  sdata_log (TWI0 m') =
    sdata_log (TWI0 m) ++ take (length rs) (drop i (take n (TxBuffer (twi0 m))))
  /\ TxBufferIndex (twi0 m') = Z.of_nat (min (i + length rs) n)
  /\ TxBufferLength (twi0 m') = TxBufferLength (twi0 m)
  /\ RxBufferLength (twi0 m') = RxBufferLength (twi0 m)
  /\ TxBuffer (twi0 m') = TxBuffer (twi0 m)
  /\ isrCallback_ (TWI0 m') = Some ptr_twisCallback
  /\ halted (brd m') = false
  /\ rly m' = rly m.
Proof.
  induction rs as [|r rs IH]; intros m i n Hh W F Hi Hn Hle HL; cbn [map run fold_left length].
  { rewrite take_0, app_nil_r, Nat.add_0_r, Nat.min_l by lia. by repeat split. }
  apply Forall_cons in F as [Fr F].
  change (fold_left (fun m e => step cnv e m) (map (on Bus0) rs) (step cnv (on Bus0 r) m))
    with (run cnv (map (on Bus0) rs) (step cnv (on Bus0 r) m)).
  rewrite step_irq by done.
  destruct (isr0_mread m (sts r) (dat r) (rm r) W Fr) as (E & EL & EC & EB & ER).
  set (m1 := slave_isr Bus0 _) in *. clearbody m1.
  cbn zeta in E, EL. rewrite Hi, Hn in E, EL.
  destruct (Z.ltb_spec (Z.of_nat i) (Z.of_nat n)) as [Lt|Ge].
  - assert (U : uint8 (Z.of_nat i + 1) = Z.of_nat (S i)).
    { rewrite uint8_small by lia. lia. }
    destruct (IH m1 (S i) n) as (I1 & I0 & I2 & I3 & I4 & I5 & I6 & I7).
    + by rewrite EB.
    + by rewrite EC.
    + done.
    + rewrite E. cbn. by rewrite U.
    + by rewrite E.
    + lia.
    + by rewrite E.
    + rewrite E in I1, I2, I3, I4. cbn in I1, I2, I3, I4.
      repeat split; try done; try congruence.
      * rewrite I1, EL, <- app_assoc. f_equal.
        assert (Lk : is_Some (TxBuffer (twi0 m) !! i)).
        { apply lookup_lt_is_Some. lia. }
        destruct Lk as [x Lk].
        unfold arr_get. rewrite Nat2Z.id, Lk. cbn [default].
        erewrite (drop_S _ x i); [done|].
        rewrite lookup_take_lt by lia. done.
      * rewrite I0. f_equal. lia.
  - assert (i = n) by lia. subst i.
    destruct (IH m1 n n) as (I1 & I0 & I2 & I3 & I4 & I5 & I6 & I7).
    + by rewrite EB.
    + by rewrite EC.
    + done.
    + by rewrite E.
    + by rewrite E.
    + lia.
    + by rewrite E.
    + rewrite E in I1, I2, I3, I4. cbn in I1, I2, I3, I4.
      repeat split; try done; try congruence.
      * rewrite I1, EL. f_equal.
        rewrite !(drop_ge (take n _)) by (rewrite length_take; lia).
        by rewrite !take_nil.
      * rewrite I0. f_equal. lia.
Qed.

(** ** Echo of the last write *)

(** A write phase, a repeated start, and a read phase. *)
Lemma write_restart_read (cnv : Z -> Z) (m : machine)
    (a1 : slave_irq) (ws : list slave_irq) (a2 : slave_irq) (rs : list slave_irq) :
  halted (brd m) = false ->
  isrCallback_ (TWI0 m) = Some ptr_twisCallback ->
  length (RxBuffer (twi0 m)) = 32%nat ->
  length (TxBuffer (twi0 m)) = 32%nat ->
  reports TWIS_ADDRESSED a1 ->
  Forall (reports TWIS_MWRITE) ws ->
  (1 <= length ws <= 32)%nat ->
  reports TWIS_ADDRESSED a2 ->
  Forall (reports TWIS_MREAD) rs ->
  let m1 := run cnv (on Bus0 a1 :: map (on Bus0) ws) m in
  let m2 := step cnv (on Bus0 a2) m1 in
  let m3 := run cnv (map (on Bus0) rs) m2 in
  (take (length ws) (TxBuffer (twi0 m2)) = map dat ws
   /\ TxBufferLength (twi0 m2) = Z.of_nat (length ws)
   /\ TxBufferIndex (twi0 m2) = 0
   /\ RxBufferLength (twi0 m2) = 0
   /\ sdata_log (TWI0 m3) = sdata_log (TWI0 m1) ++ take (length rs) (map dat ws)
   /\ TxBufferIndex (twi0 m3) = Z.of_nat (min (length rs) (length ws)))
  /\ TxBuffer (twi0 m3) = TxBuffer (twi0 m2)
  /\ TxBufferLength (twi0 m3) = Z.of_nat (length ws)
  /\ RxBufferLength (twi0 m3) = 0
  /\ isrCallback_ (TWI0 m3) = Some ptr_twisCallback
  /\ halted (brd m3) = false
  /\ rly m3 = rly m.
Proof.
  intros Hh W LR LT A1 Fw Hn A2 Fr m1 m2 m3.
  (* the address phase of the write session empties the receive buffer *)
  assert (K1 : exists m0, m1 = run cnv (map (on Bus0) ws) m0
                 /\ halted (brd m0) = false
                 /\ isrCallback_ (TWI0 m0) = Some ptr_twisCallback
                 /\ RxBufferLength (twi0 m0) = 0
                 /\ length (RxBuffer (twi0 m0)) = 32%nat
                 /\ length (TxBuffer (twi0 m0)) = 32%nat
                 /\ rly m0 = rly m).
  { exists (step cnv (on Bus0 a1) m). split; [reflexivity|].
    rewrite step_irq by done.
    destruct (isr0_addressed m (sts a1) (dat a1) (rm a1) W A1) as (E & _ & EC & EB & ER & _).
    set (m0 := slave_isr Bus0 _) in *. clearbody m0.
    rewrite EB, EC, E, ER.
    destruct (truthy (RxBufferLength (twi0 m))) eqn:T; cbn;
      rewrite ?copy_bytes_length; zbool; by repeat split. }
  destruct K1 as (m0 & E1 & Hh0 & W0 & R0 & LR0 & LT0 & RL0). clearbody m1.
  assert (Hn0 : (0 + length ws <= 32)%nat) by lia.
  destruct (run_writes cnv ws m0 0 Hh0 W0 Fw R0 Hn0 LR0)
    as (I1 & I2 & I3 & I4 & I5 & I6 & I7 & I8 & I9 & I10).
  cbn zeta in *. rewrite <- E1 in *. clear E1. cbn [Nat.add] in I1, I2.
  rewrite take_0, app_nil_l in I2.
  (* the address phase of the read session moves it to the transmit buffer *)
  subst m2 m3. rewrite step_irq by done.
  destruct (isr0_addressed m1 (sts a2) (dat a2) (rm a2) I8 A2) as (E & EL & EC & EB & ER & _).
  set (m2 := slave_isr Bus0 _) in *. clearbody m2.
  cbn zeta in E. rewrite I1 in E.
  assert (T : truthy (Z.of_nat (length ws)) = true) by (apply truthy_true; lia).
  rewrite T in E.
  assert (TK : take (length ws) (TxBuffer (twi0 m2)) = map dat ws).
  { rewrite E. cbn. rewrite <- I2.
    rewrite <- (Nat2Z.id (length ws)) at 1 3.
    apply copy_bytes_take; rewrite ?Nat2Z.id, ?I4; lia. }
  destruct (run_reads cnv rs m2 0 (length ws)) as (J1 & J0 & J2 & J3 & J4 & J5 & J6 & J7).
  - by rewrite EB.
  - by rewrite EC.
  - done.
  - by rewrite E.
  - by rewrite E.
  - lia.
  - rewrite E. cbn. rewrite copy_bytes_length, I4. lia.
  - rewrite J1, EL, drop_0, TK, J0, J2, J3, J4, J7, ER, I10, RL0, E. cbn.
    repeat split; done.
Qed.

(** C3 (as amended).  On the host-facing bus take an address event, then
    between one and 32 master-write bytes, then, with no STOPPED event in
    between (a repeated start), a second address event followed by any
    number of master reads.  The second address event copies the received
    bytes into the transmit buffer, sets the transmit length to their number,
    the cursor to zero and the receive length to zero; the reads then store
    in the data register, in order, the received bytes, as many as there are
    reads and no more than were received, the cursor advancing by one for
    each byte handed out. *)
Theorem echo_of_last_write (cnv : Z -> Z) (m : machine)
    (a1 : slave_irq) (ws : list slave_irq) (a2 : slave_irq) (rs : list slave_irq) :
  halted (brd m) = false ->
  isrCallback_ (TWI0 m) = Some ptr_twisCallback ->
  length (RxBuffer (twi0 m)) = 32%nat ->
  length (TxBuffer (twi0 m)) = 32%nat ->
  reports TWIS_ADDRESSED a1 ->
  Forall (reports TWIS_MWRITE) ws ->
  (1 <= length ws <= 32)%nat ->
  reports TWIS_ADDRESSED a2 ->
  Forall (reports TWIS_MREAD) rs ->
  let m1 := run cnv (on Bus0 a1 :: map (on Bus0) ws) m in
  let m2 := step cnv (on Bus0 a2) m1 in
  let m3 := run cnv (map (on Bus0) rs) m2 in
  take (length ws) (TxBuffer (twi0 m2)) = map dat ws
  /\ TxBufferLength (twi0 m2) = Z.of_nat (length ws)
  /\ TxBufferIndex (twi0 m2) = 0
  /\ RxBufferLength (twi0 m2) = 0
  /\ sdata_log (TWI0 m3) = sdata_log (TWI0 m1) ++ take (length rs) (map dat ws)
  /\ TxBufferIndex (twi0 m3) = Z.of_nat (min (length rs) (length ws)).
Proof.
  intros Hh W LR LT A1 Fw Hn A2 Fr.
  exact (proj1 (write_restart_read cnv m a1 ws a2 rs Hh W LR LT A1 Fw Hn A2 Fr)).
Qed.

Lemma echo_of_last_write_witness :
  let m1 := run ticks_are_ms (on Bus0 (addr_w 42) :: map (on Bus0) [data_w 7; data_w 9])
                booted in
  let m2 := step ticks_are_ms (on Bus0 (addr_r 42)) m1 in
  let m3 := run ticks_are_ms (map (on Bus0) [data_r; data_r]) m2 in
  sdata_log (TWI0 m3) = sdata_log (TWI0 m1) ++ take 2 (map dat [data_w 7; data_w 9]).
Proof.
  assert (H1 : halted (brd booted) = false) by (vm_compute; reflexivity).
  assert (H2 : isrCallback_ (TWI0 booted) = Some ptr_twisCallback)
    by (vm_compute; reflexivity).
  assert (H3 : length (RxBuffer (twi0 booted)) = 32%nat) by (vm_compute; reflexivity).
  assert (H4 : length (TxBuffer (twi0 booted)) = 32%nat) by (vm_compute; reflexivity).
  assert (H5 : reports TWIS_ADDRESSED (addr_w 42)) by (vm_compute; reflexivity).
  assert (H6 : Forall (reports TWIS_MWRITE) [data_w 7; data_w 9])
    by (repeat constructor).
  assert (H7 : (1 <= length [data_w 7; data_w 9] <= 32)%nat) by (cbn; lia).
  assert (H8 : reports TWIS_ADDRESSED (addr_r 42)) by (vm_compute; reflexivity).
  assert (H9 : Forall (reports TWIS_MREAD) [data_r; data_r]) by (repeat constructor).
  exact (proj1 (proj2 (proj2 (proj2 (proj2
           (echo_of_last_write ticks_are_ms booted (addr_w 42) [data_w 7; data_w 9]
              (addr_r 42) [data_r; data_r] H1 H2 H3 H4 H5 H6 H7 H8 H9)))))).
Defined.

(** After a STOPPED event the buffers are empty: a read session that
    follows a write session which was closed by a stop transmits nothing,
    although the write session received the byte 7. *)
Lemma echo_lost_after_stop :
  feasible ticks_are_ms write_stop_read booted = true
  /\ take 1 (RxBuffer (twi0 (run ticks_are_ms (take 2 write_stop_read) booted))) = [7]
  /\ RxBufferLength (twi0 (run ticks_are_ms (take 2 write_stop_read) booted)) = 1
  /\ sdata_log (TWI0 (run ticks_are_ms write_stop_read booted)) = []
  /\ sdata_log (TWI0 (run ticks_are_ms write_stop_read booted)) <> [7].
Proof. vm_compute. repeat split; discriminate. Qed.

(** ** The Relay Record and the abandoned print job *)

Lemma twi1sCallback_relay (state : twis_irqstate_t) (st : Z) (m : machine) :
  rly (snd (twi1sCallback state st m)) = rly m.
Proof.
  destruct state; unfold twi1sCallback, print_Op1_buf_if_possible, print_Op2_buf_if_possible;
    cbn [fst snd]; split_ifs; reflexivity.
Qed.

(** C4.  On a STOPPED event with a non-empty transmit buffer and an empty
    receive buffer, the host-facing callback copies the transmit payload
    into [got_twi0_buf], records its length, and sets [got_twi0]; in its
    other STOPPED branches it leaves the Relay Record alone; the
    application-facing callback never changes the Relay Record or either
    relay flag, in STOPPED or in any other state. *)
Theorem relay_written_by_host_bus_only (st : Z) (m : machine) :
  length (TxBuffer (twi0 m)) = 32%nat ->
  length (got_twi0_buf (rly m)) = 32%nat ->
  0 <= TxBufferLength (twi0 m) <= BUFF_SIZE ->
  (TxBufferLength (twi0 m) <> 0 -> RxBufferLength (twi0 m) = 0 ->
     let m' := snd (twisCallback TWIS_STOPPED st m) in
     got_twi0 (rly m') = 1
     /\ got_twi0BufferLength (rly m') = TxBufferLength (twi0 m)
     /\ got_twi0BufferIndex (rly m') = 0
     /\ take (Z.to_nat (TxBufferLength (twi0 m))) (got_twi0_buf (rly m'))
        = take (Z.to_nat (TxBufferLength (twi0 m))) (TxBuffer (twi0 m)))
  /\ (TxBufferLength (twi0 m) = 0 \/ RxBufferLength (twi0 m) <> 0 ->
        rly (snd (twisCallback TWIS_STOPPED st m)) = rly m)
  /\ (forall state : twis_irqstate_t, rly (snd (twi1sCallback state st m)) = rly m).
Proof.
  intros LT LG HT. split; [|split].
  - intros T R. unfold twisCallback, print_Op2_buf_if_possible, move_buffer. cbn [fst snd].
    rewrite R. apply truthy_true in T. rewrite T. cbn [truthy Z.eqb negb].
    split_ifs; cbn; repeat split; try done.
    all: apply copy_bytes_take; unfold BUFF_SIZE in *; lia.
  - intros H. unfold twisCallback, print_Op1_buf_if_possible, print_Op2_buf_if_possible.
    cbn [fst snd].
    destruct (truthy (TxBufferLength (twi0 m))) eqn:T;
      destruct (truthy (RxBufferLength (twi0 m))) eqn:R; zbool.
    + split_ifs; reflexivity.
    + lia.
    + split_ifs; reflexivity.
    + split_ifs; reflexivity.
  - intros state. apply twi1sCallback_relay.
Qed.




Lemma relay_written_by_host_bus_only_witness :
  let m := run ticks_are_ms (take 4 (write_then_read 7)) booted in
  let m' := snd (twisCallback TWIS_STOPPED 0x60 m) in
  got_twi0 (rly m') = 1
  /\ got_twi0BufferLength (rly m') = TxBufferLength (twi0 m)
  /\ got_twi0BufferIndex (rly m') = 0
  /\ take (Z.to_nat (TxBufferLength (twi0 m))) (got_twi0_buf (rly m'))
     = take (Z.to_nat (TxBufferLength (twi0 m))) (TxBuffer (twi0 m)).
Proof.
  assert (H1 : length (TxBuffer (twi0 (run ticks_are_ms (take 4 (write_then_read 7)) booted)))
               = 32%nat) by (vm_compute; reflexivity).
  assert (H2 : length (got_twi0_buf
                         (rly (run ticks_are_ms (take 4 (write_then_read 7)) booted)))
               = 32%nat) by (vm_compute; reflexivity).
  assert (H3 : 0 <= TxBufferLength (twi0 (run ticks_are_ms (take 4 (write_then_read 7)) booted))
               <= BUFF_SIZE) by (vm_compute; split; discriminate).
  assert (H4 : TxBufferLength (twi0 (run ticks_are_ms (take 4 (write_then_read 7)) booted))
               <> 0) by (vm_compute; discriminate).
  assert (H5 : RxBufferLength (twi0 (run ticks_are_ms (take 4 (write_then_read 7)) booted))
               = 0) by (vm_compute; reflexivity).
  exact (proj1 (relay_written_by_host_bus_only 0x60
                  (run ticks_are_ms (take 4 (write_then_read 7)) booted) H1 H2 H3) H4 H5).
Defined.



(** ** Command dispatch in the main loop *)
Lemma i2c_monitor_relay (m : machine) : same_relay m (i2c_monitor m).
Proof.
  unfold i2c_monitor, i2c_monitor_chain. split_ifs; by repeat split.
Qed.

Lemma blink_relay (m : machine) : same_relay m (blink m).
Proof.
  unfold blink, ioToggle. split_ifs; by repeat split.
Qed.

Lemma handle_input_relay (input : Z) (m : machine) :
  input <> 36 -> halted (brd m) = false -> same_relay m (handle_input input m).
Proof.
  intros H Hh. unfold handle_input.
  destruct (Z.eqb_spec input 36); [done|]. cbn. rewrite Hh. by repeat split.
Qed.

Lemma main_loop_handles (cnv : Z -> Z) (m : machine) :
  halted (brd m) = false ->
  got_twi0 (rly m) <> 0 ->
  uart1_room (env m) = true ->
  uart1_rx (env m) <> Some 36 ->
  exists m4, main_loop cnv m = handle_got_twi0 cnv m4
             /\ got_twi0_buf (rly m4) = got_twi0_buf (rly m).
Proof.
  intros Hh G Rm Rx. unfold main_loop.
  set (m1 := match uart1_rx (env m) with Some input => handle_input input m | None => m end).
  assert (S1 : same_relay m m1).
  { subst m1. destruct (uart1_rx (env m)) as [c|]; [|by repeat split].
    apply handle_input_relay; [congruence|done]. }
  clearbody m1. destruct S1 as (R1 & E1 & H1 & _). rewrite H1, Hh.
  set (m2 := if negb (truthy (got_a (brd m1))) then blink m1 else m1).
  assert (S2 : same_relay m1 m2).
  { subst m2. destruct (negb _); [apply blink_relay|by repeat split]. }
  clearbody m2. destruct S2 as (R2 & E2 & H2 & _).
  unfold uart1_availableForWrite. rewrite E2, E1, Rm.
  destruct (i2c_monitor_relay m2) as (R3 & E3 & H3 & _).
  set (m3 := i2c_monitor m2) in *. clearbody m3.
  set (m4 := if truthy (got_twi1 (rly m3)) then upd_rly (set_got_twi1 0) m3 else m3).
  assert (R4 : got_twi0 (rly m4) = got_twi0 (rly m)
               /\ got_twi0_buf (rly m4) = got_twi0_buf (rly m)).
  { subst m4. destruct (truthy _); cbn; rewrite R3, R2, R1; done. }
  clearbody m4. destruct R4 as [R4 R5]. exists m4.
  rewrite R4. apply truthy_true in G. rewrite G. done.
Qed.

(** What a pass of the main loop does with a pending Relay Record. *)
Lemma poll_dispatch (cnv : Z -> Z) (m : machine) (w : world) :
  halted (brd m) = false ->
  got_twi0 (rly m) <> 0 ->
  uart1_room w = true ->
  uart1_rx w <> Some 36 ->
  let m' := step cnv (Poll w) m in
  (if arr_get (got_twi0_buf (rly m)) 0 =? 7
   then pins (brd m') MCU_IO_MGR_SETAPP4_UPDI = LOGIC_LEVEL_HIGH
        /\ pins (brd m') MCU_IO_MGR_SETAPP4_UART = LOGIC_LEVEL_LOW
        /\ blink_delay (brd m') = cnv (BLINK_DELAY / 4)
   else pins (brd m') MCU_IO_MGR_SETAPP4_UART = LOGIC_LEVEL_HIGH
        /\ pins (brd m') MCU_IO_MGR_SETAPP4_UPDI = LOGIC_LEVEL_LOW
        /\ blink_delay (brd m') = cnv BLINK_DELAY)
  /\ got_twi0 (rly m') = 0.
Proof.
  intros Hh G Rm Rx. unfold step. rewrite Hh.
  destruct (main_loop_handles cnv (set_env w m)) as (m4 & E & B); try done.
  cbn zeta. rewrite E. cbn in B. rewrite <- B.
  unfold handle_got_twi0. destruct (arr_get (got_twi0_buf (rly m4)) 0 =? 7); cbn; done.
Qed.


(** C8 (as amended).  When the main loop handles a Relay Record whose
    first byte is 7, the blink period becomes a quarter of the normal
    value, [cnvrt_milli (BLINK_DELAY / 4)]; for any other first byte it
    becomes [cnvrt_milli BLINK_DELAY]. *)
Theorem blink_period_after_dispatch (cnv : Z -> Z) (m : machine) (w : world) :
  halted (brd m) = false ->
  got_twi0 (rly m) <> 0 ->
  uart1_room w = true ->
  uart1_rx w <> Some 36 ->
  blink_delay (brd (step cnv (Poll w) m)) =
    if arr_get (got_twi0_buf (rly m)) 0 =? 7
    then cnv (BLINK_DELAY / 4)
    else cnv BLINK_DELAY.
Proof.
  intros Hh G Rm Rx.
  destruct (poll_dispatch cnv m w Hh G Rm Rx) as [D _]. cbn zeta in D.
  destruct (arr_get (got_twi0_buf (rly m)) 0 =? 7); tauto.
Qed.

(** A write-then-read session of the host hands the written bytes to the
    main loop. *)
Lemma write_then_read_sets_relay (cnv : Z -> Z) (m : machine)
    (a1 : slave_irq) (ws : list slave_irq) (a2 : slave_irq) (rs : list slave_irq)
    (s : slave_irq) :
  halted (brd m) = false ->
  isrCallback_ (TWI0 m) = Some ptr_twisCallback ->
  length (RxBuffer (twi0 m)) = 32%nat ->
  length (TxBuffer (twi0 m)) = 32%nat ->
  length (got_twi0_buf (rly m)) = 32%nat ->
  reports TWIS_ADDRESSED a1 ->
  Forall (reports TWIS_MWRITE) ws ->
  (1 <= length ws <= 32)%nat ->
  reports TWIS_ADDRESSED a2 ->
  Forall (reports TWIS_MREAD) rs ->
  reports TWIS_STOPPED s ->
  let m' := step cnv (on Bus0 s)
              (run cnv (map (on Bus0) rs)
                 (step cnv (on Bus0 a2)
                    (run cnv (on Bus0 a1 :: map (on Bus0) ws) m))) in
  got_twi0 (rly m') = 1
  /\ got_twi0BufferLength (rly m') = Z.of_nat (length ws)
  /\ take (length ws) (got_twi0_buf (rly m')) = map dat ws
  /\ halted (brd m') = false.
Proof.
  intros Hh W LR LT LG A1 Fw Hn A2 Fr St.
  destruct (write_restart_read cnv m a1 ws a2 rs Hh W LR LT A1 Fw Hn A2 Fr)
    as ((TK & _) & K1 & K2 & K3 & K4 & K5 & K6).
  cbn zeta in *.
  set (m2 := step cnv (on Bus0 a2) _) in *. clearbody m2.
  set (m3 := run cnv (map (on Bus0) rs) m2) in *. clearbody m3.
  rewrite step_irq by done.
  destruct (isr0_stopped m3 (sts s) (dat s) (rm s) K4 St) as (R & _ & _ & H & _).
  { rewrite K2. lia. }
  { done. }
  set (m4 := slave_isr Bus0 _) in *. clearbody m4.
  rewrite R, H, K5, K2, K1, K6. cbn. repeat split.
  rewrite <- TK. rewrite <- (Nat2Z.id (length ws)) at 1 3.
  apply copy_bytes_take; rewrite ?Nat2Z.id; try lia.
  assert (L2 : (length ws <= length (TxBuffer (twi0 m2)))%nat).
  { apply (f_equal length) in TK. rewrite length_take, length_map in TK. lia. }
  lia.
Qed.

(** X16.  The command protocol end to end: the host writes a command byte (and
    possibly more), restarts, reads, and stops; a following pass of the main
    loop that finds room in the UART and no '$' switches to UPDI for
    command 7 and to UART for any other command. *)
Theorem host_command_end_to_end (cnv : Z -> Z) (m : machine)
    (a1 c : slave_irq) (ws : list slave_irq) (a2 : slave_irq) (rs : list slave_irq)
    (s : slave_irq) (w : world) :
  halted (brd m) = false ->
  isrCallback_ (TWI0 m) = Some ptr_twisCallback ->
  length (RxBuffer (twi0 m)) = 32%nat ->
  length (TxBuffer (twi0 m)) = 32%nat ->
  length (got_twi0_buf (rly m)) = 32%nat ->
  reports TWIS_ADDRESSED a1 ->
  Forall (reports TWIS_MWRITE) (c :: ws) ->
  (length ws < 32)%nat ->
  reports TWIS_ADDRESSED a2 ->
  Forall (reports TWIS_MREAD) rs ->
  reports TWIS_STOPPED s ->
  uart1_room w = true ->
  uart1_rx w <> Some 36 ->
  let m' := step cnv (Poll w)
              (step cnv (on Bus0 s)
                 (run cnv (map (on Bus0) rs)
                    (step cnv (on Bus0 a2)
                       (run cnv (on Bus0 a1 :: map (on Bus0) (c :: ws)) m)))) in
  (if dat c =? 7
   then pins (brd m') MCU_IO_MGR_SETAPP4_UPDI = LOGIC_LEVEL_HIGH
        /\ pins (brd m') MCU_IO_MGR_SETAPP4_UART = LOGIC_LEVEL_LOW
        /\ blink_delay (brd m') = cnv (BLINK_DELAY / 4)
   else pins (brd m') MCU_IO_MGR_SETAPP4_UART = LOGIC_LEVEL_HIGH
        /\ pins (brd m') MCU_IO_MGR_SETAPP4_UPDI = LOGIC_LEVEL_LOW
        /\ blink_delay (brd m') = cnv BLINK_DELAY)
  /\ got_twi0 (rly m') = 0.
Proof.
  intros Hh W LR LT LG A1 Fw Hn A2 Fr St Rm Rx.
  assert (Hn' : (1 <= length (c :: ws) <= 32)%nat) by (cbn; lia).
  destruct (write_then_read_sets_relay cnv m a1 (c :: ws) a2 rs s
              Hh W LR LT LG A1 Fw Hn' A2 Fr St) as (G & _ & TK & H).
  cbn zeta in *.
  set (m4 := step cnv (on Bus0 s) _) in *. clearbody m4.
  assert (G' : got_twi0 (rly m4) <> 0) by (rewrite G; lia).
  assert (B : arr_get (got_twi0_buf (rly m4)) 0 = dat c).
  { unfold arr_get. cbn [length map] in TK.
    change (Z.to_nat 0) with 0%nat.
    destruct (got_twi0_buf (rly m4)) as [|x l]; [discriminate|].
    cbn in TK. by inversion TK. }
  pose proof (poll_dispatch cnv m4 w H G' Rm Rx) as D. cbn zeta in D.
  by rewrite B in D.
Qed.



Lemma blink_period_after_dispatch_witness :
  let m := run ticks_are_ms (write_then_read 7) booted in
  blink_delay (brd (step ticks_are_ms (Poll quiet) m)) =
    if arr_get (got_twi0_buf (rly m)) 0 =? 7
    then ticks_are_ms (BLINK_DELAY / 4)
    else ticks_are_ms BLINK_DELAY.
Proof.
  assert (H1 : halted (brd (run ticks_are_ms (write_then_read 7) booted)) = false)
    by (vm_compute; reflexivity).
  assert (H2 : got_twi0 (rly (run ticks_are_ms (write_then_read 7) booted)) <> 0)
    by (vm_compute; discriminate).
  assert (H3 : uart1_room quiet = true) by reflexivity.
  assert (H4 : uart1_rx quiet <> Some 36) by discriminate.
  exact (blink_period_after_dispatch ticks_are_ms
           (run ticks_are_ms (write_then_read 7) booted) quiet H1 H2 H3 H4).
Defined.

(** With one tick per millisecond the period after command 7 is 250
    ticks, not half of [BLINK_DELAY]. *)
Lemma blink_period_is_not_halved :
  let m := run ticks_are_ms (write_then_read 7) booted in
  got_twi0 (rly m) = 1 /\ arr_get (got_twi0_buf (rly m)) 0 = 7
  /\ blink_delay (brd (step ticks_are_ms (Poll quiet) m)) = 250
  /\ blink_delay (brd (step ticks_are_ms (Poll quiet) m)) <> ticks_are_ms (BLINK_DELAY / 2).
Proof. vm_compute. repeat split. discriminate. Qed.

(** ** The application-facing bus *)
Lemma same_buses_trans (m1 m2 m3 : machine) :
  same_buses m1 m2 -> same_buses m2 m3 -> same_buses m1 m3.
Proof.
  unfold same_buses. intros (?&?&?&?) (?&?&?&?). repeat split; congruence.
Qed.

Lemma same_core_buses (m m' : machine) : same_core m m' -> same_buses m m'.
Proof. unfold same_core, same_buses. tauto. Qed.

Lemma i2c_monitor_buses (m : machine) : same_buses m (i2c_monitor m).
Proof.
  unfold i2c_monitor, i2c_monitor_chain. split_ifs; by repeat split.
Qed.

Lemma main_loop_buses (cnv : Z -> Z) (m : machine) : same_buses m (main_loop cnv m).
Proof.
  unfold main_loop.
  set (m1 := match uart1_rx (env m) with Some input => handle_input input m | None => m end).
  assert (S1 : same_buses m m1).
  { subst m1. destruct (uart1_rx (env m)); [|by repeat split].
    apply same_core_buses, handle_input_core. }
  clearbody m1. destruct (halted (brd m1)); [done|].
  set (m2 := if negb (truthy (got_a (brd m1))) then blink m1 else m1).
  assert (S2 : same_buses m m2).
  { subst m2. destruct (negb _); [|done].
    eapply same_buses_trans; [exact S1|]. apply same_core_buses, blink_core. }
  clearbody m2. destruct (uart1_availableForWrite m2); [|done].
  pose proof (same_buses_trans _ _ _ S2 (i2c_monitor_buses m2)) as S3.
  set (m3 := i2c_monitor m2) in *. clearbody m3.
  set (m4 := if truthy (got_twi1 (rly m3)) then upd_rly (set_got_twi1 0) m3 else m3).
  assert (S4 : same_buses m m4).
  { subst m4. destruct (truthy _); [|done].
    eapply same_buses_trans; [exact S3|]. by repeat split. }
  clearbody m4. destruct (truthy (got_twi0 (rly m4))); [|done].
  eapply same_buses_trans; [exact S4|]. apply same_core_buses, handle_got_twi0_core.
Qed.

(** The host-facing handler leaves the application bus alone. *)
Lemma twisCallback_frame (state : twis_irqstate_t) (st : Z) (m : machine) :
  twi1 (snd (twisCallback state st m)) = twi1 m
  /\ TWI1 (snd (twisCallback state st m)) = TWI1 m
  /\ isrCallback_ (TWI0 (snd (twisCallback state st m))) = isrCallback_ (TWI0 m).
Proof.
  destruct state; unfold twisCallback, print_Op1_buf_if_possible, print_Op2_buf_if_possible;
    cbn [fst snd]; split_ifs; by repeat split.
Qed.

Lemma isr0_frame (m : machine) (status data : Z) (room : bool) :
  isrCallback_ (TWI0 m) = Some ptr_twisCallback ->
  let m' := slave_isr Bus0 (latch Bus0 status data room m) in
  twi1 m' = twi1 m /\ TWI1 m' = TWI1 m
  /\ isrCallback_ (TWI0 m') = isrCallback_ (TWI0 m).
Proof.
  intros W. unfold slave_isr, latch. cbn [periph upd_periph]. cbn.
  set (P := if irqstate_eqb _ _ then _ else _).
  assert (K : twi1 (snd P) = twi1 m /\ TWI1 (snd P) = TWI1 m
              /\ isrCallback_ (TWI0 (snd P)) = isrCallback_ (TWI0 m)).
  { subst P. destruct (irq_state status); cbn; try destruct (is1st (TWI0 m)); by cbn. }
  destruct P as [done m1]. cbn [snd] in K. destruct K as (K1 & K2 & K3).
  rewrite K3, W. cbn [call_callback].
  destruct (twisCallback_frame (irq_state status) status m1) as (F1 & F2 & F3).
  destruct (twisCallback (irq_state status) status m1) as [ret m2]. cbn [fst snd] in *.
  destruct (if negb ret then true else done); cbn; rewrite F1, F2, F3, K1, K2, K3;
    by repeat split.
Qed.

Lemma hw_match_not_app (a : Z) :
  hw_address_match (uint8 (Z.lor (Z.shiftl fromHost_addr 1) 1)) a = true ->
  a <> fromApp_addr.
Proof.
  unfold hw_address_match. change (uint8 _) with 85.
  change (Z.shiftr 85 1) with 42. change (Z.testbit 85 0) with true.
  unfold fromApp_addr. intros H. apply orb_true_iff in H as [H|H]; zbool; lia.
Qed.

Lemma isr1_rejects (m : machine) (status data : Z) (room : bool) :
  app_closed m ->
  hw_raises (TWI1 m) status data = true ->
  let m' := slave_isr Bus1 (latch Bus1 status data room m) in
  app_closed m' /\ SCTRLB (TWI1 m') = 6
  /\ (irq_state status = TWIS_ADDRESSED -> twi1s_lastAddress m' <> fromApp_addr).
Proof.
  intros ([W0 W1] & SA & R0 & T0 & C) H. unfold hw_raises in H.
  apply andb_true_iff in H as [_ H].
  unfold slave_isr, latch. cbn [periph upd_periph]. cbn.
  destruct (irq_state status) eqn:E; cbn.
  - rewrite SA in H. apply hw_match_not_app in H.
    rewrite W1. cbn. unfold twi1s_lastAddress. cbn. rewrite R0. cbn.
    destruct (Z.eqb_spec (Z.shiftr data 1) fromApp_addr) as [|_]; [done|].
    cbn. unfold app_closed, wired. cbn. repeat split; done.
  - zbool. done.
  - zbool. done.
  - rewrite W1. cbn. rewrite R0, T0. cbn.
    split_ifs; cbn; unfold app_closed, wired; cbn; repeat split; done.
  - rewrite W1. cbn. unfold app_closed, wired; cbn; repeat split; done.
Qed.

Lemma step_app_closed (cnv : Z -> Z) (e : event) (m : machine) :
  app_closed m -> possible e m = true -> app_closed (step cnv e m).
Proof.
  intros A P. unfold step. destruct (halted (brd m)); [done|].
  destruct e as [[|] status data room|w]; cbn in P.
  - destruct A as ([W0 W1] & SA & R0 & T0 & C).
    destruct (isr0_frame m status data room W0) as (F1 & F2 & F3).
    unfold app_closed, wired. rewrite F1, F2, F3. done.
  - by apply isr1_rejects.
  - destruct (main_loop_buses cnv (set_env w m)) as (B0 & B1 & BT0 & BT1).
    cbn in B0, B1, BT0, BT1.
    unfold app_closed, wired in *. rewrite B1, BT0, BT1. done.
Qed.

Lemma boot_app_closed (cnv : Z -> Z) (w : world) : app_closed (boot cnv w).
Proof. unfold app_closed, wired. cbn. repeat split; done. Qed.

Lemma run_app_closed (cnv : Z -> Z) (es : list event) : forall m,
  app_closed m -> feasible cnv es m = true -> app_closed (run cnv es m).
Proof.
  induction es as [|e es IH]; intros m S F; [done|].
  cbn in F. apply andb_true_iff in F as [P F].
  cbn. apply IH; [by apply step_app_closed|done].
Qed.

(** C10.  After [setup], along every trace of events the hardware can
    produce: the application-facing peripheral matches the host address 42
    and the general call address 0 and nothing else; its callback proceeds
    only for address 41, so every address event ends with NACK and
    complete-transaction (6 in SCTRLB); no data interrupt can follow; and
    the receive and transmit lengths of the application bus stay zero. *)
Theorem app_bus_rejects_every_session (cnv : Z -> Z) (w : world) (es : list event) :
  feasible cnv es (boot cnv w) = true ->
  let m := run cnv es (boot cnv w) in
  RxBufferLength (twi1 m) = 0
  /\ TxBufferLength (twi1 m) = 0
  /\ SADDR (TWI1 m) = uint8 (Z.lor (Z.shiftl fromHost_addr 1) 1)
  /\ (forall a : Z, hw_address_match (SADDR (TWI1 m)) a = true ->
                    a = fromHost_addr \/ a = 0)
  /\ (forall (st : Z) (m0 : machine),
        fst (twi1sCallback TWIS_ADDRESSED st m0) = (twi1s_lastAddress m0 =? fromApp_addr))
  /\ (forall r : slave_irq,
        reports TWIS_ADDRESSED r -> possible (on Bus1 r) m = true ->
        halted (brd m) = false ->
        let m' := step cnv (on Bus1 r) m in
        twi1s_lastAddress m' <> fromApp_addr /\ SCTRLB (TWI1 m') = 6)
  /\ (forall r : slave_irq,
        reports TWIS_MREAD r \/ reports TWIS_MWRITE r -> possible (on Bus1 r) m = false).
Proof.
  intros F m.
  pose proof (run_app_closed cnv es _ (boot_app_closed cnv w) F) as A.
  fold m in A. destruct A as (W & SA & R0 & T0 & C).
  split; [done|]. split; [done|]. split; [done|]. split; [|split; [|split]].
  - intros a. rewrite SA. unfold hw_address_match. change (uint8 _) with 85.
    change (Z.shiftr 85 1) with 42. change (Z.testbit 85 0) with true.
    unfold fromHost_addr. intros H. apply orb_true_iff in H as [H|H]; zbool; lia.
  - reflexivity.
  - intros r Rp P Hh m'. subst m'. rewrite step_irq by done.
    cbn in P.
    destruct (isr1_rejects m (sts r) (dat r) (rm r)) as (_ & C6 & NA); try done.
    split; [by apply NA|done].
  - intros r Rp. cbn. unfold hw_raises.
    destruct Rp as [Rp|Rp]; rewrite Rp.
    all: destruct (Z.eqb_spec (SCTRLB (TWI1 m)) 3); [done|apply andb_false_r].
Qed.

Lemma app_bus_rejects_every_session_witness :
  let m := run ticks_are_ms (map (on Bus1) [addr_w 42; stop; addr_r 0; stop]) booted in
  RxBufferLength (twi1 m) = 0 /\ TxBufferLength (twi1 m) = 0.
Proof.
  assert (H : feasible ticks_are_ms (map (on Bus1) [addr_w 42; stop; addr_r 0; stop])
                (boot ticks_are_ms quiet) = true) by (vm_compute; reflexivity).
  pose proof (app_bus_rejects_every_session ticks_are_ms quiet
                (map (on Bus1) [addr_w 42; stop; addr_r 0; stop]) H) as K.
  exact (conj (proj1 K) (proj1 (proj2 K))).
Defined.

(** ** The receive buffer of the host-facing bus *)

(** C2.  After [setup], along every trace of events the hardware can
    produce, the receive length of the host-facing bus stays between 0 and
    32 and no array is accessed outside its bounds.  Every master-write
    byte is stored at an index below 32 and advances the length by one; the
    callback returns false exactly when the length reaches 32, the handler
    then writes NACK and complete-transaction (6) to SCTRLB, and while the
    length is 32 no further master-write interrupt can occur. *)
Theorem receive_buffer_never_overflows (cnv : Z -> Z) (w : world) (es : list event) :
  feasible cnv es (boot cnv w) = true ->
  let m := run cnv es (boot cnv w) in
  0 <= RxBufferLength (twi0 m) <= BUFF_SIZE
  /\ fault m = false
  /\ (RxBufferLength (twi0 m) = BUFF_SIZE ->
        SCTRLB (TWI0 m) = 6
        /\ forall r : slave_irq, reports TWIS_MWRITE r -> possible (on Bus0 r) m = false)
  /\ (forall r : slave_irq,
        reports TWIS_MWRITE r -> possible (on Bus0 r) m = true ->
        halted (brd m) = false ->
        let m' := step cnv (on Bus0 r) m in
        RxBufferLength (twi0 m) < BUFF_SIZE
        /\ RxBuffer (twi0 m') = arr_set (RxBuffer (twi0 m)) (RxBufferLength (twi0 m)) (dat r)
        /\ RxBufferLength (twi0 m') = RxBufferLength (twi0 m) + 1
        /\ fst (twisCallback TWIS_MWRITE (sts r) (latch Bus0 (sts r) (dat r) (rm r) m))
           = (RxBufferLength (twi0 m') <? BUFF_SIZE)
        /\ SCTRLB (TWI0 m') = (if RxBufferLength (twi0 m') <? BUFF_SIZE then 3 else 6)).
Proof.
  intros F m.
  pose proof (run_safe cnv es _ (boot_safe cnv w) F) as S. fold m in S.
  destruct S as [[W0 W1] B0 B1 J R Fl].
  destruct B0 as (L1 & L2 & H1 & C & H2 & I2).
  assert (Closed : RxBufferLength (twi0 m) = BUFF_SIZE ->
                   forall r : slave_irq, reports TWIS_MWRITE r -> possible (on Bus0 r) m = false).
  { intros E r Rp. cbn. unfold hw_raises. rewrite Rp, (C E). apply andb_false_r. }
  split; [done|]. split; [done|]. split; [by auto|].
  intros r Rp P Hh m'.
  assert (Lt : RxBufferLength (twi0 m) < BUFF_SIZE).
  { destruct (Z.eq_dec (RxBufferLength (twi0 m)) BUFF_SIZE) as [E|]; [|lia].
    rewrite (Closed E r Rp) in P. discriminate. }
  subst m'. rewrite step_irq by done.
  destruct (isr0_mwrite m (sts r) (dat r) (rm r) W0 Rp) as (E & _ & _ & _ & _ & _ & EC).
  set (m' := slave_isr Bus0 _) in *. clearbody m'.
  assert (U : uint8 (RxBufferLength (twi0 m) + 1) = RxBufferLength (twi0 m) + 1).
  { apply uint8_small. unfold BUFF_SIZE in *. lia. }
  rewrite U in E, EC. rewrite E. cbn [RxBuffer RxBufferLength].
  repeat split; try done.
  unfold twisCallback, latch. cbn. by rewrite U.
Qed.

Lemma receive_buffer_never_overflows_witness :
  let m := run ticks_are_ms
             (map (on Bus0) (addr_w 42 :: map data_w (seqZ 0 32)) ++ [Poll quiet]) booted in
  0 <= RxBufferLength (twi0 m) <= BUFF_SIZE /\ fault m = false.
Proof.
  assert (H : feasible ticks_are_ms
                (map (on Bus0) (addr_w 42 :: map data_w (seqZ 0 32)) ++ [Poll quiet])
                (boot ticks_are_ms quiet) = true) by (vm_compute; reflexivity).
  pose proof (receive_buffer_never_overflows ticks_are_ms quiet
                (map (on Bus0) (addr_w 42 :: map data_w (seqZ 0 32)) ++ [Poll quiet]) H) as K.
  exact (conj (proj1 K) (proj1 (proj2 K))).
Defined.

(** ** Crossing from the application bus to the host peripheral *)

(** ** Transfers of the master engine *)

Module TwimRunFacts.
Import Twim TwimRun TwimFacts.

Lemma writeok_not_err : truthy (Z.land WRITEOK ANYERR) = false.
Proof. reflexivity. Qed.
Lemma readok_not_err : truthy (Z.land READOK ANYERR) = false.
Proof. reflexivity. Qed.

Lemma irq_step_send (cb : option (state -> state)) (e : irq) (s : state) :
  write_acked e ->
  (txbuf_ s < txbufEnd_ s ->
     irq_step cb e s = m_write (ram s (txbuf_ s)) (set_txbuf (txbuf_ s + 1) (latch e s)))
  /\ (txbufEnd_ s <= txbuf_ s -> txbuf2_ s < txbuf2End_ s ->
     irq_step cb e s = m_write (ram s (txbuf2_ s)) (set_txbuf2 (txbuf2_ s + 1) (latch e s)))
  /\ (txbufEnd_ s <= txbuf_ s -> txbuf2End_ s <= txbuf2_ s -> rxbuf_ s <> 0 ->
     irq_step cb e s = m_startRead (latch e s))
  /\ (txbufEnd_ s <= txbuf_ s -> txbuf2End_ s <= txbuf2_ s -> rxbuf_ s = 0 ->
     irq_step cb e s = m_finished cb true (latch e s)).
Proof.
  intros W. unfold irq_step, ISR_TWI0_TWIM, m_status. cbn [latch with_regs TWI0 MSTATUS set_MDATA set_MSTATUS].
  unfold write_acked in W. rewrite W. rewrite writeok_not_err.
  change (WRITEOK =? READOK) with false. change (WRITEOK =? WRITEOK) with true.
  cbn [txbuf_ txbufEnd_ txbuf2_ txbuf2End_ rxbuf_ latch with_regs ram].
  repeat split; intros.
  - destruct (Z.ltb_spec (txbuf_ s) (txbufEnd_ s)); [done|lia].
  - destruct (Z.ltb_spec (txbuf_ s) (txbufEnd_ s)); [lia|].
    destruct (Z.ltb_spec (txbuf2_ s) (txbuf2End_ s)); [done|lia].
  - destruct (Z.ltb_spec (txbuf_ s) (txbufEnd_ s)); [lia|].
    destruct (Z.ltb_spec (txbuf2_ s) (txbuf2End_ s)); [lia|].
    by rewrite (proj2 (truthy_true _)).
  - destruct (Z.ltb_spec (txbuf_ s) (txbufEnd_ s)); [lia|].
    destruct (Z.ltb_spec (txbuf2_ s) (txbuf2End_ s)); [lia|].
    by rewrite (proj2 (truthy_false _)).
Qed.

Lemma send_run (cb : option (state -> state)) (es : list irq) : forall s : state,
  Forall write_acked es ->
  txbuf_ s <= txbufEnd_ s -> txbuf2_ s <= txbuf2End_ s ->
  Z.of_nat (length es) = (txbufEnd_ s - txbuf_ s) + (txbuf2End_ s - txbuf2_ s) ->
  sent cb es s = map (ram s) (seqZ (txbuf_ s) (txbufEnd_ s - txbuf_ s)
                              ++ seqZ (txbuf2_ s) (txbuf2End_ s - txbuf2_ s))
  /\ kept s (feed cb es s)
  /\ txbuf_ (feed cb es s) = txbufEnd_ s
  /\ txbuf2_ (feed cb es s) = txbuf2End_ s
  /\ rxbuf_ (feed cb es s) = rxbuf_ s
  /\ ram (feed cb es s) = ram s.
Proof.
  induction es as [|e es IH]; intros s F H1 H2 L.
  { cbn in L. rewrite !seqZ_nil by lia. cbn. unfold kept. repeat split; lia. }
  apply Forall_cons in F as [We F].
  destruct (irq_step_send cb e s We) as (S1 & S2 & _).
  cbn [sent feed fold_left]. fold (feed cb es (irq_step cb e s)).
  cbn [length] in L.
  destruct (Z.lt_ge_cases (txbuf_ s) (txbufEnd_ s)) as [Lt|Ge].
  - rewrite (S1 Lt).
    set (s1 := m_write _ _).
    destruct (IH s1) as (I1 & I2 & I3 & I4 & I5 & I6); subst s1; cbn; try lia; try done.
    cbn in I1, I2, I3, I4, I5, I6. unfold kept in *. cbn in I2.
    rewrite I1, I3, I4, I5, I6.
    rewrite (seqZ_cons (txbuf_ s)) by lia. cbn [map app].
    replace (Z.pred (txbufEnd_ s - txbuf_ s)) with (txbufEnd_ s - (txbuf_ s + 1)) by lia.
    replace (Z.succ (txbuf_ s)) with (txbuf_ s + 1) by lia.
    repeat split; try done; tauto.
  - assert (Lt2 : txbuf2_ s < txbuf2End_ s) by lia.
    rewrite (S2 Ge Lt2).
    set (s1 := m_write _ _).
    destruct (IH s1) as (I1 & I2 & I3 & I4 & I5 & I6); subst s1; cbn; try lia; try done.
    cbn in I1, I2, I3, I4, I5, I6. unfold kept in *. cbn in I2.
    rewrite I1, I3, I4, I5, I6.
    rewrite !(seqZ_nil (txbuf_ s)) by lia.
    rewrite (seqZ_cons (txbuf2_ s)) by lia. cbn [map app].
    replace (Z.pred (txbuf2End_ s - txbuf2_ s)) with (txbuf2End_ s - (txbuf2_ s + 1)) by lia.
    replace (Z.succ (txbuf2_ s)) with (txbuf2_ s + 1) by lia.
    repeat split; try done; tauto.
Qed.

Lemma irq_step_recv (cb : option (state -> state)) (e : irq) (s : state) :
  read_ready e ->
  (rxbuf_ s + 1 < rxbufEnd_ s ->
     irq_step cb e s
     = m_ACKread (set_rxbuf (rxbuf_ s + 1) (store (rxbuf_ s) (irq_data e) (latch e s))))
  /\ (rxbufEnd_ s <= rxbuf_ s + 1 ->
     irq_step cb e s
     = m_finished cb true (set_rxbuf (rxbuf_ s + 1) (store (rxbuf_ s) (irq_data e) (latch e s)))).
Proof.
  intros R. unfold irq_step, ISR_TWI0_TWIM, m_status.
  cbn [latch with_regs TWI0 MSTATUS set_MDATA set_MSTATUS].
  unfold read_ready in R. rewrite R, readok_not_err.
  change (READOK =? READOK) with true. cbn.
  split; intros H.
  - destruct (Z.ltb_spec (rxbuf_ s + 1) (rxbufEnd_ s)); [done|lia].
  - destruct (Z.ltb_spec (rxbuf_ s + 1) (rxbufEnd_ s)); [lia|done].
Qed.

Lemma filled_nil (p : Z) (old : Z -> Z) (a : Z) : filled p [] old a = old a.
Proof.
  unfold filled. cbn [length].
  destruct (Z.leb_spec p a), (Z.ltb_spec a (p + Z.of_nat 0)); cbn; try done; lia.
Qed.

Lemma filled_cons (p d : Z) (ds : list Z) (old : Z -> Z) (a : Z) :
  filled (p + 1) ds (fun x => if x =? p then d else old x) a = filled p (d :: ds) old a.
Proof.
  unfold filled. cbn [length].
  destruct (Z.leb_spec (p + 1) a), (Z.leb_spec p a),
    (Z.ltb_spec a (p + 1 + Z.of_nat (length ds))),
    (Z.ltb_spec a (p + Z.of_nat (S (length ds)))), (Z.eqb_spec a p); cbn; try lia; try done.
  - replace (Z.to_nat (a - p)) with (S (Z.to_nat (a - (p + 1)))) by lia. done.
  - subst a. replace (p - p) with 0 by lia. done.
Qed.

Lemma recv_run (cb : option (state -> state)) (es : list irq) : forall s : state,
  Forall read_ready es ->
  rxbuf_ s + Z.of_nat (length es) < rxbufEnd_ s ->
  kept s (feed cb es s)
  /\ rxbuf_ (feed cb es s) = rxbuf_ s + Z.of_nat (length es)
  /\ (forall a, ram (feed cb es s) a = filled (rxbuf_ s) (map irq_data es) (ram s) a)
  /\ txbuf_ (feed cb es s) = txbuf_ s /\ txbuf2_ (feed cb es s) = txbuf2_ s
  /\ (es <> [] -> MCTRLB (TWI0 (feed cb es s)) = READ)
  /\ (es = [] -> feed cb es s = s).
Proof.
  induction es as [|e es IH]; intros s F L.
  { cbn. unfold kept. repeat split; try done; try lia.
    intros a. by rewrite filled_nil. }
  apply Forall_cons in F as [Re F]. cbn [length] in L.
  destruct (irq_step_recv cb e s Re) as (S1 & _).
  cbn [feed fold_left]. fold (feed cb es (irq_step cb e s)).
  rewrite S1 by lia.
  set (s1 := m_ACKread _).
  destruct (IH s1) as (I1 & I2 & I3 & I4 & I5 & I6 & I7); subst s1; cbn; try lia; try done.
  cbn in I1, I2, I3, I4, I5. unfold kept in *. cbn in I1.
  rewrite I2, I4, I5.
  repeat split; try tauto; try lia.
  - intros a. rewrite I3. cbn [map]. apply filled_cons.
  - intros _. destruct es as [|e' es'].
    + rewrite I7 by done. reflexivity.
    + apply I6. done.
  - discriminate.
Qed.

Lemma feed_app (cb : option (state -> state)) (es1 es2 : list irq) (s : state) :
  feed cb (es1 ++ es2) s = feed cb es2 (feed cb es1 s).
Proof. unfold feed. apply fold_left_app. Qed.

Lemma busy_kept (s s' : state) :
  MCTRLA (TWI0 s') = MCTRLA (TWI0 s) -> twim_isBusy s' = twim_isBusy s.
Proof. unfold twim_isBusy, m_isBusy. by intros ->. Qed.

Lemma finished_none (tf : bool) (s : state) :
  twim_isBusy (m_finished None tf s) = false
  /\ twim_lastResultOK (m_finished None tf s) = tf
  /\ MCTRLB (TWI0 (m_finished None tf s)) = Z.lor NACK STOP
  /\ ram (m_finished None tf s) = ram s
  /\ MADDR (TWI0 (m_finished None tf s)) = MADDR (TWI0 s).
Proof.
  rewrite m_finished_invoke. cbn [invoke].
  destruct (at_callback_facts tf s) as (R & B & Bz). by repeat split.
Qed.

Lemma startWrite_bit0 (x : Z) : Z.testbit (Z.land x (Z.lnot RW)) 0 = false.
Proof. rewrite Z.land_spec. change (Z.testbit (Z.lnot RW) 0) with false. apply andb_false_r. Qed.

Lemma startRead_bit0 (x : Z) : Z.testbit (Z.lor x RW) 0 = true.
Proof. rewrite Z.lor_spec. change (Z.testbit RW 0) with true. apply orb_true_r. Qed.

(** X2.  [twim_writeWrite] sends the first buffer and then the second, in
    order, one byte for each acknowledged interrupt; the engine is busy and
    the result flag false until both are sent; the acknowledged interrupt
    after the last byte finishes the transfer with success and commands
    NACK and STOP. *)
Theorem writeWrite_sends_both_buffers (s : state) (wbuf wn wbuf2 wn2 : Z)
    (es : list irq) (e : irq) :
  0 <= wn < 65536 -> 0 <= wn2 < 65536 ->
  Forall write_acked es -> Z.of_nat (length es) = wn + wn2 -> write_acked e ->
  let s1 := twim_writeWrite wbuf wn wbuf2 wn2 s in
  Z.testbit (MADDR (TWI0 s1)) 0 = false
  /\ sent None es s1 = map (ram s) (seqZ wbuf wn ++ seqZ wbuf2 wn2)
  /\ twim_isBusy (feed None es s1) = true
  /\ twim_lastResultOK (feed None es s1) = false
  /\ twim_isBusy (feed None (es ++ [e]) s1) = false
  /\ twim_lastResultOK (feed None (es ++ [e]) s1) = true
  /\ MCTRLB (TWI0 (feed None (es ++ [e]) s1)) = Z.lor NACK STOP.
Proof.
  intros [H1 _] [H2 _] F L We s1.
  destruct (m_startIrq_armed true
              (mk_state (TWI0 s) wbuf (wbuf + wn) wbuf2 (wbuf2 + wn2) 0 0
                        (twi_lastResult_ s) (ram s))) as [B R].
  fold (twim_writeWrite wbuf wn wbuf2 wn2 s) in B, R. fold s1 in B, R.
  destruct (send_run None es s1) as (S1 & K & T1 & T2 & RX & RM); subst s1; cbn; try lia; try done.
  set (s1 := twim_writeWrite wbuf wn wbuf2 wn2 s) in *.
  cbn in S1, T1, T2, RX.
  replace (wbuf + wn - wbuf) with wn in S1 by lia.
  replace (wbuf2 + wn2 - wbuf2) with wn2 in S1 by lia.
  destruct K as (KA & _ & KR & KE1 & KE2 & _).
  split; [apply startWrite_bit0|]. split; [exact S1|].
  split; [by rewrite (busy_kept _ _ KA)|].
  split; [unfold twim_lastResultOK; by rewrite KR|].
  rewrite feed_app. cbn [feed fold_left].
  destruct (irq_step_send None e (feed None es s1) We) as (_ & _ & _ & S4).
  rewrite S4; rewrite ?KE1, ?KE2, ?T1, ?T2, ?RX; cbn; try lia.
  destruct (finished_none true (latch e (feed None es s1))) as (F1 & F2 & F3 & _).
  by repeat split.
Qed.

Lemma recv_finish (es : list irq) (e : irq) (s : state) :
  Forall read_ready es -> read_ready e ->
  es = [] \/ rxbuf_ s + Z.of_nat (length es) < rxbufEnd_ s ->
  rxbufEnd_ s <= rxbuf_ s + Z.of_nat (length es) + 1 ->
  let s' := feed None (es ++ [e]) s in
  (forall a, ram s' a = filled (rxbuf_ s) (map irq_data (es ++ [e])) (ram s) a)
  /\ twim_isBusy (feed None es s) = twim_isBusy s
  /\ twim_isBusy s' = false
  /\ twim_lastResultOK s' = true
  /\ MCTRLB (TWI0 s') = Z.lor NACK STOP
  /\ MADDR (TWI0 s') = MADDR (TWI0 s).
Proof.
  intros F Re Hlen Hend s'. subst s'.
  assert (R : kept s (feed None es s)
      /\ rxbuf_ (feed None es s) = rxbuf_ s + Z.of_nat (length es)
      /\ (forall a, ram (feed None es s) a = filled (rxbuf_ s) (map irq_data es) (ram s) a)).
  { destruct Hlen as [->|Hlen].
    - cbn. unfold kept. repeat split; try lia. intros a. by rewrite filled_nil.
    - destruct (recv_run None es s F Hlen) as (K & P & M & _). done. }
  destruct R as (K & P & M).
  rewrite feed_app. cbn [feed fold_left].
  fold (feed None es s).
  destruct (irq_step_recv None e (feed None es s) Re) as (_ & S2).
  rewrite S2 by (destruct K as (_ & _ & _ & _ & _ & K6); rewrite K6, P; lia).
  set (t := set_rxbuf _ _).
  destruct (finished_none true t) as (F1 & F2 & F3 & F4 & F5).
  destruct K as (KA & KM & _).
  split; [|split; [by apply busy_kept|by rewrite F5; subst t; cbn; rewrite KM]].
  intros a. rewrite F4. subst t. cbn. rewrite P.
  unfold store. cbn. rewrite M.
  unfold filled. rewrite !length_map, length_app. cbn [length].
  destruct (Z.eqb_spec a (rxbuf_ s + Z.of_nat (length es))) as [->|Ne].
  - destruct (Z.leb_spec (rxbuf_ s) (rxbuf_ s + Z.of_nat (length es))); [|lia].
    destruct (Z.ltb_spec (rxbuf_ s + Z.of_nat (length es))
                (rxbuf_ s + Z.of_nat (length es + 1))); [|lia].
    cbn. rewrite map_app. rewrite lookup_app_r; rewrite length_map; [|lia].
    replace (Z.to_nat (rxbuf_ s + Z.of_nat (length es) - rxbuf_ s) - length es)%nat
      with 0%nat by lia. done.
  - destruct (Z.leb_spec (rxbuf_ s) a); cbn; [|done].
    destruct (Z.ltb_spec a (rxbuf_ s + Z.of_nat (length es))),
             (Z.ltb_spec a (rxbuf_ s + Z.of_nat (length es + 1))); try lia; try done.
    rewrite map_app, lookup_app_l; [done|]. rewrite length_map. lia.
Qed.

(** X3.  A transfer started with nothing to write is a read.  It takes
    max(1, rn) bytes: each interrupt that reports a received byte stores it
    at the next address from [rbuf] on, nothing else in memory changes, the
    engine stays busy until the last of them, which finishes the transfer
    with success and commands NACK and STOP.  With [rn = 0] one byte is
    still stored at [rbuf], past the empty buffer. *)
Theorem read_fills_buffer (s : state) (wbuf rbuf rn : Z) (es : list irq) (e : irq) :
  0 <= rn < 65536 ->
  Forall read_ready es -> read_ready e ->
  Z.of_nat (length es) + 1 = Z.max 1 rn ->
  let s1 := twim_writeRead wbuf 0 rbuf rn s in
  let s2 := feed None (es ++ [e]) s1 in
  Z.testbit (MADDR (TWI0 s1)) 0 = true
  /\ twim_isBusy (feed None es s1) = true
  /\ (forall a, ram s2 a = filled rbuf (map irq_data (es ++ [e])) (ram s) a)
  /\ twim_isBusy s2 = false
  /\ twim_lastResultOK s2 = true
  /\ MCTRLB (TWI0 s2) = Z.lor NACK STOP.
Proof.
  intros [Hn _] F Re L s1 s2.
  destruct (m_startIrq_armed false
              (mk_state (TWI0 s) wbuf (wbuf + 0) 0 0 rbuf (rbuf + rn)
                        (twi_lastResult_ s) (ram s))) as [B R].
  change (twim_isBusy s1 = true) in B.
  destruct (recv_finish es e s1 F Re) as (M & B1 & B2 & R2 & C & _).
  - subst s1. cbn. destruct es; [by left|right]. cbn [length] in *. lia.
  - subst s1. cbn. lia.
  - split; [apply startRead_bit0|].
    split; [by rewrite B1|]. by repeat split.
Qed.

Lemma send_then (wbuf wn wbuf2 wn2 rbuf rn : Z) (wr : bool) (s : state) (ws : list irq) :
  0 <= wn -> 0 <= wn2 -> Forall write_acked ws -> Z.of_nat (length ws) = wn + wn2 ->
  let s0 := mk_state (TWI0 s) wbuf (wbuf + wn) wbuf2 (wbuf2 + wn2) rbuf (rbuf + rn)
                     (twi_lastResult_ s) (ram s) in
  let s1 := m_startIrq wr s0 in
  let s2 := feed None ws s1 in
  sent None ws s1 = map (ram s) (seqZ wbuf wn ++ seqZ wbuf2 wn2)
  /\ twim_isBusy s2 = true /\ twim_lastResultOK s2 = false
  /\ MADDR (TWI0 s2) = MADDR (TWI0 s1)
  /\ txbuf_ s2 = txbufEnd_ s2 /\ txbuf2_ s2 = txbuf2End_ s2
  /\ rxbuf_ s2 = rbuf /\ rxbufEnd_ s2 = rbuf + rn /\ ram s2 = ram s.
Proof.
  intros H1 H2 F L s0 s1 s2.
  destruct (m_startIrq_armed wr s0) as [B R]. fold s1 in B, R.
  assert (E : txbuf_ s1 = wbuf /\ txbufEnd_ s1 = wbuf + wn /\ txbuf2_ s1 = wbuf2
              /\ txbuf2End_ s1 = wbuf2 + wn2 /\ rxbuf_ s1 = rbuf
              /\ rxbufEnd_ s1 = rbuf + rn /\ ram s1 = ram s).
  { subst s1 s0. by destruct wr. }
  destruct E as (E1 & E2 & E3 & E4 & E5 & E6 & E7).
  destruct (send_run None ws s1) as (S1 & K & T1 & T2 & RX & RM);
    rewrite ?E1, ?E2, ?E3, ?E4; try lia; try done.
  fold s2 in K, T1, T2, RX, RM.
  rewrite E1, E2, E3, E4, E7 in S1.
  replace (wbuf + wn - wbuf) with wn in S1 by lia.
  replace (wbuf2 + wn2 - wbuf2) with wn2 in S1 by lia.
  destruct K as (KA & KM & KR & KE1 & KE2 & KE3).
  split; [exact S1|]. split; [by rewrite (busy_kept _ _ KA)|].
  split; [unfold twim_lastResultOK; by rewrite KR|].
  rewrite KE1, KE2, KE3, T1, T2, RX, RM. by repeat split.
Qed.

(** X1.  A write of [wn] bytes ([twim_write], or [twim_writeRead] without a
    read buffer): the transfer starts in the write direction; the [wn]
    acknowledged interrupts that follow put the bytes of the buffer into the
    data register in order while the engine stays busy; the next
    acknowledged interrupt finishes the transfer with success, commands
    NACK and STOP and leaves the memory as it was. *)
Theorem write_sends_buffer (s : state) (wbuf wn rn : Z) (ws : list irq) (e : irq) :
  1 <= wn < 65536 ->
  Forall write_acked ws -> Z.of_nat (length ws) = wn -> write_acked e ->
  let s1 := twim_writeRead wbuf wn 0 rn s in
  let s2 := feed None (ws ++ [e]) s1 in
  Z.testbit (MADDR (TWI0 s1)) 0 = false
  /\ sent None ws s1 = map (ram s) (seqZ wbuf wn)
  /\ twim_isBusy (feed None ws s1) = true
  /\ twim_isBusy s2 = false
  /\ twim_lastResultOK s2 = true
  /\ MCTRLB (TWI0 s2) = Z.lor NACK STOP
  /\ ram s2 = ram s.
Proof.
  intros Hn F L We s1 s2.
  assert (T : truthy wn = true) by (apply truthy_true; lia).
  destruct (send_then wbuf wn 0 0 0 rn true s ws) as (S1 & B & R & M & T1 & T2 & RX & _ & RM);
    try lia; try done.
  assert (E1 : s1 = m_startIrq true
             (mk_state (TWI0 s) wbuf (wbuf + wn) 0 (0 + 0) 0 (0 + rn)
                       (twi_lastResult_ s) (ram s)))
    by (subst s1; unfold twim_writeRead; by rewrite T).
  rewrite <- E1 in S1, B, R, M, T1, T2, RX, RM.
  rewrite (seqZ_nil 0 0), app_nil_r in S1 by lia.
  split; [rewrite E1; apply startWrite_bit0|].
  split; [exact S1|]. split; [exact B|].
  subst s2. rewrite feed_app. cbn [feed fold_left]. fold (feed None ws s1).
  destruct (irq_step_send None e (feed None ws s1) We) as (_ & _ & _ & S4).
  rewrite S4 by lia.
  destruct (finished_none true (latch e (feed None ws s1))) as (F1 & F2 & F3 & F4 & _).
  rewrite F4. by repeat split.
Qed.

(** X4.  [twim_writeRead] with both buffers: the write buffer is sent in
    order; the acknowledged interrupt after its last byte switches the
    address register to the read direction and commands ACK, the engine
    still busy; the received bytes, max(1, rn) of them, then fill the read
    buffer in order and the last one finishes the transfer with success. *)
Theorem writeRead_writes_then_reads (s : state) (wbuf wn rbuf rn : Z)
    (ws : list irq) (e0 : irq) (rs : list irq) (e : irq) :
  1 <= wn < 65536 -> rbuf <> 0 -> 0 <= rn < 65536 ->
  Forall write_acked ws -> Z.of_nat (length ws) = wn -> write_acked e0 ->
  Forall read_ready rs -> read_ready e -> Z.of_nat (length rs) + 1 = Z.max 1 rn ->
  let s1 := twim_writeRead wbuf wn rbuf rn s in
  let s2 := feed None (ws ++ [e0]) s1 in
  let s3 := feed None (rs ++ [e]) s2 in
  Z.testbit (MADDR (TWI0 s1)) 0 = false
  /\ sent None ws s1 = map (ram s) (seqZ wbuf wn)
  /\ Z.testbit (MADDR (TWI0 s2)) 0 = true
  /\ MCTRLB (TWI0 s2) = ACK
  /\ twim_isBusy s2 = true
  /\ (forall a, ram s3 a = filled rbuf (map irq_data (rs ++ [e])) (ram s) a)
  /\ twim_isBusy s3 = false
  /\ twim_lastResultOK s3 = true
  /\ MCTRLB (TWI0 s3) = Z.lor NACK STOP.
Proof.
  intros Hn Hr [Hrn _] F L We0 Fr Re Lr s1 s2 s3.
  assert (T : truthy wn = true) by (apply truthy_true; lia).
  destruct (send_then wbuf wn 0 0 rbuf rn true s ws) as (S1 & B & R & M & T1 & T2 & RX & RE & RM);
    try lia; try done.
  assert (E1 : s1 = m_startIrq true
             (mk_state (TWI0 s) wbuf (wbuf + wn) 0 (0 + 0) rbuf (rbuf + rn)
                       (twi_lastResult_ s) (ram s)))
    by (subst s1; unfold twim_writeRead; by rewrite T).
  rewrite <- E1 in S1, B, R, M, T1, T2, RX, RE, RM.
  rewrite (seqZ_nil 0 0), app_nil_r in S1 by lia.
  assert (E2 : s2 = m_startRead (latch e0 (feed None ws s1))).
  { subst s2. rewrite feed_app. cbn [feed fold_left]. fold (feed None ws s1).
    destruct (irq_step_send None e0 (feed None ws s1) We0) as (_ & _ & S3 & _).
    apply S3; lia. }
  assert (B2 : twim_isBusy s2 = true).
  { rewrite E2. rewrite <- B. by apply busy_kept. }
  destruct (recv_finish rs e s2 Fr Re) as (Mm & _ & B3 & R3 & C3 & _).
  - rewrite E2. cbn. rewrite RX, RE. destruct rs; [by left|right]. cbn [length] in *. lia.
  - rewrite E2. cbn. rewrite RX, RE. lia.
  - split; [rewrite E1; apply startWrite_bit0|].
    split; [exact S1|].
    split; [rewrite E2; apply startRead_bit0|].
    split; [by rewrite E2|].
    split; [exact B2|].
    split; [|by repeat split].
    intros a. fold s3 in Mm. rewrite Mm. rewrite E2. cbn. by rewrite RX, RM.
Qed.

Lemma shiftr1_set_rw (x : Z) : Z.shiftr (Z.lor x RW) 1 = Z.shiftr x 1.
Proof. rewrite Z.shiftr_lor. change (Z.shiftr RW 1) with 0. apply Z.lor_0_r. Qed.

Lemma shiftr1_clear_rw (x : Z) : Z.shiftr (Z.land x (Z.lnot RW)) 1 = Z.shiftr x 1.
Proof. rewrite Z.shiftr_land. change (Z.shiftr (Z.lnot RW) 1) with (-1). apply Z.land_m1_r. Qed.

Lemma startIrq_address (wr : bool) (s : state) :
  Z.shiftr (MADDR (TWI0 (m_startIrq wr s))) 1 = Z.shiftr (MADDR (TWI0 s)) 1.
Proof. destruct wr; cbn; [apply shiftr1_clear_rw|apply shiftr1_set_rw]. Qed.

Lemma irq_step_address (e : irq) (s : state) :
  Z.shiftr (MADDR (TWI0 (irq_step None e s))) 1 = Z.shiftr (MADDR (TWI0 s)) 1.
Proof.
  unfold irq_step, ISR_TWI0_TWIM.
  repeat match goal with
         | |- context [if ?c then _ else _] => destruct c
         end; cbn; try done; apply shiftr1_set_rw.
Qed.

Lemma apply_op_address (o : op) (s : state) :
  Z.shiftr (MADDR (TWI0 (apply_op o s))) 1 = Z.shiftr (MADDR (TWI0 s)) 1.
Proof.
  destruct o; cbn [apply_op].
  - unfold twim_writeRead. by rewrite startIrq_address.
  - unfold twim_writeWrite. by rewrite startIrq_address.
  - apply irq_step_address.
  - done.
Qed.

(** X5.  The seven address bits written by [twim_on] stay in the address
    register whatever transfers are started, whatever interrupts arrive and
    when the master is switched off: only the direction bit changes. *)
Theorem address_survives_transfers (addr : Z) (os : list op) (s : state) :
  0 <= addr < 128 ->
  Z.shiftr (MADDR (TWI0 (apply_ops os (twim_on addr s)))) 1 = addr.
Proof.
  intros H.
  assert (G : forall t, Z.shiftr (MADDR (TWI0 (apply_ops os t))) 1
                        = Z.shiftr (MADDR (TWI0 t)) 1).
  { induction os as [|o os IH]; intros t; [done|].
    cbn [apply_ops fold_left]. fold (apply_ops os (apply_op o t)).
    by rewrite IH, apply_op_address. }
  rewrite G. cbn. rewrite Z.shiftl_mul_pow2 by lia. rewrite Z.shiftr_div_pow2 by lia.
  unfold uint8. change (2 ^ 1) with 2. Z.div_mod_to_equations. lia.
Qed.

Section Waiting.
Variable cb : option (state -> state).

Lemma wait_loop_slots (fuel : nat) :
  forall env us s,
    never_finishes cb (Z.to_nat (slots_of us)) env s = true ->
    twim_isBusy s = true ->
    ((fuel < Z.to_nat (slots_of us))%nat -> wait_loop cb fuel env us s = None)
    /\ ((Z.to_nat (slots_of us) <= fuel)%nat ->
        exists s', wait_loop cb fuel env us s = Some s' /\ twim_isBusy s' = true).
Proof.
  induction fuel as [|fuel IH]; intros env us s Hn Hb.
  { pose proof (slots_of_pos us). split; [done|lia]. }
  pose proof (slots_of_pos us) as Hp.
  destruct (Z.to_nat (slots_of us)) as [|n] eqn:En; [lia|].
  cbn [wait_loop]. cbn [never_finishes] in Hn.
  set (s1 := delay_us_1 cb (hd None env) s).
  assert (K : twim_isBusy s1 = true /\ never_finishes cb n (tl env) s1 = true).
  { subst s1. destruct (hd None env) as [e|]; cbn [delay_us_1]; [|done].
    apply andb_true_iff in Hn as [Hn1 Hn2]. apply negb_true_iff in Hn1.
    destruct (isr_continues_keeps cb _ Hn1) as [K1 K2].
    unfold twim_isBusy, m_isBusy in *. rewrite K1. done. }
  destruct K as (Kb & Kn).
  destruct (truthy (uint16 (us - 1))) eqn:Eu; cbn [andb].
  - assert (Hne : uint16 (us - 1) <> 0).
    { unfold truthy in Eu. by destruct (Z.eqb_spec (uint16 (us - 1)) 0). }
    rewrite Kb.
    destruct (IH (tl env) (uint16 (us - 1)) s1) as [I1 I2]; [|done|].
    + rewrite slots_of_next by done.
      replace (Z.to_nat (slots_of us - 1)) with n by lia. done.
    + rewrite slots_of_next in I1, I2 by done.
      split; intros; [apply I1|apply I2]; lia.
  - assert (H0 : uint16 (us - 1) = 0).
    { unfold truthy in Eu. by destruct (Z.eqb_spec (uint16 (us - 1)) 0). }
    pose proof (slots_of_last us H0).
    split; [lia|]. intros _. eauto.
Qed.

(** X6.  While no interrupt finishes the transfer, the loop of
    [twim_waitUS] runs through exactly [slots_of us] delays of one
    microsecond before it gives up: it has not returned after fewer, and it
    returns after that many.  The 16-bit counter is decremented before it is
    tested, so a wait of 0 lasts 65536 microseconds. *)
Theorem waitUS_stalled_takes_slots_of (fuel : nat) (env : list (option irq))
    (us : Z) (s : state) :
  never_finishes cb (Z.to_nat (slots_of us)) env s = true ->
  twim_isBusy s = true ->
  (wait_loop cb fuel env us s = None <-> (fuel < Z.to_nat (slots_of us))%nat)
  /\ (uint16 us = 0 -> slots_of us = 65536)
  /\ (uint16 us <> 0 -> slots_of us = uint16 us).
Proof.
  intros Hn Hb.
  destruct (wait_loop_slots fuel env us s Hn Hb) as [W1 W2].
  split; [split; [|exact W1]|].
  - intros E. destruct (Nat.lt_ge_cases fuel (Z.to_nat (slots_of us))) as [|Ge]; [done|].
    destruct (W2 Ge) as (s' & E' & _). congruence.
  - unfold slots_of. split; intros H; destruct (Z.eqb_spec (uint16 us) 0); done.
Qed.

End Waiting.

Lemma write_sends_buffer_witness :
  let s1 := twim_writeRead 0x100 2 0 0 with_data in
  let s2 := feed None ([wok_irq; wok_irq] ++ [wok_irq]) s1 in
  Z.testbit (MADDR (TWI0 s1)) 0 = false
  /\ sent None [wok_irq; wok_irq] s1 = map (ram with_data) (seqZ 0x100 2)
  /\ twim_isBusy (feed None [wok_irq; wok_irq] s1) = true
  /\ twim_isBusy s2 = false
  /\ twim_lastResultOK s2 = true
  /\ MCTRLB (TWI0 s2) = Z.lor NACK STOP
  /\ ram s2 = ram with_data.
Proof.
  assert (H1 : 1 <= 2 < 65536) by lia.
  assert (F : Forall write_acked [wok_irq; wok_irq]) by (repeat constructor).
  assert (L : Z.of_nat (length [wok_irq; wok_irq]) = 2) by reflexivity.
  assert (We : write_acked wok_irq) by reflexivity.
  exact (write_sends_buffer with_data 0x100 2 0 [wok_irq; wok_irq] wok_irq H1 F L We).
Defined.

Lemma writeWrite_sends_both_buffers_witness :
  let s1 := twim_writeWrite 0x100 2 0x200 1 with_data in
  Z.testbit (MADDR (TWI0 s1)) 0 = false
  /\ sent None [wok_irq; wok_irq; wok_irq] s1
     = map (ram with_data) (seqZ 0x100 2 ++ seqZ 0x200 1)
  /\ twim_isBusy (feed None [wok_irq; wok_irq; wok_irq] s1) = true
  /\ twim_lastResultOK (feed None [wok_irq; wok_irq; wok_irq] s1) = false
  /\ twim_isBusy (feed None ([wok_irq; wok_irq; wok_irq] ++ [wok_irq]) s1) = false
  /\ twim_lastResultOK (feed None ([wok_irq; wok_irq; wok_irq] ++ [wok_irq]) s1) = true
  /\ MCTRLB (TWI0 (feed None ([wok_irq; wok_irq; wok_irq] ++ [wok_irq]) s1))
     = Z.lor NACK STOP.
Proof.
  assert (H1 : 0 <= 2 < 65536) by lia.
  assert (H2 : 0 <= 1 < 65536) by lia.
  assert (F : Forall write_acked [wok_irq; wok_irq; wok_irq]) by (repeat constructor).
  assert (L : Z.of_nat (length [wok_irq; wok_irq; wok_irq]) = 2 + 1) by reflexivity.
  assert (We : write_acked wok_irq) by reflexivity.
  exact (writeWrite_sends_both_buffers with_data 0x100 2 0x200 1
           [wok_irq; wok_irq; wok_irq] wok_irq H1 H2 F L We).
Defined.

Lemma read_fills_buffer_witness :
  let s1 := twim_writeRead 0 0 0x300 2 with_data in
  let s2 := feed None ([rok 5] ++ [rok 6]) s1 in
  Z.testbit (MADDR (TWI0 s1)) 0 = true
  /\ twim_isBusy (feed None [rok 5] s1) = true
  /\ (forall a, ram s2 a = filled 0x300 (map irq_data ([rok 5] ++ [rok 6])) (ram with_data) a)
  /\ twim_isBusy s2 = false
  /\ twim_lastResultOK s2 = true
  /\ MCTRLB (TWI0 s2) = Z.lor NACK STOP.
Proof.
  assert (H1 : 0 <= 2 < 65536) by lia.
  assert (F : Forall read_ready [rok 5]) by (repeat constructor).
  assert (Re : read_ready (rok 6)) by reflexivity.
  assert (L : Z.of_nat (length [rok 5]) + 1 = Z.max 1 2) by reflexivity.
  exact (read_fills_buffer with_data 0 0x300 2 [rok 5] (rok 6) H1 F Re L).
Defined.

Lemma writeRead_writes_then_reads_witness :
  let s1 := twim_writeRead 0x100 2 0x300 1 with_data in
  let s2 := feed None ([wok_irq; wok_irq] ++ [wok_irq]) s1 in
  let s3 := feed None ([] ++ [rok 9]) s2 in
  Z.testbit (MADDR (TWI0 s1)) 0 = false
  /\ sent None [wok_irq; wok_irq] s1 = map (ram with_data) (seqZ 0x100 2)
  /\ Z.testbit (MADDR (TWI0 s2)) 0 = true
  /\ MCTRLB (TWI0 s2) = ACK
  /\ twim_isBusy s2 = true
  /\ (forall a, ram s3 a = filled 0x300 (map irq_data ([] ++ [rok 9])) (ram with_data) a)
  /\ twim_isBusy s3 = false
  /\ twim_lastResultOK s3 = true
  /\ MCTRLB (TWI0 s3) = Z.lor NACK STOP.
Proof.
  assert (H1 : 1 <= 2 < 65536) by lia.
  assert (H2 : 0x300 <> 0) by lia.
  assert (H3 : 0 <= 1 < 65536) by lia.
  assert (F : Forall write_acked [wok_irq; wok_irq]) by (repeat constructor).
  assert (L : Z.of_nat (length [wok_irq; wok_irq]) = 2) by reflexivity.
  assert (We : write_acked wok_irq) by reflexivity.
  assert (Fr : Forall read_ready []) by constructor.
  assert (Re : read_ready (rok 9)) by reflexivity.
  assert (Lr : Z.of_nat (length (@nil irq)) + 1 = Z.max 1 1) by reflexivity.
  exact (writeRead_writes_then_reads with_data 0x100 2 0x300 1 [wok_irq; wok_irq] wok_irq
           [] (rok 9) H1 H2 H3 F L We Fr Re Lr).
Defined.

Lemma address_survives_transfers_witness :
  Z.shiftr (MADDR (TWI0 (apply_ops [Op_writeRead 0x100 2 0x300 1; Op_irq wok_irq;
                                    Op_irq nack_irq; Op_off]
                                   (twim_on 0x29 reset_state)))) 1 = 0x29.
Proof.
  assert (H : 0 <= 0x29 < 128) by lia.
  exact (address_survives_transfers 0x29
           [Op_writeRead 0x100 2 0x300 1; Op_irq wok_irq; Op_irq nack_irq; Op_off]
           reset_state H).
Defined.

Lemma waitUS_stalled_takes_slots_of_witness :
  (wait_loop None 3 [None; Some wok_irq] 5 started_write = None
   <-> (3 < Z.to_nat (slots_of 5))%nat)
  /\ (uint16 5 = 0 -> slots_of 5 = 65536)
  /\ (uint16 5 <> 0 -> slots_of 5 = uint16 5).
Proof.
  assert (H1 : never_finishes None (Z.to_nat (slots_of 5)) [None; Some wok_irq]
                 started_write = true) by (vm_compute; reflexivity).
  assert (H2 : twim_isBusy started_write = true) by (vm_compute; reflexivity).
  exact (waitUS_stalled_takes_slots_of None 3 [None; Some wok_irq] 5 started_write H1 H2).
Defined.

End TwimRunFacts.

(** ** The slave interrupt handlers and their callbacks *)

(** X7.  After [twis_init] with an address below 128 and a callback, the
    address-match logic answers that address and the general call address
    and no other; the peripheral and its three interrupts are enabled, the
    status flags are cleared, the callback is registered and the
    acknowledge command is untouched.  With a null callback [twis_init]
    does nothing. *)
Theorem twis_init_listens (addr : Z) (cb : twis_callback_t) (p : twis) :
  0 <= addr < 128 ->
  let p' := twis_init addr (Some cb) p in
  (forall a, hw_address_match (SADDR p') a = true <-> a = addr \/ a = 0)
  /\ Z.land (SCTRLA p') 0xE1 = 0xE1
  /\ SSTATUS p' = 0xCC
  /\ isrCallback_ p' = Some cb
  /\ SCTRLB p' = SCTRLB p
  /\ twis_init addr None p = p.
Proof.
  intros H p'. subst p'. cbn.
  assert (E : uint8 (Z.lor (Z.shiftl addr 1) 1) = 2 * addr + 1).
  { rewrite Z.shiftl_mul_pow2 by lia. change (2 ^ 1) with 2.
    replace (Z.lor (addr * 2) 1) with (2 * addr + 1).
    - unfold uint8. rewrite Z.mod_small; lia.
    - rewrite (Z.mul_comm addr 2).
      assert (L : Z.land (2 * addr) 1 = 0).
      { change 1 with (Z.ones 1). rewrite Z.land_ones by lia.
        change (2 ^ 1) with 2. Z.div_mod_to_equations. lia. }
      rewrite (Z.add_nocarry_lxor _ _ L). by rewrite (Z.lxor_lor _ _ L). }
  split; [|split; [|by repeat split]].
  - intros a. unfold hw_address_match. rewrite E.
    assert (S1 : Z.shiftr (2 * addr + 1) 1 = addr).
    { rewrite Z.shiftr_div_pow2 by lia. change (2 ^ 1) with 2. Z.div_mod_to_equations. lia. }
    assert (B0 : Z.testbit (2 * addr + 1) 0 = true) by apply Z.testbit_odd_0.
    rewrite S1, B0. cbn [andb].
    destruct (Z.eqb_spec a addr), (Z.eqb_spec a 0); cbn; split; intros; try done; try tauto; lia.
  - apply Z.bits_inj'. intros n Hn. rewrite Z.land_spec, !Z.lor_spec.
    destruct (Z.testbit 225 n) eqn:T; [|by rewrite andb_false_r].
    rewrite andb_true_r.
    assert (C : n = 0 \/ n = 5 \/ n = 6 \/ n = 7).
    { destruct (Z.eq_dec n 0); [tauto|]. destruct (Z.eq_dec n 5); [tauto|].
      destruct (Z.eq_dec n 6); [tauto|]. destruct (Z.eq_dec n 7); [tauto|].
      exfalso. destruct (Z.le_gt_cases 8 n).
      - assert (Z.testbit 225 n = false); [|congruence].
        apply Z.bits_above_log2; [lia|]. change (Z.log2 225) with 7. lia.
      - assert (C' : n = 1 \/ n = 2 \/ n = 3 \/ n = 4) by lia.
        destruct C' as [-> | [-> | [-> | ->]]]; discriminate T. }
    destruct C as [-> | [-> | [-> | ->]]]; cbn; by rewrite ?orb_true_r.
Qed.

(** X8.  On an address interrupt of the host-facing bus the handler
    records the seven address bits of the received byte as the last address
    and acknowledges exactly when they are 42; a general call, which the
    hardware matches too, is answered with NACK and complete-transaction.
    The callback keeps a copy of the status byte and notes an address as
    the last operation. *)
Theorem host_bus_acks_only_its_address (cnv : Z -> Z) (m : machine) (st d : Z) (room : bool) :
  halted (brd m) = false ->
  isrCallback_ (TWI0 m) = Some ptr_twisCallback ->
  irq_state st = TWIS_ADDRESSED ->
  let m' := step cnv (Irq Bus0 st d room) m in
  lastAddress_ (TWI0 m') = Z.shiftr d 1
  /\ SCTRLB (TWI0 m') = (if Z.shiftr d 1 =? fromHost_addr then 3 else 6)
  /\ is1st (TWI0 m') = true
  /\ last_op (twi0 m') = LAST_OP_A
  /\ slave_status_cpy (twi0 m') = st.
Proof.
  intros Hh W E m'. subst m'. unfold step. rewrite Hh.
  unfold slave_isr, s_status. cbn [latch periph upd_periph upd_TWI0 TWI0 set_env SSTATUS
    latch_SDATA set_SSTATUS].
  rewrite E. cbn [irqstate_eqb]. cbn. rewrite W. cbn.
  unfold print_Op1_buf_if_possible.
  repeat match goal with
         | |- context [if ?c then _ else _] => destruct c eqn:?
         end; cbn; by repeat split.
Qed.

Lemma isError_state (st : Z) : isError st = true -> irq_state st = TWIS_ERROR.
Proof. unfold irq_state. by intros ->. Qed.

(** X11.  A status with the collision or the bus-error bit set is an error
    whatever its other bits say: the callback returns false without
    touching anything, so the buffers, the print job, the relay record and
    the board are as before, and the handler commands NACK and
    complete-transaction. *)
Theorem bus_error_closes_and_keeps_buffers (b : bus) (cb : twis_callback_t) (m : machine) :
  isrCallback_ (periph b m) = Some cb ->
  isError (SSTATUS (periph b m)) = true ->
  let m' := slave_isr b m in
  SCTRLB (periph b m') = 6
  /\ twi0 m' = twi0 m /\ twi1 m' = twi1 m /\ job m' = job m /\ rly m' = rly m
  /\ brd m' = brd m /\ fault m' = fault m
  /\ is1st (periph b m') = is1st (periph b m)
  /\ lastAddress_ (periph b m') = lastAddress_ (periph b m).
Proof.
  intros W E m'. subst m'. unfold slave_isr, s_status.
  rewrite (isError_state _ E). cbn [irqstate_eqb negb].
  rewrite W. destruct cb, b; cbn; by repeat split.
Qed.

(** X10.  A stop interrupt ends the session on its bus: the handler
    commands NACK and complete-transaction, and the callback of that bus
    leaves both of its buffer lengths at zero; pins, the halt flag and the
    monitor's stage are untouched. *)
Theorem stop_resets_session (b : bus) (m : machine) :
  isrCallback_ (periph b m) = Some (match b with Bus0 => ptr_twisCallback
                                               | Bus1 => ptr_twi1sCallback end) ->
  irq_state (SSTATUS (periph b m)) = TWIS_STOPPED ->
  let m' := slave_isr b m in
  let v' := match b with Bus0 => twi0 m' | Bus1 => twi1 m' end in
  SCTRLB (periph b m') = 6
  /\ RxBufferLength v' = 0 /\ TxBufferLength v' = 0
  /\ pins (brd m') = pins (brd m)
  /\ halted (brd m') = halted (brd m)
  /\ debug_print_done (brd m') = debug_print_done (brd m).
Proof.
  intros W E m'. subst m'. unfold slave_isr, s_status.
  rewrite E. cbn [irqstate_eqb negb]. rewrite W.
  destruct b; cbn; unfold print_Op1_buf_if_possible, print_Op2_buf_if_possible;
  repeat match goal with
         | |- context [if ?c then _ else _] => destruct c
         end; cbn; by repeat split.
Qed.

(** X9.  On a master-read interrupt the handler ignores the master's
    acknowledge bit for the first byte after an address and acknowledges;
    for every later byte it ends the transaction (NACK and
    complete-transaction) exactly when the master answered the previous
    byte with NACK.  The callback runs in both cases and notes a read as the
    last operation. *)
Theorem read_ack_follows_master_after_first_byte (b : bus) (cb : twis_callback_t)
    (m : machine) :
  isrCallback_ (periph b m) = Some cb ->
  irq_state (SSTATUS (periph b m)) = TWIS_MREAD ->
  let m' := slave_isr b m in
  SCTRLB (periph b m')
  = (if is1st (periph b m) then 3
     else if isRxNack (SSTATUS (periph b m)) then 6 else 3)
  /\ is1st (periph b m') = false
  /\ last_op (match cb with ptr_twisCallback => twi0 m' | ptr_twi1sCallback => twi1 m' end)
     = LAST_OP_R.
Proof.
  intros W E m'. subst m'. unfold slave_isr, s_status.
  rewrite E. cbn [irqstate_eqb negb].
  destruct (is1st (periph b m)) eqn:F1.
  - assert (W' : isrCallback_ (periph b (upd_periph b (set_is1st false) m)) = Some cb)
      by (by destruct b).
    rewrite W'.
    destruct cb, b; cbn;
    repeat match goal with
           | |- context [if ?c then _ else _] => destruct c
           end; cbn; by repeat split.
  - rewrite W.
    destruct (isRxNack (SSTATUS (periph b m)));
    destruct cb, b; cbn in *;
    repeat match goal with
           | |- context [if ?c then _ else _] => destruct c eqn:?
           end; cbn; rewrite ?F1; by repeat split.
Qed.

Lemma twis_init_listens_witness :
  let p' := twis_init 42 (Some ptr_twisCallback) (TWI0 power_on) in
  (forall a, hw_address_match (SADDR p') a = true <-> a = 42 \/ a = 0)
  /\ Z.land (SCTRLA p') 0xE1 = 0xE1
  /\ SSTATUS p' = 0xCC
  /\ isrCallback_ p' = Some ptr_twisCallback
  /\ SCTRLB p' = SCTRLB (TWI0 power_on)
  /\ twis_init 42 None (TWI0 power_on) = TWI0 power_on.
Proof.
  assert (H : 0 <= 42 < 128) by lia.
  exact (twis_init_listens 42 ptr_twisCallback (TWI0 power_on) H).
Defined.

Lemma host_bus_acks_only_its_address_witness :
  let m' := step ticks_are_ms (Irq Bus0 0x61 0 true) booted in
  lastAddress_ (TWI0 m') = Z.shiftr 0 1
  /\ SCTRLB (TWI0 m') = (if Z.shiftr 0 1 =? fromHost_addr then 3 else 6)
  /\ is1st (TWI0 m') = true
  /\ last_op (twi0 m') = LAST_OP_A
  /\ slave_status_cpy (twi0 m') = 0x61.
Proof.
  assert (H1 : halted (brd booted) = false) by (vm_compute; reflexivity).
  assert (H2 : isrCallback_ (TWI0 booted) = Some ptr_twisCallback)
    by (vm_compute; reflexivity).
  assert (H3 : irq_state 0x61 = TWIS_ADDRESSED) by (vm_compute; reflexivity).
  exact (host_bus_acks_only_its_address ticks_are_ms booted 0x61 0 true H1 H2 H3).
Defined.

Lemma read_ack_follows_master_after_first_byte_witness :
  let m := upd_TWI0 (set_SSTATUS 0xB2) booted in
  let m' := slave_isr Bus0 m in
  SCTRLB (periph Bus0 m')
  = (if is1st (periph Bus0 m) then 3
     else if isRxNack (SSTATUS (periph Bus0 m)) then 6 else 3)
  /\ is1st (periph Bus0 m') = false
  /\ last_op (twi0 m') = LAST_OP_R.
Proof.
  assert (H1 : isrCallback_ (periph Bus0 (upd_TWI0 (set_SSTATUS 0xB2) booted))
               = Some ptr_twisCallback) by (vm_compute; reflexivity).
  assert (H2 : irq_state (SSTATUS (periph Bus0 (upd_TWI0 (set_SSTATUS 0xB2) booted)))
               = TWIS_MREAD) by (vm_compute; reflexivity).
  exact (read_ack_follows_master_after_first_byte Bus0 ptr_twisCallback
           (upd_TWI0 (set_SSTATUS 0xB2) booted) H1 H2).
Defined.

Lemma stop_resets_session_witness :
  let m := run ticks_are_ms (map (on Bus0) [addr_w 42; data_w 7]) booted in
  let m' := slave_isr Bus0 (upd_TWI0 (set_SSTATUS 0x60) m) in
  SCTRLB (periph Bus0 m') = 6
  /\ RxBufferLength (twi0 m') = 0 /\ TxBufferLength (twi0 m') = 0
  /\ pins (brd m') = pins (brd (upd_TWI0 (set_SSTATUS 0x60) m))
  /\ halted (brd m') = halted (brd (upd_TWI0 (set_SSTATUS 0x60) m))
  /\ debug_print_done (brd m') = debug_print_done (brd (upd_TWI0 (set_SSTATUS 0x60) m)).
Proof.
  assert (H1 : isrCallback_
                 (periph Bus0 (upd_TWI0 (set_SSTATUS 0x60)
                    (run ticks_are_ms (map (on Bus0) [addr_w 42; data_w 7]) booted)))
               = Some ptr_twisCallback) by (vm_compute; reflexivity).
  assert (H2 : irq_state
                 (SSTATUS (periph Bus0 (upd_TWI0 (set_SSTATUS 0x60)
                    (run ticks_are_ms (map (on Bus0) [addr_w 42; data_w 7]) booted))))
               = TWIS_STOPPED) by (vm_compute; reflexivity).
  exact (stop_resets_session Bus0
           (upd_TWI0 (set_SSTATUS 0x60)
              (run ticks_are_ms (map (on Bus0) [addr_w 42; data_w 7]) booted)) H1 H2).
Defined.

Lemma bus_error_closes_and_keeps_buffers_witness :
  let m := upd_TWI0 (set_SSTATUS 0x48) booted in
  let m' := slave_isr Bus0 m in
  SCTRLB (periph Bus0 m') = 6
  /\ twi0 m' = twi0 m /\ twi1 m' = twi1 m /\ job m' = job m /\ rly m' = rly m
  /\ brd m' = brd m /\ fault m' = fault m
  /\ is1st (periph Bus0 m') = is1st (periph Bus0 m)
  /\ lastAddress_ (periph Bus0 m') = lastAddress_ (periph Bus0 m).
Proof.
  assert (H1 : isrCallback_ (periph Bus0 (upd_TWI0 (set_SSTATUS 0x48) booted))
               = Some ptr_twisCallback) by (vm_compute; reflexivity).
  assert (H2 : isError (SSTATUS (periph Bus0 (upd_TWI0 (set_SSTATUS 0x48) booted))) = true)
    by (vm_compute; reflexivity).
  exact (bus_error_closes_and_keeps_buffers Bus0 ptr_twisCallback
           (upd_TWI0 (set_SSTATUS 0x48) booted) H1 H2).
Defined.

(** ** The board, the monitor and whole sessions *)

Lemma slave_isr_board (b : bus) (m : machine) : same_board m (slave_isr b m).
Proof.
  unfold slave_isr, s_status.
  destruct (irq_state (SSTATUS (periph b m))), (is1st (periph b m)),
    (isRxNack (SSTATUS (periph b m))), b; cbn;
  match goal with
  | |- context [isrCallback_ ?p] => destruct (isrCallback_ p) as [[|]|]
  end; cbn; unfold print_Op1_buf_if_possible, print_Op2_buf_if_possible;
  repeat match goal with
         | |- context [if ?c then _ else _] => destruct c
         end; cbn; by repeat split.
Qed.

Lemma step_irq_board (cnv : Z -> Z) (b : bus) (st d : Z) (room : bool) (m : machine) :
  same_board m (step cnv (Irq b st d room) m).
Proof.
  unfold step. destruct (halted (brd m)); [by repeat split|].
  destruct (slave_isr_board b (latch b st d room m)) as (P & H & B1 & B2 & G & D).
  destruct b; by repeat split.
Qed.

Lemma i2c_monitor_pins (m : machine) :
  pins (brd (i2c_monitor m)) = pins (brd m)
  /\ halted (brd (i2c_monitor m)) = halted (brd m)
  /\ blink_started_at (brd (i2c_monitor m)) = blink_started_at (brd m)
  /\ blink_delay (brd (i2c_monitor m)) = blink_delay (brd m)
  /\ got_a (brd (i2c_monitor m)) = got_a (brd m)
  /\ rly (i2c_monitor m) = rly m
  /\ env (i2c_monitor m) = env m.
Proof.
  unfold i2c_monitor, i2c_monitor_chain.
  repeat match goal with
         | |- context [if ?c then _ else _] => destruct c
         end; cbn;
  repeat match goal with
         | |- context [if ?c then _ else _] => destruct c
         end; cbn; by repeat split.
Qed.



Lemma at_stage_self (m : machine) :
  at_stage (debug_print_done (brd m)) (printOp1BufferIndex (job m))
           (printOp2BufferIndex (job m)) (uart1_out (brd m)) m = m.
Proof. by destruct m as [? ? [] ? ? ? [] ? ?]. Qed.

Section Monitor.
Variable m : machine.
Hypothesis no_fault : fault m = false.

Lemma mon_start (i1 i2 : Z) (out : list fragment) :
  i1 < printOp1BufferLength (job m) ->
  i2c_monitor (at_stage 0 i1 i2 out m)
  = at_stage 1 i1 i2 (out ++ [Out_monitor (print_slave_addr (job m))]) m.
Proof.
  intros H. unfold i2c_monitor, i2c_monitor_chain. cbn.
  by destruct (Z.ltb_spec i1 (printOp1BufferLength (job m))); [|lia].
Qed.

Lemma mon_status (i1 i2 : Z) (out : list fragment) :
  i2c_monitor (at_stage 1 i1 i2 out m)
  = at_stage 2 i1 i2 (out ++ [Out_status (slave_status_cpy (twi0 m))]) m.
Proof. done. Qed.

Lemma mon_len (i1 i2 : Z) (out : list fragment) :
  i2c_monitor (at_stage 2 i1 i2 out m)
  = at_stage 3 i1 i2 (out ++ [Out_len (printOp1BufferLength (job m))]) m.
Proof. done. Qed.

Lemma mon_byte1 (i1 i2 : Z) (out : list fragment) :
  0 <= i1 < printOp1BufferLength (job m) -> printOp1BufferLength (job m) <= BUFF_SIZE ->
  is_rw (printOp1rw (job m)) ->
  i2c_monitor (at_stage 3 i1 i2 out m)
  = at_stage 3 (i1 + 1) i2
      (out ++ [tag1 (printOp1rw (job m)) (arr_get (printOp1Buffer (job m)) i1)]) m.
Proof.
  intros H L RW. unfold i2c_monitor, i2c_monitor_chain, tag1. cbn.
  destruct (Z.leb_spec (printOp1BufferLength (job m)) i1); [lia|].
  unfold BUFF_SIZE in L.
  rewrite in_array_true by lia. rewrite uint8_small by lia.
  unfold at_stage. cbn. rewrite no_fault.
  destruct RW as [E | E]; rewrite E; cbn; done.
Qed.

Lemma mon_done1 (i1 i2 : Z) (out : list fragment) :
  printOp1BufferLength (job m) <= i1 ->
  i2c_monitor (at_stage 3 i1 i2 out m) = at_stage 4 i1 i2 out m.
Proof.
  intros H. unfold i2c_monitor, i2c_monitor_chain. cbn.
  by destruct (Z.leb_spec (printOp1BufferLength (job m)) i1); [|lia].
Qed.

Lemma mon_byte2 (i1 i2 : Z) (out : list fragment) :
  0 <= i2 < printOp2BufferLength (job m) -> printOp2BufferLength (job m) <= BUFF_SIZE ->
  is_rw (printOp2rw (job m)) ->
  i2c_monitor (at_stage 4 i1 i2 out m)
  = at_stage 4 i1 (i2 + 1)
      (out ++ [tag2 (printOp2rw (job m)) (arr_get (printOp2Buffer (job m)) i2)]) m.
Proof.
  intros H L RW. unfold i2c_monitor, i2c_monitor_chain, tag2. cbn.
  destruct (Z.leb_spec (printOp2BufferLength (job m)) i2); [lia|].
  unfold BUFF_SIZE in L.
  rewrite in_array_true by lia. rewrite uint8_small by lia.
  unfold at_stage. cbn. rewrite no_fault.
  destruct RW as [E | E]; rewrite E; cbn; done.
Qed.

Lemma mon_close (i1 i2 : Z) (out : list fragment) :
  printOp2BufferLength (job m) <= i2 ->
  i2c_monitor (at_stage 4 i1 i2 out m) = at_stage 0 i1 i2 (out ++ [Out_close]) m.
Proof.
  intros H. unfold i2c_monitor, i2c_monitor_chain. cbn.
  by destruct (Z.leb_spec (printOp2BufferLength (job m)) i2); [|lia].
Qed.

Lemma drop_arr_get (buf : list Z) (i : Z) :
  0 <= i -> (Z.to_nat i < length buf)%nat ->
  drop (Z.to_nat i) buf = arr_get buf i :: drop (Z.to_nat (i + 1)) buf.
Proof.
  intros H L. unfold arr_get.
  destruct (lookup_lt_is_Some_2 buf (Z.to_nat i) L) as [x E].
  rewrite E. cbn. replace (Z.to_nat (i + 1)) with (S (Z.to_nat i)) by lia.
  by apply drop_S.
Qed.

Lemma mon_bytes1 (k : nat) : forall (i1 i2 : Z) (out : list fragment),
  0 <= i1 -> i1 + Z.of_nat k <= printOp1BufferLength (job m) ->
  printOp1BufferLength (job m) <= BUFF_SIZE ->
  length (printOp1Buffer (job m)) = Z.to_nat BUFF_SIZE ->
  is_rw (printOp1rw (job m)) ->
  Nat.iter k i2c_monitor (at_stage 3 i1 i2 out m)
  = at_stage 3 (i1 + Z.of_nat k) i2
      (out ++ map (tag1 (printOp1rw (job m))) (take k (drop (Z.to_nat i1) (printOp1Buffer (job m))))) m.
Proof.
  induction k as [|k IH]; intros i1 i2 out H0 H1 H2 HL RW.
  { cbn. by rewrite Z.add_0_r, app_nil_r. }
  rewrite Nat.iter_succ_r. rewrite mon_byte1 by (try done; lia).
  rewrite IH by (try done; lia).
  unfold BUFF_SIZE in *.
  rewrite (drop_arr_get _ i1) by lia. cbn [take map].
  rewrite <- app_assoc. cbn [app].
  by replace (i1 + 1 + Z.of_nat k) with (i1 + Z.of_nat (S k)) by lia.
Qed.

Lemma mon_bytes2 (k : nat) : forall (i1 i2 : Z) (out : list fragment),
  0 <= i2 -> (k <> 0%nat -> i2 + Z.of_nat k <= printOp2BufferLength (job m)) ->
  printOp2BufferLength (job m) <= BUFF_SIZE ->
  length (printOp2Buffer (job m)) = Z.to_nat BUFF_SIZE ->
  (k <> 0%nat -> is_rw (printOp2rw (job m))) ->
  Nat.iter k i2c_monitor (at_stage 4 i1 i2 out m)
  = at_stage 4 i1 (i2 + Z.of_nat k)
      (out ++ map (tag2 (printOp2rw (job m))) (take k (drop (Z.to_nat i2) (printOp2Buffer (job m))))) m.
Proof.
  induction k as [|k IH]; intros i1 i2 out H0 H1 H2 HL RW.
  { cbn. by rewrite Z.add_0_r, app_nil_r. }
  assert (RW' : is_rw (printOp2rw (job m))) by (by apply RW).
  assert (H1' : i2 + Z.of_nat (S k) <= printOp2BufferLength (job m)) by (by apply H1).
  rewrite Nat.iter_succ_r. rewrite mon_byte2 by (try done; lia).
  rewrite IH by (try done; lia).
  unfold BUFF_SIZE in *.
  rewrite (drop_arr_get _ i2) by lia. cbn [take map].
  rewrite <- app_assoc. cbn [app].
  by replace (i2 + 1 + Z.of_nat k) with (i2 + Z.of_nat (S k)) by lia.
Qed.

End Monitor.

Lemma iter_add {A : Type} (f : A -> A) (a b : nat) (x : A) :
  Nat.iter (a + b) f x = Nat.iter b f (Nat.iter a f x).
Proof.
  revert x. induction a as [|a IH]; intros x; [done|].
  cbn [Nat.add]. rewrite !Nat.iter_succ_r. apply IH.
Qed.

Lemma monitor_record (m : machine) :
  queued m ->
  let m' := Nat.iter (polls_needed m) i2c_monitor m in
  uart1_out (brd m') = uart1_out (brd m) ++ record_of m
  /\ debug_print_done (brd m') = 0
  /\ printOp1BufferLength (job m') <= printOp1BufferIndex (job m')
  /\ printOp2BufferLength (job m') <= printOp2BufferIndex (job m')
  /\ fault m' = false
  /\ twi0 m' = twi0 m /\ twi1 m' = twi1 m /\ rly m' = rly m
  /\ pins (brd m') = pins (brd m).
Proof.
  intros (D & I1 & L1 & I2 & L2 & RW1 & RW2 & B1 & B2 & F) m'.
  set (j := job m) in *.
  set (n1 := Z.to_nat (printOp1BufferLength j)).
  set (k2 := length (rest2 j)).
  assert (K2 : Z.of_nat k2 = Z.max 0 (printOp2BufferLength j - printOp2BufferIndex j)).
  { subst k2. unfold rest2. rewrite length_drop, length_take. unfold BUFF_SIZE in *. lia. }
  assert (E : m' = i2c_monitor (Nat.iter k2 i2c_monitor
                (i2c_monitor (Nat.iter n1 i2c_monitor
                   (i2c_monitor (i2c_monitor (i2c_monitor m))))))).
  { subst m'. replace (polls_needed m) with (3 + (n1 + (1 + (k2 + 1))))%nat
      by (unfold polls_needed; fold j n1 k2; lia).
    by rewrite !iter_add. }
  assert (N1 : Z.of_nat n1 = printOp1BufferLength j) by (subst n1; lia).
  assert (T1 : take n1 (printOp1Buffer j)
               = take (Z.to_nat (printOp1BufferLength j)) (printOp1Buffer j)) by done.
  assert (T2 : take k2 (drop (Z.to_nat (printOp2BufferIndex j)) (printOp2Buffer j))
               = rest2 j).
  { unfold rest2. rewrite take_drop_commute.
    destruct (Z.le_gt_cases (printOp2BufferLength j) (printOp2BufferIndex j)).
    - rewrite !drop_ge; [done| |]; rewrite length_take; lia.
    - do 2 f_equal. lia. }
  clearbody k2 n1.
  rewrite <- (at_stage_self m) in E at 1. fold j in E. rewrite D, I1 in E.
  rewrite (mon_start m) in E by (fold j; lia).
  rewrite mon_status, mon_len in E.
  unfold BUFF_SIZE in *.
  rewrite (mon_bytes1 m F) in E by (fold j; unfold BUFF_SIZE; try done; lia).
  rewrite (mon_done1 m) in E by (fold j; lia).
  assert (RW2' : k2 <> 0%nat -> is_rw (printOp2rw j)) by (intros; apply RW2; lia).
  rewrite (mon_bytes2 m F) in E by (fold j; unfold BUFF_SIZE; try done; lia).
  rewrite (mon_close m) in E by (fold j; lia).
  rewrite E. cbn. fold j.
  split.
  - unfold record_of. fold j. rewrite <- !app_assoc. cbn [app].
    change (Z.to_nat 0) with 0%nat. rewrite drop_0, T1, T2. done.
  - repeat split; try done; lia.
Qed.

(** X13.  From a queued job, and with no interrupt in between, the monitor
    prints one complete record in length of slot 1 + bytes left in slot 2
    + 5 calls: the header with the address, the status copy, the length of
    slot 1, the bytes of slot 1 and then of slot 2 in order, each tagged
    with its slot and direction, and the closing bracket.  Afterwards the
    monitor is back at stage 0 with both slots printed, and no array has
    been read outside its bounds. *)
Theorem monitor_prints_whole_record (m : machine) :
  queued m ->
  let m' := Nat.iter (polls_needed m) i2c_monitor m in
  uart1_out (brd m') = uart1_out (brd m) ++ record_of m
  /\ debug_print_done (brd m') = 0
  /\ printOp1BufferLength (job m') <= printOp1BufferIndex (job m')
  /\ printOp2BufferLength (job m') <= printOp2BufferIndex (job m')
  /\ fault m' = false
  /\ twi0 m' = twi0 m /\ twi1 m' = twi1 m /\ rly m' = rly m
  /\ pins (brd m') = pins (brd m).
Proof. apply monitor_record. Qed.

Lemma parked_spec (m : machine) :
  parked m = true <->
  debug_print_done (brd m) = 4
  /\ printOp2BufferIndex (job m) < printOp2BufferLength (job m)
  /\ printOp2rw (job m) <> LAST_OP_W /\ printOp2rw (job m) <> LAST_OP_R
  /\ (printing (job m) = 0
      \/ (TxBufferLength (twi0 m) = 0 /\ TxBufferLength (twi1 m) = 0)).
Proof.
  unfold parked, wedged.
  rewrite !andb_true_iff, orb_true_iff, !andb_true_iff, !negb_true_iff,
    !Z.eqb_eq, !Z.eqb_neq, Z.ltb_lt. tauto.
Qed.

Lemma slave_isr_parked (b : bus) (m : machine) :
  parked m = true ->
  parked (slave_isr b m) = true
  /\ uart1_out (brd (slave_isr b m)) = uart1_out (brd m).
Proof.
  intros P. apply parked_spec in P as (D & I & W & R & T).
  assert (HL : (printOp2BufferLength (job m) <=? printOp2BufferIndex (job m)) = false)
    by (apply Z.leb_gt; lia).
  rewrite parked_spec.
  unfold slave_isr, s_status.
  destruct (irq_state (SSTATUS (periph b m))), (is1st (periph b m)),
    (isRxNack (SSTATUS (periph b m))), b; cbn;
  match goal with
  | |- context [isrCallback_ ?p] => destruct (isrCallback_ p) as [[|]|]
  end; cbn; unfold print_Op1_buf_if_possible, print_Op2_buf_if_possible, slots_free;
  cbn; rewrite ?HL, ?andb_false_r; cbn;
  repeat match goal with
         | |- context [if ?c then _ else _] => destruct c eqn:?
         end; zbool; cbn; rewrite ?HL, ?andb_false_r; cbn;
  try (split; [repeat split; first [done | lia | tauto]|done]).
Qed.

Lemma i2c_monitor_parked (m : machine) : parked m = true -> i2c_monitor m = m.
Proof.
  intros P. apply parked_spec in P as (D & I & W & R & T).
  unfold i2c_monitor, i2c_monitor_chain. rewrite D. cbn.
  destruct (Z.leb_spec (printOp2BufferLength (job m)) (printOp2BufferIndex (job m))); [lia|].
  destruct (Z.eqb_spec (printOp2rw (job m)) LAST_OP_W); [done|].
  destruct (Z.eqb_spec (printOp2rw (job m)) LAST_OP_R); [done|].
  by rewrite D.
Qed.

Lemma main_loop_parked (cnv : Z -> Z) (m : machine) :
  parked m = true ->
  parked (main_loop cnv m) = true
  /\ exists tail, uart1_out (brd (main_loop cnv m)) = uart1_out (brd m) ++ tail
                  /\ forallb console tail = true.
Proof.
  intros P. unfold main_loop.
  set (m1 := match uart1_rx (env m) with Some i => handle_input i m | None => m end).
  assert (P1 : parked m1 = true
               /\ exists tail, uart1_out (brd m1) = uart1_out (brd m) ++ tail
                               /\ forallb console tail = true).
  { subst m1. destruct (uart1_rx (env m)) as [i|].
    - unfold handle_input. destruct (i =? 36); cbn.
      + split; [done|]. exists [Out_echo i; Out_abort]. by rewrite <- app_assoc.
      + destruct (halted (brd m)); cbn; (split; [done|]); by exists [Out_echo i].
    - split; [done|]. exists []. by rewrite app_nil_r. }
  clearbody m1. destruct P1 as (P1 & tail & O1 & C1).
  destruct (halted (brd m1)); [eauto|].
  set (m2 := if negb (truthy (got_a (brd m1))) then blink m1 else m1).
  assert (P2 : parked m2 = true /\ uart1_out (brd m2) = uart1_out (brd m1)).
  { subst m2. destruct (negb _); [|done]. unfold blink. by destruct (_ <? _). }
  clearbody m2. destruct P2 as (P2 & O2).
  destruct (uart1_availableForWrite m2); [|rewrite O2; eauto].
  rewrite (i2c_monitor_parked m2 P2).
  set (m4 := if truthy (got_twi1 (rly m2)) then upd_rly (set_got_twi1 0) m2 else m2).
  assert (P4 : parked m4 = true /\ uart1_out (brd m4) = uart1_out (brd m2)).
  { subst m4. by destruct (truthy _). }
  clearbody m4. destruct P4 as (P4 & O4).
  destruct (truthy (got_twi0 (rly m4))).
  - unfold handle_got_twi0. destruct (_ =? 7); cbn; rewrite O4, O2; eauto.
  - rewrite O4, O2. eauto.
Qed.

Lemma step_parked (cnv : Z -> Z) (e : event) (m : machine) :
  parked m = true ->
  parked (step cnv e m) = true
  /\ exists tail, uart1_out (brd (step cnv e m)) = uart1_out (brd m) ++ tail
                  /\ forallb console tail = true.
Proof.
  intros P. unfold step. destruct (halted (brd m)).
  { split; [done|]. exists []. by rewrite app_nil_r. }
  destruct e as [b st d room|w].
  - assert (PL : parked (latch b st d room m) = true) by (by destruct b).
    destruct (slave_isr_parked b _ PL) as [P' O].
    split; [done|]. exists []. rewrite O, app_nil_r. by destruct b.
  - assert (PL : parked (set_env w m) = true) by done.
    apply (main_loop_parked cnv _ PL).
Qed.

(** X15.  The second print slot can be queued with the operation tag of an
    address (neither read nor write), for instance when the host writes,
    restarts and stops without transferring a byte.  When the monitor
    reaches such a slot it prints nothing and does not advance; from then on,
    whatever interrupts and main-loop passes follow, the slots never count
    as printed again, [i2c_monitor] changes nothing, and the only output is
    the echo of received characters and the abort message. *)
Theorem monitor_stays_wedged (cnv : Z -> Z) (es : list event) (m : machine) :
  parked m = true ->
  let m' := run cnv es m in
  parked m' = true
  /\ slots_free m' = false
  /\ i2c_monitor m' = m'
  /\ exists tail, uart1_out (brd m') = uart1_out (brd m) ++ tail
                  /\ forallb console tail = true.
Proof.
  intros P m'.
  assert (G : parked m' = true
              /\ exists tail, uart1_out (brd m') = uart1_out (brd m) ++ tail
                              /\ forallb console tail = true).
  { subst m'. revert m P. induction es as [|e es IH]; intros m P.
    - split; [done|]. exists []. by rewrite app_nil_r.
    - cbn [run fold_left]. fold (run cnv es (step cnv e m)).
      destruct (step_parked cnv e m P) as (P1 & t1 & O1 & C1).
      destruct (IH _ P1) as (P2 & t2 & O2 & C2).
      split; [done|]. exists (t1 ++ t2).
      rewrite O2, O1, <- app_assoc. split; [done|].
      rewrite forallb_app. by rewrite C1, C2. }
  destruct G as [P' O]. split; [done|].
  split; [|split; [by apply i2c_monitor_parked|done]].
  apply parked_spec in P' as (D & I & _). unfold slots_free.
  destruct (Z.leb_spec (printOp2BufferLength (job m')) (printOp2BufferIndex (job m'))); [lia|].
  by rewrite andb_false_r.
Qed.



Lemma quiet_step (cnv : Z -> Z) (e : event) (m : machine) :
  got_a (brd m) <> 0 -> no_input e ->
  got_a (brd (step cnv e m)) = got_a (brd m)
  /\ pins (brd (step cnv e m)) MCU_IO_MGR_LED = pins (brd m) MCU_IO_MGR_LED
  /\ blink_started_at (brd (step cnv e m)) = blink_started_at (brd m).
Proof.
  intros G N. destruct e as [b st d room|w].
  - destruct (step_irq_board cnv b st d room m) as (P & _ & B & _ & A & _).
    by rewrite P, B, A.
  - cbn in N. unfold step. destruct (halted (brd m)) eqn:Hh; [done|].
    unfold main_loop. cbn [set_env env]. rewrite N.
    cbn [brd set_env]. rewrite Hh.
    rewrite (proj2 (truthy_true _)) by done. cbn [negb].
    destruct (uart1_availableForWrite (set_env w m)); [|done].
    destruct (i2c_monitor_pins (set_env w m)) as (P3 & H3 & B3 & _ & A3 & _).
    set (m3 := i2c_monitor (set_env w m)) in *. clearbody m3.
    set (m4 := if truthy (got_twi1 (rly m3)) then upd_rly (set_got_twi1 0) m3 else m3).
    assert (R4 : brd m4 = brd m3) by (subst m4; by destruct (truthy _)).
    clearbody m4.
    destruct (truthy (got_twi0 (rly m4))).
    + unfold handle_got_twi0. destruct (_ =? 7); cbn; by rewrite R4, P3, B3, A3.
    + by rewrite R4, P3, B3, A3.
Qed.

(** X19.  A pass of the main loop that receives 'a' sets [got_a] and does
    not blink; as long as no further character arrives, no interrupt and no
    pass of the main loop toggles the LED or moves [blink_started_at],
    however much time has elapsed. *)
Theorem letter_a_stops_blinking (cnv : Z -> Z) (m : machine) (w : world)
    (es : list event) :
  halted (brd m) = false ->
  uart1_rx w = Some 97 ->
  Forall no_input es ->
  let m1 := step cnv (Poll w) m in
  let m2 := run cnv es m1 in
  got_a (brd m1) = 1
  /\ pins (brd m1) MCU_IO_MGR_LED = pins (brd m) MCU_IO_MGR_LED
  /\ blink_started_at (brd m1) = blink_started_at (brd m)
  /\ got_a (brd m2) = 1
  /\ pins (brd m2) MCU_IO_MGR_LED = pins (brd m) MCU_IO_MGR_LED
  /\ blink_started_at (brd m2) = blink_started_at (brd m).
Proof.
  intros Hh Rx F m1 m2.
  assert (S1 : got_a (brd m1) = 1
               /\ pins (brd m1) MCU_IO_MGR_LED = pins (brd m) MCU_IO_MGR_LED
               /\ blink_started_at (brd m1) = blink_started_at (brd m)).
  { subst m1. unfold step. rewrite Hh. unfold main_loop. cbn [set_env env]. rewrite Rx.
    unfold handle_input. cbn. rewrite Hh. cbn. rewrite Hh.
    set (m0 := upd_brd _ _).
    assert (B0 : got_a (brd m0) = 1
                 /\ pins (brd m0) = pins (brd m)
                 /\ blink_started_at (brd m0) = blink_started_at (brd m)) by done.
    clearbody m0. destruct B0 as (A0 & P0 & T0).
    destruct (uart1_availableForWrite m0); [|by rewrite P0].
    destruct (i2c_monitor_pins m0) as (P3 & H3 & B3 & _ & A3 & _).
    set (m3 := i2c_monitor m0) in *. clearbody m3.
    set (m4 := if truthy (got_twi1 (rly m3)) then upd_rly (set_got_twi1 0) m3 else m3).
    assert (R4 : brd m4 = brd m3) by (subst m4; by destruct (truthy _)).
    clearbody m4.
    destruct (truthy (got_twi0 (rly m4))).
    + unfold handle_got_twi0. destruct (_ =? 7); cbn; by rewrite R4, P3, B3, A3, P0.
    + by rewrite R4, P3, B3, A3, P0. }
  destruct S1 as (A1 & P1 & T1).
  split; [done|]. split; [done|]. split; [done|].
  rewrite <- A1 at 1. rewrite <- P1, <- T1.
  subst m2. clearbody m1. clear P1 T1 Hh.
  revert m1 A1. induction F as [|e es N F IH]; intros m1 A1; [done|].
  cbn [run fold_left]. fold (run cnv es (step cnv e m1)).
  destruct (quiet_step cnv e m1) as (A2 & P2 & T2); [lia|done|].
  destruct (IH (step cnv e m1)) as (A3 & P3 & T3); [lia|].
  rewrite A3, P3, T3. by rewrite A2, P2, T2.
Qed.

(** X12.  A session that is an address interrupt directly followed by a
    stop, on a bus with empty buffers, is reported at once as a ping if
    both print slots have been printed and the UART has room at the stop,
    and not at all otherwise.  The message always names address 42, on
    either bus and whatever address was received; the relay record is
    untouched. *)
Theorem bare_address_session_is_a_ping (cnv : Z -> Z) (m : machine) (b : bus)
    (a s : slave_irq) :
  halted (brd m) = false ->
  isrCallback_ (periph b m) = Some (match b with Bus0 => ptr_twisCallback
                                               | Bus1 => ptr_twi1sCallback end) ->
  RxBufferLength (match b with Bus0 => twi0 m | Bus1 => twi1 m end) = 0 ->
  TxBufferLength (match b with Bus0 => twi0 m | Bus1 => twi1 m end) = 0 ->
  reports TWIS_ADDRESSED a -> reports TWIS_STOPPED s ->
  let m' := run cnv [on b a; on b s] m in
  let idle := (printOp1BufferLength (job m) <=? printOp1BufferIndex (job m))
              && (printOp2BufferLength (job m) <=? printOp2BufferIndex (job m))
              && rm s in
  uart1_out (brd m') = uart1_out (brd m) ++ (if idle then [Out_ping fromHost_addr] else [])
  /\ printing (job m') = b2z idle
  /\ rly m' = rly m
  /\ SCTRLB (periph b m') = 6.
Proof.
  intros Hh W R0 T0 A S m' idle. subst m' idle.
  unfold reports in A, S.
  cbn [run fold_left]. rewrite (step_irq cnv b a m Hh).
  set (m1 := slave_isr b _).
  assert (K : halted (brd m1) = false
              /\ isrCallback_ (periph b m1) = isrCallback_ (periph b m)
              /\ RxBufferLength (match b with Bus0 => twi0 m1 | Bus1 => twi1 m1 end) = 0
              /\ TxBufferLength (match b with Bus0 => twi0 m1 | Bus1 => twi1 m1 end) = 0
              /\ last_op (match b with Bus0 => twi0 m1 | Bus1 => twi1 m1 end) = LAST_OP_A
              /\ job m1 = job m /\ rly m1 = rly m
              /\ uart1_out (brd m1) = uart1_out (brd m)).
  { subst m1. unfold slave_isr, s_status.
    destruct b; cbn [latch periph upd_periph upd_TWI0 upd_TWI1 TWI0 TWI1 set_env SSTATUS
      latch_SDATA set_SSTATUS]; rewrite A; cbn [irqstate_eqb]; cbn; cbn in W; rewrite W; cbn;
      cbn in R0; rewrite R0; cbn; destruct (_ =? _); cbn; rewrite ?R0, ?T0; by repeat split. }
  destruct K as (H1 & W1 & R1 & T1 & L1 & J1 & G1 & O1).
  rewrite (step_irq cnv b s m1 H1). clearbody m1.
  rewrite <- J1, <- G1, <- O1. rewrite <- W1 in W. clear J1 G1 O1 W1 R0 T0 Hh A.
  unfold slave_isr, s_status.
  destruct b; cbn [latch periph upd_periph upd_TWI0 upd_TWI1 TWI0 TWI1 set_env SSTATUS
      latch_SDATA set_SSTATUS]; rewrite S; cbn [irqstate_eqb negb]; cbn; cbn in W; rewrite W;
    cbn; cbn in R1, T1, L1; rewrite R1, T1, L1; cbn; unfold slots_free; cbn;
    destruct (_ && _ && _); cbn; rewrite ?app_nil_r; by repeat split.
Qed.

Lemma isr0_mwrite_frame (m : machine) (st d : Z) (room : bool) :
  isrCallback_ (TWI0 m) = Some ptr_twisCallback ->
  irq_state st = TWIS_MWRITE ->
  0 <= RxBufferLength (twi0 m) < BUFF_SIZE ->
  let m' := slave_isr Bus0 (latch Bus0 st d room m) in
  fault m' = fault m
  /\ lastAddress_ (TWI0 m') = lastAddress_ (TWI0 m)
  /\ slave_status_cpy (twi0 m') = slave_status_cpy (twi0 m)
  /\ last_op (twi0 m') = LAST_OP_W
  /\ twi1 m' = twi1 m.
Proof.
  intros W E B. unfold slave_isr, latch. cbn [periph upd_periph]. cbn.
  rewrite E. cbn. rewrite W. cbn.
  unfold BUFF_SIZE in B. rewrite in_array_true by lia.
  destruct (uint8 (RxBufferLength (twi0 m) + 1) <? BUFF_SIZE); cbn;
    rewrite orb_false_r; by repeat split.
Qed.

Lemma run_writes_frame (cnv : Z -> Z) (ws : list slave_irq) : forall (m : machine) (n : nat),
  halted (brd m) = false ->
  isrCallback_ (TWI0 m) = Some ptr_twisCallback ->
  Forall (reports TWIS_MWRITE) ws ->
  RxBufferLength (twi0 m) = Z.of_nat n ->
  (n + length ws <= 32)%nat ->
  let m' := run cnv (map (on Bus0) ws) m in
  fault m' = fault m /\ job m' = job m /\ brd m' = brd m
  /\ lastAddress_ (TWI0 m') = lastAddress_ (TWI0 m)
  /\ slave_status_cpy (twi0 m') = slave_status_cpy (twi0 m)
  /\ (ws <> [] -> last_op (twi0 m') = LAST_OP_W).
Proof.
  induction ws as [|r ws IH]; intros m n Hh W F Hn Hle; cbn [map run fold_left length].
  { by repeat split. }
  apply Forall_cons in F as [Fr F]. cbn [length] in Hle.
  fold (run cnv (map (on Bus0) ws) (step cnv (on Bus0 r) m)).
  rewrite step_irq by done.
  destruct (isr0_mwrite m (sts r) (dat r) (rm r) W Fr) as (E & _ & W1 & B1 & _ & J1 & _).
  destruct (isr0_mwrite_frame m (sts r) (dat r) (rm r) W Fr) as (F1 & A1 & S1 & L1 & _);
    [unfold BUFF_SIZE; lia|].
  set (m1 := slave_isr Bus0 _) in *. clearbody m1.
  assert (R1 : RxBufferLength (twi0 m1) = Z.of_nat (S n)).
  { rewrite E. cbn. rewrite uint8_small; lia. }
  destruct (IH m1 (S n)) as (F2 & J2 & B2 & A2 & S2 & L2); try done.
  - by rewrite B1.
  - by rewrite W1.
  - lia.
  - rewrite F2, J2, B2, A2, S2, F1, J1, B1, A1, S1. repeat split; try done.
    intros _. destruct ws as [|r' ws']; [done|]. by apply L2.
Qed.

Lemma isr0_address_idle (m : machine) (st d : Z) (room : bool) :
  isrCallback_ (TWI0 m) = Some ptr_twisCallback ->
  irq_state st = TWIS_ADDRESSED ->
  RxBufferLength (twi0 m) = 0 ->
  let m' := slave_isr Bus0 (latch Bus0 st d room m) in
  twi0 m' = mk_slave_vars (RxBuffer (twi0 m)) 0 (TxBuffer (twi0 m))
                          (TxBufferLength (twi0 m)) (TxBufferIndex (twi0 m)) st LAST_OP_A
  /\ isrCallback_ (TWI0 m') = isrCallback_ (TWI0 m)
  /\ lastAddress_ (TWI0 m') = Z.shiftr d 1
  /\ job m' = job m /\ brd m' = brd m /\ fault m' = fault m /\ rly m' = rly m.
Proof.
  intros W E R. unfold slave_isr, latch. cbn [periph upd_periph]. cbn.
  rewrite E. cbn. rewrite W. cbn. rewrite R. cbn.
  destruct (_ =? _); cbn; (split; [unfold set_last_op, set_slave_status_cpy; cbn; by rewrite R|]);
    by repeat split.
Qed.

Lemma isr0_stop_after_write (m : machine) (st d : Z) :
  isrCallback_ (TWI0 m) = Some ptr_twisCallback ->
  irq_state st = TWIS_STOPPED ->
  TxBufferLength (twi0 m) = 0 ->
  1 <= RxBufferLength (twi0 m) <= BUFF_SIZE ->
  printOp1BufferLength (job m) <= printOp1BufferIndex (job m) ->
  printOp2BufferLength (job m) <= printOp2BufferIndex (job m) ->
  let m' := slave_isr Bus0 (latch Bus0 st d true m) in
  job m' = mk_print_job
             (copy_bytes (RxBufferLength (twi0 m)) (RxBuffer (twi0 m))
                         (printOp1Buffer (job m)))
             (RxBufferLength (twi0 m)) 0 (last_op (twi0 m))
             (printOp2Buffer (job m)) (printOp2BufferLength (job m))
             (printOp2BufferIndex (job m)) (printOp2rw (job m))
             (lastAddress_ (TWI0 m)) 1
  /\ brd m' = brd m /\ fault m' = fault m
  /\ slave_status_cpy (twi0 m') = slave_status_cpy (twi0 m)
  /\ rly m' = rly m.
Proof.
  intros W E T R L1 L2. unfold slave_isr, latch. cbn [periph upd_periph]. cbn.
  rewrite E. cbn. rewrite W. cbn. rewrite T. cbn.
  rewrite (proj2 (truthy_true _)) by lia.
  unfold print_Op1_buf_if_possible, slots_free. cbn.
  rewrite (proj2 (Z.leb_le _ _) L1), (proj2 (Z.leb_le _ _) L2). cbn.
  rewrite leb_32_true by (unfold BUFF_SIZE in R; lia). cbn.
  rewrite orb_false_r. by repeat split.
Qed.

(** X14.  A write session end to end: an address interrupt, 1 to 32
    master-write bytes and a stop, arriving while the debug output is idle
    and the UART has room at the stop, print nothing by themselves; the
    following n + 5 calls of the monitor print the record with the address
    received, the status byte of the address interrupt, the length n and
    the n bytes as written bytes of slot 1. *)
Theorem write_session_is_reported (cnv : Z -> Z) (m : machine)
    (a : slave_irq) (ws : list slave_irq) (s : slave_irq) :
  halted (brd m) = false ->
  isrCallback_ (TWI0 m) = Some ptr_twisCallback ->
  RxBufferLength (twi0 m) = 0 -> TxBufferLength (twi0 m) = 0 ->
  length (RxBuffer (twi0 m)) = 32%nat ->
  job_ok (job m) ->
  debug_print_done (brd m) = 0 ->
  printOp1BufferLength (job m) <= printOp1BufferIndex (job m) ->
  printOp2BufferLength (job m) <= printOp2BufferIndex (job m) ->
  fault m = false ->
  reports TWIS_ADDRESSED a ->
  Forall (reports TWIS_MWRITE) ws -> (1 <= length ws <= 32)%nat ->
  reports TWIS_STOPPED s -> rm s = true ->
  let m1 := run cnv (map (on Bus0) (a :: ws ++ [s])) m in
  let m2 := Nat.iter (length ws + 5) i2c_monitor m1 in
  uart1_out (brd m1) = uart1_out (brd m)
  /\ uart1_out (brd m2)
     = uart1_out (brd m)
       ++ [Out_monitor (Z.shiftr (dat a) 1); Out_status (sts a);
           Out_len (Z.of_nat (length ws))]
       ++ map Out_W1 (map dat ws) ++ [Out_close]
  /\ debug_print_done (brd m2) = 0
  /\ fault m2 = false.
Proof.
  intros Hh W R0 T0 LR (LB1 & LB2 & _ & _ & [_ L2'] & I2) D L1 L2 Fl A Fw Hn S Rm m1 m2.
  unfold BUFF_SIZE in LB1, LB2, L2'. change (Z.to_nat 32) with 32%nat in LB1, LB2.
  assert (E1 : m1 = step cnv (on Bus0 s)
                      (run cnv (map (on Bus0) ws) (step cnv (on Bus0 a) m))).
  { subst m1. cbn [map]. rewrite map_app.
    change (run cnv (on Bus0 a :: map (on Bus0) ws ++ map (on Bus0) [s]) m)
      with (run cnv (map (on Bus0) ws ++ map (on Bus0) [s]) (step cnv (on Bus0 a) m)).
    by rewrite run_app. }
  rewrite (step_irq cnv Bus0 a m Hh) in E1.
  destruct (isr0_address_idle m (sts a) (dat a) (rm a) W A R0)
    as (Ea & Wa & Aa & Ja & Ba & Fa & _).
  set (ma := slave_isr Bus0 _) in *. clearbody ma.
  assert (Ha : halted (brd ma) = false) by (by rewrite Ba).
  assert (Wa' : isrCallback_ (TWI0 ma) = Some ptr_twisCallback) by (by rewrite Wa).
  assert (Ra : RxBufferLength (twi0 ma) = Z.of_nat 0) by (by rewrite Ea).
  assert (LRa : length (RxBuffer (twi0 ma)) = 32%nat) by (by rewrite Ea).
  destruct (run_writes cnv ws ma 0%nat Ha Wa' Fw Ra) as (Rw & Tk & _ & _ & Tw & _ & _ & Ww & Hw & _);
    [lia|done|].
  destruct (run_writes_frame cnv ws ma 0%nat Ha Wa' Fw Ra) as (Ff & Jf & Bf & Af & Sf & Lf);
    [lia|].
  set (mw := run cnv (map (on Bus0) ws) ma) in *. clearbody mw.
  rewrite (step_irq cnv Bus0 s mw Hw) in E1. rewrite Rm in E1.
  cbn [Nat.add] in Rw, Tk. cbn [take app] in Tk.
  destruct (isr0_stop_after_write mw (sts s) (dat s) Ww S) as (Js & Bs & Fs & Ss & _).
  - by rewrite Tw, Ea.
  - rewrite Rw. unfold BUFF_SIZE. lia.
  - by rewrite Jf, Ja.
  - by rewrite Jf, Ja.
  - rewrite <- E1 in Js, Bs, Fs, Ss.
    rewrite Lf in Js by (destruct ws; [cbn in Hn; lia|done]).
    assert (Q : queued m1).
    { unfold queued. rewrite Js, Bs, Bf, Ba, Fs, Ff, Fa, Jf, Ja. cbn.
      rewrite Rw, copy_bytes_length. unfold BUFF_SIZE, is_rw.
      repeat split; try done; try lia. }
    destruct (monitor_record m1 Q) as (O & D2 & _ & _ & F2 & _).
    assert (PN : polls_needed m1 = (length ws + 5)%nat).
    { unfold polls_needed, rest2. rewrite Js. cbn. rewrite Jf, Ja.
      rewrite Rw, drop_ge by (rewrite length_take; lia). cbn. lia. }
    rewrite PN in O, D2, F2. fold m2 in O, D2, F2.
    split; [by rewrite Bs, Bf, Ba|]. split; [|done].
    rewrite O. rewrite Bs, Bf, Ba. f_equal.
    unfold record_of, rest2. rewrite Js, Ss, Sf, Ea, Af, Aa. cbn. rewrite Jf, Ja.
    rewrite Rw. rewrite drop_ge by (rewrite length_take; lia). cbn.
    do 3 f_equal. rewrite Nat2Z.id.
    rewrite <- (Nat2Z.id (length ws)) at 1.
    rewrite copy_bytes_take; rewrite ?Nat2Z.id; try lia.
    + by rewrite Tk.
    + pose proof (f_equal length Tk) as Lk.
      rewrite length_take, length_app, length_map in Lk. cbn in Lk. lia.
Qed.

(** X20.  After [setup], along every trace of events the hardware can
    produce, every array still has its 32 elements and every length that
    bounds a copy loop or a print loop (the transmit lengths of both buses
    and the lengths of both print slots) is between 0 and 32; the callbacks
    stay registered. *)
Theorem copy_lengths_stay_in_bounds (cnv : Z -> Z) (w : world) (es : list event) :
  feasible cnv es (boot cnv w) = true ->
  let m := run cnv es (boot cnv w) in
  wired m
  /\ 0 <= TxBufferLength (twi0 m) <= BUFF_SIZE
  /\ 0 <= TxBufferLength (twi1 m) <= BUFF_SIZE
  /\ 0 <= RxBufferLength (twi1 m) <= BUFF_SIZE
  /\ 0 <= printOp1BufferLength (job m) <= BUFF_SIZE
  /\ 0 <= printOp2BufferLength (job m) <= BUFF_SIZE
  /\ Forall (fun a : list Z => length a = Z.to_nat BUFF_SIZE)
       [RxBuffer (twi0 m); TxBuffer (twi0 m); RxBuffer (twi1 m); TxBuffer (twi1 m);
        printOp1Buffer (job m); printOp2Buffer (job m); got_twi0_buf (rly m)].
Proof.
  intros F m.
  pose proof (run_safe cnv es _ (boot_safe cnv w) F) as S. fold m in S.
  destruct S as [W B0 B1 J R Fl].
  destruct B0 as (L1 & L2 & H1 & _ & H2 & _).
  destruct B1 as (L3 & L4 & H3 & _ & H4 & _).
  destruct J as (L5 & L6 & H5 & _ & H6 & _).
  split; [done|]. repeat (split; [done|]).
  repeat (apply Forall_cons; split; [done|]). constructor.
Qed.

Ltac evaluated :=
  first [ apply Z.leb_le; vm_compute; reflexivity
        | apply Z.ltb_lt; vm_compute; reflexivity
        | vm_compute; reflexivity
        | left; vm_compute; reflexivity
        | let H := fresh in intros H; apply Z.ltb_lt in H; vm_compute in H; discriminate H ].

Lemma copy_lengths_stay_in_bounds_witness :
  let m := run ticks_are_ms (write_then_read 7 ++ [Poll quiet]) (boot ticks_are_ms quiet) in
  wired m
  /\ 0 <= TxBufferLength (twi0 m) <= BUFF_SIZE
  /\ 0 <= TxBufferLength (twi1 m) <= BUFF_SIZE
  /\ 0 <= RxBufferLength (twi1 m) <= BUFF_SIZE
  /\ 0 <= printOp1BufferLength (job m) <= BUFF_SIZE
  /\ 0 <= printOp2BufferLength (job m) <= BUFF_SIZE
  /\ Forall (fun a : list Z => length a = Z.to_nat BUFF_SIZE)
       [RxBuffer (twi0 m); TxBuffer (twi0 m); RxBuffer (twi1 m); TxBuffer (twi1 m);
        printOp1Buffer (job m); printOp2Buffer (job m); got_twi0_buf (rly m)].
Proof.
  assert (H : feasible ticks_are_ms (write_then_read 7 ++ [Poll quiet])
                (boot ticks_are_ms quiet) = true) by (vm_compute; reflexivity).
  exact (copy_lengths_stay_in_bounds ticks_are_ms quiet
           (write_then_read 7 ++ [Poll quiet]) H).
Defined.

Lemma host_command_end_to_end_witness :
  let m' := step ticks_are_ms (Poll quiet)
              (step ticks_are_ms (on Bus0 stop)
                 (run ticks_are_ms (map (on Bus0) [data_r])
                    (step ticks_are_ms (on Bus0 (addr_r 42))
                       (run ticks_are_ms (on Bus0 (addr_w 42) :: map (on Bus0) (data_w 7 :: []))
                          booted)))) in
  (if dat (data_w 7) =? 7
   then pins (brd m') MCU_IO_MGR_SETAPP4_UPDI = LOGIC_LEVEL_HIGH
        /\ pins (brd m') MCU_IO_MGR_SETAPP4_UART = LOGIC_LEVEL_LOW
        /\ blink_delay (brd m') = ticks_are_ms (BLINK_DELAY / 4)
   else pins (brd m') MCU_IO_MGR_SETAPP4_UART = LOGIC_LEVEL_HIGH
        /\ pins (brd m') MCU_IO_MGR_SETAPP4_UPDI = LOGIC_LEVEL_LOW
        /\ blink_delay (brd m') = ticks_are_ms BLINK_DELAY)
  /\ got_twi0 (rly m') = 0.
Proof.
  assert (H1 : halted (brd booted) = false) by (vm_compute; reflexivity).
  assert (H2 : isrCallback_ (TWI0 booted) = Some ptr_twisCallback)
    by (vm_compute; reflexivity).
  assert (H3 : length (RxBuffer (twi0 booted)) = 32%nat) by (vm_compute; reflexivity).
  assert (H4 : length (TxBuffer (twi0 booted)) = 32%nat) by (vm_compute; reflexivity).
  assert (H5 : length (got_twi0_buf (rly booted)) = 32%nat) by (vm_compute; reflexivity).
  assert (H6 : reports TWIS_ADDRESSED (addr_w 42)) by (vm_compute; reflexivity).
  assert (H7 : Forall (reports TWIS_MWRITE) (data_w 7 :: [])) by (repeat constructor).
  assert (H8 : (length (@nil slave_irq) < 32)%nat) by (cbn; lia).
  assert (H9 : reports TWIS_ADDRESSED (addr_r 42)) by (vm_compute; reflexivity).
  assert (H10 : Forall (reports TWIS_MREAD) [data_r]) by (repeat constructor).
  assert (H11 : reports TWIS_STOPPED stop) by (vm_compute; reflexivity).
  assert (H12 : uart1_room quiet = true) by reflexivity.
  assert (H13 : uart1_rx quiet <> Some 36) by discriminate.
  exact (host_command_end_to_end ticks_are_ms booted (addr_w 42) (data_w 7) []
           (addr_r 42) [data_r] stop quiet H1 H2 H3 H4 H5 H6 H7 H8 H9 H10 H11 H12 H13).
Defined.


Lemma letter_a_stops_blinking_witness :
  let m := booted in
  let m1 := step ticks_are_ms (Poll (mk_world true (Some 97) 0 0)) m in
  let m2 := run ticks_are_ms [Poll (mk_world true None 5000 5000); on Bus0 (addr_w 42)] m1 in
  got_a (brd m1) = 1
  /\ pins (brd m1) MCU_IO_MGR_LED = pins (brd m) MCU_IO_MGR_LED
  /\ blink_started_at (brd m1) = blink_started_at (brd m)
  /\ got_a (brd m2) = 1
  /\ pins (brd m2) MCU_IO_MGR_LED = pins (brd m) MCU_IO_MGR_LED
  /\ blink_started_at (brd m2) = blink_started_at (brd m).
Proof.
  assert (H1 : halted (brd booted) = false) by (vm_compute; reflexivity).
  assert (H2 : uart1_rx (mk_world true (Some 97) 0 0) = Some 97) by reflexivity.
  assert (H3 : Forall no_input [Poll (mk_world true None 5000 5000); on Bus0 (addr_w 42)])
    by (repeat constructor).
  exact (letter_a_stops_blinking ticks_are_ms booted (mk_world true (Some 97) 0 0)
           [Poll (mk_world true None 5000 5000); on Bus0 (addr_w 42)] H1 H2 H3).
Defined.

Lemma bare_address_session_is_a_ping_witness :
  let m := booted in
  let m' := run ticks_are_ms [on Bus0 (addr_w 42); on Bus0 stop] m in
  let idle := (printOp1BufferLength (job m) <=? printOp1BufferIndex (job m))
              && (printOp2BufferLength (job m) <=? printOp2BufferIndex (job m))
              && rm stop in
  uart1_out (brd m') = uart1_out (brd m) ++ (if idle then [Out_ping fromHost_addr] else [])
  /\ printing (job m') = b2z idle
  /\ rly m' = rly m
  /\ SCTRLB (periph Bus0 m') = 6.
Proof.
  assert (H1 : halted (brd booted) = false) by (vm_compute; reflexivity).
  assert (H2 : isrCallback_ (periph Bus0 booted) = Some ptr_twisCallback)
    by (vm_compute; reflexivity).
  assert (H3 : RxBufferLength (twi0 booted) = 0) by (vm_compute; reflexivity).
  assert (H4 : TxBufferLength (twi0 booted) = 0) by (vm_compute; reflexivity).
  assert (H5 : reports TWIS_ADDRESSED (addr_w 42)) by (vm_compute; reflexivity).
  assert (H6 : reports TWIS_STOPPED stop) by (vm_compute; reflexivity).
  exact (bare_address_session_is_a_ping ticks_are_ms booted Bus0 (addr_w 42) stop
           H1 H2 H3 H4 H5 H6).
Defined.

Lemma monitor_prints_whole_record_witness :
  let m := run ticks_are_ms (map (on Bus0) [addr_w 42; data_w 7; stop]) booted in
  let m' := Nat.iter (polls_needed m) i2c_monitor m in
  uart1_out (brd m') = uart1_out (brd m) ++ record_of m
  /\ debug_print_done (brd m') = 0
  /\ printOp1BufferLength (job m') <= printOp1BufferIndex (job m')
  /\ printOp2BufferLength (job m') <= printOp2BufferIndex (job m')
  /\ fault m' = false
  /\ twi0 m' = twi0 m /\ twi1 m' = twi1 m /\ rly m' = rly m
  /\ pins (brd m') = pins (brd m).
Proof.
  assert (H : queued (run ticks_are_ms (map (on Bus0) [addr_w 42; data_w 7; stop]) booted))
    by (unfold queued; repeat split; evaluated).
  exact (monitor_prints_whole_record
           (run ticks_are_ms (map (on Bus0) [addr_w 42; data_w 7; stop]) booted) H).
Defined.

Lemma write_session_is_reported_witness :
  let m := booted in
  let m1 := run ticks_are_ms (map (on Bus0) (addr_w 42 :: [data_w 7] ++ [stop])) m in
  let m2 := Nat.iter (length [data_w 7] + 5) i2c_monitor m1 in
  uart1_out (brd m1) = uart1_out (brd m)
  /\ uart1_out (brd m2)
     = uart1_out (brd m)
       ++ [Out_monitor (Z.shiftr (dat (addr_w 42)) 1); Out_status (sts (addr_w 42));
           Out_len (Z.of_nat (length [data_w 7]))]
       ++ map Out_W1 (map dat [data_w 7]) ++ [Out_close]
  /\ debug_print_done (brd m2) = 0
  /\ fault m2 = false.
Proof.
  assert (H1 : halted (brd booted) = false) by (vm_compute; reflexivity).
  assert (H2 : isrCallback_ (TWI0 booted) = Some ptr_twisCallback)
    by (vm_compute; reflexivity).
  assert (H3 : RxBufferLength (twi0 booted) = 0) by (vm_compute; reflexivity).
  assert (H4 : TxBufferLength (twi0 booted) = 0) by (vm_compute; reflexivity).
  assert (H5 : length (RxBuffer (twi0 booted)) = 32%nat) by (vm_compute; reflexivity).
  assert (H6 : job_ok (job booted)) by (unfold job_ok; repeat split; evaluated).
  assert (H7 : debug_print_done (brd booted) = 0) by (vm_compute; reflexivity).
  assert (H8 : printOp1BufferLength (job booted) <= printOp1BufferIndex (job booted))
    by evaluated.
  assert (H9 : printOp2BufferLength (job booted) <= printOp2BufferIndex (job booted))
    by evaluated.
  assert (H10 : fault booted = false) by (vm_compute; reflexivity).
  assert (H11 : reports TWIS_ADDRESSED (addr_w 42)) by (vm_compute; reflexivity).
  assert (H12 : Forall (reports TWIS_MWRITE) [data_w 7]) by (repeat constructor).
  assert (H13 : (1 <= length [data_w 7] <= 32)%nat) by (cbn; lia).
  assert (H14 : reports TWIS_STOPPED stop) by (vm_compute; reflexivity).
  assert (H15 : rm stop = true) by reflexivity.
  exact (write_session_is_reported ticks_are_ms booted (addr_w 42) [data_w 7] stop
           H1 H2 H3 H4 H5 H6 H7 H8 H9 H10 H11 H12 H13 H14 H15).
Defined.

Lemma monitor_stays_wedged_witness :
  let m := run ticks_are_ms (write_restart_stop ++ repeat (Poll quiet) 5) booted in
  let m' := run ticks_are_ms
              [on Bus0 (addr_w 42); on Bus0 (data_w 9); on Bus0 stop; Poll quiet] m in
  parked m' = true
  /\ slots_free m' = false
  /\ i2c_monitor m' = m'
  /\ exists tail, uart1_out (brd m') = uart1_out (brd m) ++ tail
                  /\ forallb console tail = true.
Proof.
  assert (H : parked (run ticks_are_ms (write_restart_stop ++ repeat (Poll quiet) 5) booted)
              = true) by (vm_compute; reflexivity).
  exact (monitor_stays_wedged ticks_are_ms
           [on Bus0 (addr_w 42); on Bus0 (data_w 9); on Bus0 stop; Poll quiet]
           (run ticks_are_ms (write_restart_stop ++ repeat (Poll quiet) 5) booted) H).
Defined.

